(** * Figure-extraction scripts of the publication site: a shallow embedding

    The repository holds three batch scripts:
    - [scripts/extract_fig1_yaml.py]      (module [Yaml]),
    - [scripts/extract_remaining_figs.py] (module [Remaining]),
    - [scripts/extract_fig1.py]           (module [Html]).

    Python strings are modelled as [string], byte strings as [list byte],
    what [yaml.safe_load] builds as a value of [YVal] (a dictionary as an
    association list), an expression that may raise as a value of [Try],
    the image directory as a finite map from paths to file contents, and
    exceptions, [sys.exit] and the mutable world as a state-and-exception
    monad.

    What the model takes for granted:
    - the data file, when it parses, gives [None], booleans, integers,
      finite floats, text, lists and dictionaries with text keys; time
      stamps, binary data, sets and aliases (one object at two places)
      are left out;
    - strings are UTF-8 byte strings: the character classes of [slugify]
      act on ASCII, and [lower] maps the ASCII capitals and the two other
      characters whose lower case holds an ASCII letter (U+212A and
      U+0130); any other character is left as it is, its lower case
      being no ASCII letter either;
    - [requests] turns down a URL that is no text before anything is sent;
    - the PDF library gives the encoded bytes of every image it lists and
      an extension that [with_suffix] accepts;
    - writing a file, creating a directory and printing do not fail;
      directories, the console and the temporary directory of a download
      are not part of the state;
    - loading the data file after a dump gives the value that was dumped. *)

From Stdlib Require Import ZArith QArith Ascii String List Lia Bool.
From stdpp Require Import base option list gmap strings pretty.

Local Open Scope string_scope.

(** ** Python string operations *)

Module PyStr.

(** [s.startswith(p)] *)
Definition startswith (p s : string) : bool := String.prefix p s.

(** [sub in s] *)
Fixpoint contains (sub s : string) : bool :=
  String.prefix sub s ||
  match s with
  | EmptyString => false
  | String _ s' => contains sub s'
  end.

(** [s.endswith(suf)]: some tail of [s] is [suf]. *)
Fixpoint endswith (suf s : string) : bool :=
  String.eqb s suf ||
  match s with
  | EmptyString => false
  | String _ s' => endswith suf s'
  end.

(** [s.replace(old, new)] for a non-empty [old]: occurrences are found
    from the left and do not overlap.  [skip] counts the characters of a
    matched occurrence that remain to be dropped. *)
Fixpoint replace_from (old new s : string) (skip : nat) : string :=
  match s with
  | EmptyString => EmptyString
  | String c s' =>
      match skip with
      | S k => replace_from old new s' k
      | O =>
          if String.prefix old s
          then new +:+ replace_from old new s' (String.length old - 1)
          else String c (replace_from old new s' 0)
      end
  end.

Definition replace (old new s : string) : string := replace_from old new s 0.

(** [s.lstrip('/')] *)
Fixpoint lstrip_slash (s : string) : string :=
  match s with
  | String "/"%char s' => lstrip_slash s'
  | _ => s
  end.

(** Truthiness of an optional string: [None] and [''] are falsy. *)
Definition truthy (o : option string) : bool :=
  match o with
  | Some s => negb (String.eqb s "")
  | None => false
  end.

End PyStr.

(** ** Values loaded from the data file *)

(** What [yaml.safe_load] builds.  A float stands as the rational it
    denotes; the pairs of a dictionary are in insertion order. *)
#[warnings="-register-all"]
Inductive YVal : Type :=
| YNull
| YBool (b : bool)
| YInt (z : Z)
| YFloat (q : Q)
| YStr (s : string)
| YSeq (items : list YVal)
| YMap (pairs : list (string * YVal)).

(** The outcome of an expression: its value, or the class of the
    exception it raises. *)
Inductive Try (A : Type) : Type :=
| Returns (a : A)
| Raises (name : string).
Arguments Returns {A} a.
Arguments Raises {A} name.

#[global] Instance Try_ret : MRet Try := fun A a => Returns a.
#[global] Instance Try_bind : MBind Try := fun A B f m =>
  match m with
  | Returns a => f a
  | Raises name => Raises name
  end.

(** The operations of Python the scripts apply to loaded values. *)
Module Py.

(** The value under the key [k] of a dictionary, if the key is there. *)
Fixpoint find_key (k : string) (pairs : list (string * YVal)) : option YVal :=
  match pairs with
  | [] => None
  | (k', v) :: rest => if String.eqb k' k then Some v else find_key k rest
  end.

(** [d[k] = v]: an existing key keeps its place, a new key comes last. *)
Fixpoint set_key (k : string) (v : YVal) (pairs : list (string * YVal))
  : list (string * YVal) :=
  match pairs with
  | [] => [(k, v)]
  | (k', v') :: rest =>
      if String.eqb k' k then (k', v) :: rest else (k', v') :: set_key k v rest
  end.

(** [bool(v)] *)
Definition truthy (v : YVal) : bool :=
  match v with
  | YNull => false
  | YBool b => b
  | YInt z => negb (z =? 0)%Z
  | YFloat q => negb (Qeq_bool q 0)
  | YStr s => negb (String.eqb s "")
  | YSeq items => match items with [] => false | _ :: _ => true end
  | YMap pairs => match pairs with [] => false | _ :: _ => true end
  end.

(** [v == n] for an integer literal [n]; [True] and [False] compare as
    1 and 0. *)
Definition eq_int (v : YVal) (n : Z) : bool :=
  match v with
  | YInt z => (z =? n)%Z
  | YFloat q => Qeq_bool q (inject_Z n)
  | YBool b => ((if b then 1 else 0) =? n)%Z
  | _ => false
  end.

(** [v == s] for a string literal [s] *)
Definition eq_str (v : YVal) (s : string) : bool :=
  match v with
  | YStr t => String.eqb t s
  | _ => false
  end.

(** [v.get(k, d)]: only a dictionary has the method. *)
Definition get (v : YVal) (k : string) (d : YVal) : Try YVal :=
  match v with
  | YMap pairs => Returns (default d (find_key k pairs))
  | _ => Raises "AttributeError"
  end.

(** [v[k]] for a string literal [k] *)
Definition getitem (v : YVal) (k : string) : Try YVal :=
  match v with
  | YMap pairs =>
      match find_key k pairs with
      | Some x => Returns x
      | None => Raises "KeyError"
      end
  | _ => Raises "TypeError"
  end.

(** [x in v] for a string literal [x]: a substring of a text, an item of
    a list, a key of a dictionary. *)
Definition contains (x : string) (v : YVal) : Try bool :=
  match v with
  | YStr s => Returns (PyStr.contains x s)
  | YSeq items => Returns (existsb (fun item => eq_str item x) items)
  | YMap pairs => Returns (bool_decide (is_Some (find_key x pairs)))
  | _ => Raises "TypeError"
  end.

(** The items a [for] loop over [v] visits: those of a list, the keys of
    a dictionary, the characters of a text (here its bytes: the loops of
    the scripts raise on the first of them). *)
Definition iter (v : YVal) : Try (list YVal) :=
  match v with
  | YSeq items => Returns items
  | YMap pairs => Returns (map (fun kv => YStr kv.1) pairs)
  | YStr s => Returns (map (fun c => YStr (String c "")) (list_ascii_of_string s))
  | _ => Raises "TypeError"
  end.

(** [len(v)] *)
Definition len (v : YVal) : Try nat :=
  match v with
  | YSeq items => Returns (length items)
  | YMap pairs => Returns (length pairs)
  | YStr s => Returns (String.length s)
  | _ => Raises "TypeError"
  end.

(** [v.replace(old, new)]: only a text has the method. *)
Definition replace (old new : string) (v : YVal) : Try string :=
  match v with
  | YStr s => Returns (PyStr.replace old new s)
  | _ => Raises "AttributeError"
  end.

(** Whether [hash(v)] is defined: lists and dictionaries have no hash. *)
Definition hashable (v : YVal) : bool :=
  match v with
  | YSeq _ | YMap _ => false
  | _ => true
  end.

End Py.

(** [d.get(key, default)] on the records the HTML batch builds *)
Definition get_default {A} (o : option A) (d : A) : A :=
  match o with Some a => a | None => d end.

(** A [<tr class="publication">] row of [publications/index.html], reduced
    to what the script reads: the text of its first [<b>], the [href]s of
    its anchors in document order, and the [src] of its first [<img>]. *)
Record Row := mkRow {
  row_title : option string;
  row_hrefs : list string;
  row_img_src : option string
}.

(** ** Title slugs *)

(** [slugify]; the three scripts carry the same definition.  A byte
    outside [a-z0-9] counts as a character outside the class. *)
Module Slug.

Definition is_space (c : ascii) : bool :=
  let n := nat_of_ascii c in
  ((9 <=? n) && (n <=? 13) || (28 <=? n) && (n <=? 32))%nat.

Definition lower_char (c : ascii) : ascii :=
  let n := nat_of_ascii c in
  if ((65 <=? n) && (n <=? 90))%nat then ascii_of_nat (n + 32) else c.

(** The bytes of U+0130, LATIN CAPITAL LETTER I WITH DOT ABOVE. *)
Definition is_dotted_capital_i (a b : ascii) : bool :=
  Ascii.eqb a "196" && Ascii.eqb b "176".

(** The bytes of U+212A, KELVIN SIGN. *)
Definition is_kelvin_sign (a b c : ascii) : bool :=
  Ascii.eqb a "226" && Ascii.eqb b "132" && Ascii.eqb c "170".

Definition is_slug_alnum (c : ascii) : bool :=
  let n := nat_of_ascii c in
  ((97 <=? n) && (n <=? 122) || (48 <=? n) && (n <=? 57))%nat.

Definition is_dash (c : ascii) : bool := Ascii.eqb c "-".

Fixpoint lstrip (P : ascii -> bool) (s : string) : string :=
  match s with
  | String c s' => if P c then lstrip P s' else s
  | EmptyString => EmptyString
  end.

Fixpoint rstrip (P : ascii -> bool) (s : string) : string :=
  match s with
  | String c s' =>
      let r := rstrip P s' in
      if P c && String.eqb r "" then "" else String c r
  | EmptyString => EmptyString
  end.

Definition strip (P : ascii -> bool) (s : string) : string := rstrip P (lstrip P s).

(** [s.lower()]: U+0130 becomes [i] followed by U+0307, U+212A becomes
    [k], an ASCII capital its small letter. *)
Fixpoint lower (s : string) : string :=
  match s with
  | EmptyString => EmptyString
  | String a s1 =>
      match s1 with
      | EmptyString => String (lower_char a) EmptyString
      | String b s2 =>
          if is_dotted_capital_i a b
          then String "i" (String "204" (String "135" (lower s2)))
          else
            match s2 with
            | EmptyString => String (lower_char a) (lower s1)
            | String c s3 =>
                if is_kelvin_sign a b c then String "k" (lower s3)
                else String (lower_char a) (lower s1)
            end
      end
  end.

(** [re.sub(r"C+", "-", s)] for a character class [C]: every maximal run
    of characters of the class becomes one dash. *)
Fixpoint sub_runs (in_class : ascii -> bool) (in_run : bool) (s : string) : string :=
  match s with
  | String c s' =>
      if in_class c
      then (if in_run then sub_runs in_class true s'
            else String "-" (sub_runs in_class true s'))
      else String c (sub_runs in_class false s')
  | EmptyString => EmptyString
  end.

Definition slugify (text : string) : string :=
  let s := lower (strip is_space text) in
  let s := sub_runs (fun c => negb (is_slug_alnum c)) false s in
  let s := sub_runs is_dash false s in
  strip is_dash s.

(** [slugify(text)] for a loaded value: [text.strip()] raises on
    anything but a text. *)
Definition of_value (text : YVal) : Try string :=
  match text with
  | YStr s => Returns (slugify s)
  | _ => Raises "AttributeError"
  end.

End Slug.

(** ** Paths *)

(** A [pathlib] path with a non-empty final component. *)
Record Path := mkPath {
  path_parent : list string;
  path_name : string
}.

#[global] Instance Path_eq_dec : EqDecision Path.
Proof. solve_decision. Defined.

#[global] Instance Path_countable : Countable Path.
Proof.
  refine (inj_countable' (fun p => (path_parent p, path_name p))
                         (fun q => mkPath q.1 q.2) _).
  intros []; reflexivity.
Defined.

Module PyPath.

Fixpoint split_on (sep : ascii) (s : string) : list string :=
  match s with
  | EmptyString => [""]
  | String c s' =>
      if Ascii.eqb c sep then "" :: split_on sep s'
      else match split_on sep s' with
           | seg :: segs => String c seg :: segs
           | [] => [String c ""]
           end
  end.

(** The components [pathlib] keeps of a relative path string: empty
    components and [.] are dropped. *)
Definition parts (s : string) : list string :=
  filter (fun seg => seg <> "" /\ seg <> ".") (split_on "/" s).

(** [p / s] for a relative [s] *)
Definition joinpath (p : Path) (s : string) : Path :=
  match reverse (parts s) with
  | [] => p
  | n :: rev_dirs => mkPath (path_parent p ++ path_name p :: reverse rev_dirs) n
  end.

(** [name.rfind('.')] *)
Fixpoint rfind_dot (s : string) (i : nat) : option nat :=
  match s with
  | EmptyString => None
  | String c s' =>
      match rfind_dot s' (S i) with
      | Some j => Some j
      | None => if Ascii.eqb c "." then Some i else None
      end
  end.

(** [PurePath.suffix]: the part of the name from its last dot, unless
    that dot is the first or the last character. *)
Definition suffix (name : string) : string :=
  match rfind_dot name 0 with
  | Some i =>
      if ((0 <? i) && (i <? String.length name - 1))%nat
      then String.substring i (String.length name - i) name
      else ""
  | None => ""
  end.

(** [p.with_suffix(suf)], for a [suf] that is empty or a dot followed by
    characters other than the separator (otherwise Python raises
    [ValueError]; the extensions the PDF library reports and the
    literals of the scripts are of that form). *)
Definition with_suffix (p : Path) (suf : string) : Path :=
  let name := path_name p in
  let old := suffix name in
  mkPath (path_parent p)
         (String.substring 0 (String.length name - String.length old) name +:+ suf).

End PyPath.

(** ** Documents and files *)

(** What [doc.extract_image(xref)] returns for an image listed by
    [page.get_images]: the encoded bytes, and the extension when the
    library reports one. *)
Record ImgDict := mkImg {
  img_image : list Byte.byte;
  img_ext : option string
}.

(** A page, as the list [page.get_images(full=True)] resolved through
    [doc.extract_image]. *)
Record Page := mkPage { get_images : list ImgDict }.

Definition Doc := list Page.

Inductive FileData :=
| ImageBytes (b : list Byte.byte)          (** [f.write(img_bytes)] *)
| PixmapPng (page : Page) (dpi : Z).       (** [page.get_pixmap(dpi).save(path)] *)

(** ** The world the scripts run in *)

(** What opening, reading and parsing a file of the site gives: an
    exception of the class [name] (the file is no UTF-8 text, the data
    file is no YAML), or the value built from it. *)
Inductive Loaded (A : Type) :=
| Unreadable (name : string)
| Parsed (v : A).
Arguments Unreadable {A} name.
Arguments Parsed {A} v.

(** The site tree and the trace of what a script did to the outside:
    - [yaml_file]: [_data/publications.yml], absent or present with what
      loading it gives ([Parsed YNull] for an empty document);
    - [html_rows]: [publications/index.html], absent or present with
      what reading it gives (its publication rows, when it is read);
    - [files]: the image files;
    - [http_log]: the URLs requested, most recent first;
    - [yaml_dumps]: how many times the data file was rewritten. *)
Record Sys := mkSys {
  yaml_file : option (Loaded YVal);
  html_rows : option (Loaded (list Row));
  files : gmap Path FileData;
  http_log : list string;
  yaml_dumps : nat
}.

(** What lies outside the site tree: where the repository is checked out,
    what a GET of a URL gives ([None]: a transport error or a non-success
    status) and what [fitz.open] makes of a downloaded file ([None]: not a
    document it can open). *)
Record World := mkWorld {
  ROOT : Path;
  http_get : string -> option (list Byte.byte);
  fitz_open : list Byte.byte -> option Doc
}.

Definition IMAGES_DIR (w : World) : Path :=
  PyPath.joinpath (PyPath.joinpath (ROOT w) "images") "publications".

(** ** Exceptions and state *)

Inductive Exn :=
| SystemExit (code : Z)      (** raised by [sys.exit]; not an [Exception] *)
| Error (name : string).     (** any subclass of [Exception] *)

Inductive Res (A : Type) :=
| Ret (a : A) (s : Sys)
| Raise (e : Exn) (s : Sys).
Arguments Ret {A} a s.
Arguments Raise {A} e s.

Definition M (A : Type) : Type := Sys -> Res A.

#[global] Instance M_ret : MRet M := fun A a s => Ret a s.
#[global] Instance M_bind : MBind M := fun A B f m s =>
  match m s with
  | Ret a s' => f a s'
  | Raise e s' => Raise e s'
  end.

Definition raise {A} (e : Exn) : M A := fun s => Raise e s.
Definition get_sys : M Sys := fun s => Ret s s.
Definition sys_exit {A} (code : Z) : M A := raise (SystemExit code).

(** An expression evaluated in the course of a script: its exception, if
    any, is raised there. *)
Definition lift {A} (t : Try A) : M A := fun s =>
  match t with
  | Returns a => Ret a s
  | Raises name => Raise (Error name) s
  end.

(** [try: body / except Exception as e: handler e]; [SystemExit] passes. *)
Definition try_except {A} (body : M A) (handler : string -> M A) : M A := fun s =>
  match body s with
  | Raise (Error name) s' => handler name s'
  | r => r
  end.

(** [path.exists()] *)
Definition exists_ (p : Path) : M bool := fun s => Ret (bool_decide (is_Some (files s !! p))) s.

(** The site tree once [data] is written to the file at [p] (created or
    overwritten). *)
Definition put_file (p : Path) (data : FileData) (s : Sys) : Sys :=
  mkSys (yaml_file s) (html_rows s) (<[p := data]> (files s)) (http_log s) (yaml_dumps s).

Definition write_file (p : Path) (data : FileData) : M unit := fun s =>
  Ret tt (put_file p data s).

(** The site tree once [publications] is dumped into the data file. *)
Definition put_yaml (publications : YVal) (s : Sys) : Sys :=
  mkSys (Some (Parsed publications)) (html_rows s) (files s) (http_log s) (S (yaml_dumps s)).

(** [yaml.dump(publications, f, ...)] into the data file. *)
Definition dump_yaml (publications : YVal) : M unit := fun s =>
  Ret tt (put_yaml publications s).

(** The trace once [url] is requested. *)
Definition log_request (url : string) (s : Sys) : Sys :=
  mkSys (yaml_file s) (html_rows s) (files s) (url :: http_log s) (yaml_dumps s).

(** [download_file]: the same in the three scripts.  The bytes stand for
    the temporary file they are streamed to. *)
Definition download_file (w : World) (url : string) : M (list Byte.byte) := fun s =>
  let s' := log_request url s in
  match http_get w url with
  | Some b => Ret b s'
  | None => Raise (Error "RequestException") s'
  end.

(** [fitz.open(str(pdf_path))] *)
Definition open_doc (w : World) (pdf : list Byte.byte) : M Doc := fun s =>
  match fitz_open w pdf with
  | Some doc => Ret doc s
  | None => Raise (Error "FileDataError") s
  end.

(** The exit status of the process. *)
Definition exit_status {A} (r : Res A) : Z :=
  match r with
  | Ret _ _ => 0
  | Raise (SystemExit code) _ => code
  | Raise (Error _) _ => 1
  end.

Definition final_sys {A} (r : Res A) : Sys :=
  match r with Ret _ s => s | Raise _ s => s end.

(** ** The YAML batch: [scripts/extract_fig1_yaml.py] *)

Module Yaml.

(** The loop of [find_pdf_url], lines 38-50: the first link, in list
    order, that is either an arXiv link whose URL mentions [arxiv.org] or
    a [pdf] link decides. *)
Fixpoint find_in_links (ls : list YVal) : Try YVal :=
  match ls with
  | [] => Returns YNull
  | link :: rest =>
      link_type ← Py.get link "type" (YStr "");
      url ← Py.get link "url" (YStr "");
      is_arxiv ← (if Py.eq_str link_type "arxiv" then Py.contains "arxiv.org" url
                  else Returns false);
      if is_arxiv : bool then
        has_abs ← Py.contains "/abs/" url;
        if has_abs : bool then
          replaced ← Py.replace "/abs/" "/pdf/" url;
          Returns (YStr (replaced +:+ ".pdf"))
        else Returns url
      else if Py.eq_str link_type "pdf" then Returns url
      else find_in_links rest
  end.

(** [find_pdf_url], lines 33-52 *)
Definition find_pdf_url (paper : YVal) : Try YVal :=
  has_links ← Py.contains "links" paper;
  if negb has_links then Returns YNull
  else
    links ← Py.getitem paper "links";
    items ← Py.iter links;
    find_in_links items.

(** The inner loop of [extract_first_image_from_pdf], lines 76-93: the
    result is [true] when the function returned from inside the loop. *)
Fixpoint scan_images (images : list ImgDict) (out_path : Path) : M bool :=
  match images with
  | [] => mret false
  | img_dict :: rest =>
      let img_bytes := img_image img_dict in
      if (Z.of_nat (length img_bytes) <? 10000)%Z then scan_images rest out_path
      else
        let ext := get_default (img_ext img_dict) "png" in
        let final_path := PyPath.with_suffix out_path ("." +:+ ext) in
        _ ← write_file final_path (ImageBytes img_bytes);
        mret true
  end.

(** The outer loop, lines 71-73, over the page numbers of the range. *)
Fixpoint scan_pages (doc : Doc) (page_nums : list nat) (out_path : Path) : M bool :=
  match page_nums with
  | [] => mret false
  | page_num :: rest =>
      match doc !! page_num with
      | None => raise (Error "IndexError")
      | Some page =>
          found ← scan_images (get_images page) out_path;
          if found : bool then mret true else scan_pages doc rest out_path
      end
  end.

(** [extract_first_image_from_pdf], lines 66-105 *)
Definition extract_first_image_from_pdf (w : World) (pdf : list Byte.byte) (out_path : Path) : M bool :=
  doc ← open_doc w pdf;
  found ← scan_pages doc (seq 0 (Nat.min 3 (length doc))) out_path;
  if found : bool then mret true
  else
    match doc with
    | page :: _ =>
        let png_path := PyPath.with_suffix out_path ".png" in
        _ ← write_file png_path (PixmapPng page 150);
        mret true
    | [] => mret false
    end.

(** [paper['picture'] = p]; the loop body reaches it with a dictionary
    only. *)
Definition set_picture (paper : YVal) (p : string) : YVal :=
  match paper with
  | YMap pairs => YMap (Py.set_key "picture" (YStr p) pairs)
  | other => other
  end.

(** The loop over [['.png', '.jpg', '.jpeg']], lines 167-174 *)
Fixpoint probe_exts (exts : list string) (target_path : Path) (paper : YVal) (updated : bool)
  : M (YVal * bool) :=
  match exts with
  | [] => mret (paper, updated)
  | ext :: rest =>
      let img_file := PyPath.with_suffix target_path ext in
      found ← exists_ img_file;
      if found : bool
      then mret (set_picture paper ("/images/publications/" +:+ path_name img_file), true)
      else probe_exts rest target_path paper updated
  end.

(** [download_file(pdf_url, pdf_tmp)] for the value the resolver gave:
    a URL that is no text is turned down by [requests] before anything
    is sent, with one of its exceptions (which one is of no consequence:
    the caller catches any). *)
Definition download_url (w : World) (pdf_url : YVal) : M (list Byte.byte) :=
  match pdf_url with
  | YStr url => download_file w url
  | _ => raise (Error "MissingSchema")
  end.

(** The body of the loop of [main], lines 129-178, on the item of
    index [i]; it yields the item and the [updated] flag as the
    iteration leaves them. *)
Definition process_paper (w : World) (i : nat) (paper : YVal) (updated : bool)
  : M (YVal * bool) :=
  year ← lift (Py.get paper "year" YNull);
  title ← lift (Py.get paper "title" (YStr ("paper-" +:+ pretty i)));
  if negb (Py.eq_int year 2025) then mret (paper, updated)
  else
    picture ← lift (Py.get paper "picture" YNull);
    if Py.truthy picture then mret (paper, updated)
    else
      pdf_url ← lift (find_pdf_url paper);
      if negb (Py.truthy pdf_url) then mret (paper, updated)
      else
        slug ← lift (Slug.of_value title);
        let target_path := PyPath.joinpath (IMAGES_DIR w) slug in
        downloaded ← try_except (pdf_tmp ← download_url w pdf_url; mret (Some pdf_tmp))
                                (fun _ => mret None);
        match downloaded with
        | None => mret (paper, updated)
        | Some pdf_tmp =>
            try_except
              (success ← extract_first_image_from_pdf w pdf_tmp target_path;
               if success : bool
               then probe_exts [".png"; ".jpg"; ".jpeg"] target_path paper updated
               else mret (paper, updated))
              (fun _ => mret (paper, updated))
        end.

(** [for i, paper in enumerate(publications)], from index [i] on *)
Fixpoint process_all (w : World) (i : nat) (papers : list YVal) (updated : bool)
  : M (list YVal * bool) :=
  match papers with
  | [] => mret ([], updated)
  | paper :: rest =>
      '(paper', updated') ← process_paper w i paper updated;
      '(rest', updated'') ← process_all w (S i) rest updated';
      mret (paper' :: rest', updated'')
  end.

(** The object [publications] once the loop has run over its items: the
    dictionaries of a list are changed in place, keys and characters are
    not. *)
Definition with_items (publications : YVal) (items : list YVal) : YVal :=
  match publications with
  | YSeq _ => YSeq items
  | other => other
  end.

(** [main], lines 108-188 *)
Definition main (w : World) : M unit :=
  s ← get_sys;
  match yaml_file s with
  | None => sys_exit 1
  | Some (Unreadable name) => raise (Error name)
  | Some (Parsed publications) =>
      if negb (Py.truthy publications) then sys_exit 1
      else
        _ ← lift (Py.len publications);
        items ← lift (Py.iter publications);
        '(items', updated) ← process_all w 0 items false;
        if updated : bool then dump_yaml (with_items publications items') else mret tt
  end.

End Yaml.

(** ** The manual batch: [scripts/extract_remaining_figs.py] *)

Module Remaining.

(** Lines 39-55 *)
Fixpoint scan_images (images : list ImgDict) (out_path : Path) : M bool :=
  match images with
  | [] => mret false
  | img_dict :: rest =>
      let img_bytes := img_image img_dict in
      if (Z.of_nat (length img_bytes) <? 10000)%Z then scan_images rest out_path
      else
        let ext := get_default (img_ext img_dict) "png" in
        let final_path := PyPath.with_suffix out_path ("." +:+ ext) in
        _ ← write_file final_path (ImageBytes img_bytes);
        mret true
  end.

(** Lines 35-37 *)
Fixpoint scan_pages (doc : Doc) (page_nums : list nat) (out_path : Path) : M bool :=
  match page_nums with
  | [] => mret false
  | page_num :: rest =>
      match doc !! page_num with
      | None => raise (Error "IndexError")
      | Some page =>
          found ← scan_images (get_images page) out_path;
          if found : bool then mret true else scan_pages doc rest out_path
      end
  end.

(** [extract_first_image_from_pdf], lines 31-67 *)
Definition extract_first_image_from_pdf (w : World) (pdf : list Byte.byte) (out_path : Path) : M bool :=
  doc ← open_doc w pdf;
  found ← scan_pages doc (seq 0 (Nat.min 3 (length doc))) out_path;
  if found : bool then mret true
  else
    match doc with
    | page :: _ =>
        let png_path := PyPath.with_suffix out_path ".png" in
        _ ← write_file png_path (PixmapPng page 150);
        mret true
    | [] => mret false
    end.

(** The table of [main], lines 71-80 *)
Definition manual_pdfs : gmap string string :=
  <["DataGen: Unified Synthetic Dataset Generation via Large Language Models" :=
      "https://openreview.net/pdf?id=F5R0lG74Tu"]>
  (<["Can Watermarks be Used to Detect LLM IP Infringement For Free?" :=
      "https://openreview.net/pdf?id=KRMSH1GxUK"]>
  (<["PIGuard: Prompt Injection Guardrail via Mitigating Overdefense for Free" :=
      "https://aclanthology.org/2025.acl-long.1468.pdf"]>
  (<["MetaAgent: Automatically Building Multi-Agent System based on Finite State Machine" :=
      "https://openreview.net/pdf?id=vOxaD3hhPt"]> ∅))).

(** [title not in manual_pdfs] and [manual_pdfs[title]], lines 89 and
    97: a list or a dictionary cannot be looked up, a value that is no
    text is no key. *)
Definition in_table (title : YVal) : Try (option string) :=
  match title with
  | YStr t => Returns (manual_pdfs !! t)
  | YSeq _ | YMap _ => Raises "TypeError"
  | _ => Returns None
  end.

(** Lines 113-119 *)
Fixpoint probe_exts (exts : list string) (target_path : Path) (pub : YVal) (updated : bool)
  : M (YVal * bool) :=
  match exts with
  | [] => mret (pub, updated)
  | ext :: rest =>
      let img_file := PyPath.with_suffix target_path ext in
      found ← exists_ img_file;
      if found : bool
      then mret (Yaml.set_picture pub ("/images/publications/" +:+ path_name img_file), true)
      else probe_exts rest target_path pub updated
  end.

(** The body of the loop of [main], lines 87-121 *)
Definition process_pub (w : World) (pub : YVal) (updated : bool) : M (YVal * bool) :=
  title ← lift (Py.get pub "title" (YStr ""));
  entry ← lift (in_table title);
  match entry with
  | None => mret (pub, updated)
  | Some pdf_url =>
      picture ← lift (Py.get pub "picture" YNull);
      if Py.truthy picture then mret (pub, updated)
      else
        slug ← lift (Slug.of_value title);
        let target_path := PyPath.joinpath (IMAGES_DIR w) slug in
        downloaded ← try_except (pdf_tmp ← download_file w pdf_url; mret (Some pdf_tmp))
                                (fun _ => mret None);
        match downloaded with
        | None => mret (pub, updated)
        | Some pdf_tmp =>
            try_except
              (success ← extract_first_image_from_pdf w pdf_tmp target_path;
               if success : bool
               then probe_exts [".png"; ".jpg"; ".jpeg"] target_path pub updated
               else mret (pub, updated))
              (fun _ => mret (pub, updated))
        end
  end.

Fixpoint process_all (w : World) (pubs : list YVal) (updated : bool) : M (list YVal * bool) :=
  match pubs with
  | [] => mret ([], updated)
  | pub :: rest =>
      '(pub', updated') ← process_pub w pub updated;
      '(rest', updated'') ← process_all w rest updated';
      mret (pub' :: rest', updated'')
  end.

(** [main], lines 69-130: the data file is opened without a test for
    its existence, and what it holds is iterated without a test. *)
Definition main (w : World) : M unit :=
  s ← get_sys;
  match yaml_file s with
  | None => raise (Error "FileNotFoundError")
  | Some (Unreadable name) => raise (Error name)
  | Some (Parsed publications) =>
      items ← lift (Py.iter publications);
      '(items', updated) ← process_all w items false;
      if updated : bool then dump_yaml (Yaml.with_items publications items') else mret tt
  end.

End Remaining.

(** ** The HTML batch: [scripts/extract_fig1.py] *)

Module Html.

(** [find_pdf_link], lines 36-42 *)
Fixpoint find_in_hrefs (hs : list string) : option string :=
  match hs with
  | [] => None
  | href :: rest =>
      if PyStr.contains "pdf" href || PyStr.contains "arxiv.org/abs" href
         || PyStr.contains "openreview.net" href || PyStr.endswith ".pdf" href
      then Some href
      else find_in_hrefs rest
  end.

Definition find_pdf_link (tr : Row) : option string := find_in_hrefs (row_hrefs tr).

(** [normalize_pdf_url], lines 45-52.  The conditional expression binds
    weaker than [+], so a link that already ends in [.pdf] is returned
    as it is. *)
Definition normalize_pdf_url (href : string) : string :=
  if PyStr.startswith "http" href then
    if PyStr.contains "arxiv.org/abs" href then
      if negb (PyStr.endswith ".pdf" href)
      then PyStr.replace "arxiv.org/abs" "arxiv.org/pdf" href +:+ ".pdf"
      else href
    else href
  else "https://xiaocw11.github.io" +:+ href.

(** The loop of [extract_first_image_from_pdf], lines 67-77: the first
    image of the first page that has any, whatever its size. *)
Fixpoint scan_pages (doc : list Page) (out_path : Path) : M bool :=
  match doc with
  | [] => mret false
  | page :: rest =>
      match get_images page with
      | img_dict :: _ =>
          let img_bytes := img_image img_dict in
          let ext := get_default (img_ext img_dict) "png" in
          _ ← write_file (PyPath.with_suffix out_path ("." +:+ ext)) (ImageBytes img_bytes);
          mret true
      | [] => scan_pages rest out_path
      end
  end.

(** [extract_first_image_from_pdf], lines 64-86 *)
Definition extract_first_image_from_pdf (w : World) (pdf : list Byte.byte) (out_path : Path) : M bool :=
  doc ← open_doc w pdf;
  found ← scan_pages doc out_path;
  if found : bool then mret true
  else
    match doc with
    | page :: _ =>
        let png_path := PyPath.with_suffix out_path ".png" in
        _ ← write_file png_path (PixmapPng page 150);
        mret true
    | [] => mret false
    end.

(** The body of the loop of [main], lines 99-135, on the row numbered
    [i] (from 1). *)
Definition process_row (w : World) (i : nat) (tr : Row) : M unit :=
  let title := get_default (row_title tr) ("pub-" +:+ pretty i) in
  let pdf_href := find_pdf_link tr in
  let target_path :=
    if PyStr.truthy (row_img_src tr)
    then PyPath.joinpath (ROOT w) (PyStr.lstrip_slash (get_default (row_img_src tr) ""))
    else PyPath.joinpath (IMAGES_DIR w) (Slug.slugify title +:+ ".png") in
  if negb (PyStr.truthy pdf_href) then mret tt
  else
    let pdf_url := normalize_pdf_url (get_default pdf_href "") in
    downloaded ← try_except (pdf_tmp ← download_file w pdf_url; mret (Some pdf_tmp))
                            (fun _ => mret None);
    match downloaded with
    | None => mret tt
    | Some pdf_tmp =>
        try_except
          (_ ← extract_first_image_from_pdf w pdf_tmp (PyPath.with_suffix target_path "");
           mret tt)
          (fun _ => mret tt)
    end.

Fixpoint process_all (w : World) (i : nat) (rows : list Row) : M unit :=
  match rows with
  | [] => mret tt
  | tr :: rest => _ ← process_row w i tr; process_all w (S i) rest
  end.

(** [main], lines 89-135 *)
Definition main (w : World) : M unit :=
  s ← get_sys;
  match html_rows s with
  | None => sys_exit 1
  | Some (Unreadable name) => raise (Error name)
  | Some (Parsed rows) => process_all w 1 rows
  end.

End Html.

(** * Vocabulary of the statements *)

(** ** Records of the data file *)

(** The value under the key [k] of an item of the data file; [None]
    when the key is absent or the item is no dictionary. *)
Definition field (k : string) (v : YVal) : option YVal :=
  match v with
  | YMap pairs => Py.find_key k pairs
  | _ => None
  end.

(** The item is a dictionary: a record. *)
Definition is_record (v : YVal) : bool :=
  match v with YMap _ => true | _ => false end.

Definition is_text (v : YVal) : bool :=
  match v with YStr _ => true | _ => false end.

(** The text under the key [k], [""] when the key is absent (or holds no
    text). *)
Definition text_of (k : string) (v : YVal) : string :=
  match field k v with
  | Some (YStr s) => s
  | _ => ""
  end.

(** The record's year compares equal to 2025. *)
Definition is_2025 (paper : YVal) : bool :=
  Py.eq_int (default YNull (field "year" paper)) 2025.

(** The record's picture is set: present and truthy. *)
Definition has_picture (paper : YVal) : bool :=
  Py.truthy (default YNull (field "picture" paper)).

(** The record's title is a text, or absent. *)
Definition text_title (paper : YVal) : bool :=
  is_text (default (YStr "") (field "title" paper)).

(** A link as the data model has it: a dictionary whose [type] and [url]
    are texts, or absent. *)
Definition plain_link (k : YVal) : bool :=
  is_record k && is_text (default (YStr "") (field "type" k))
  && is_text (default (YStr "") (field "url" k)).

(** A link the loop of [Yaml.find_pdf_url] stops at. *)
Definition decides (k : YVal) : Prop :=
  field "type" k = Some (YStr "pdf") \/
  (field "type" k = Some (YStr "arxiv") /\
   PyStr.contains "arxiv.org" (text_of "url" k) = true).

(** A link of the data model that the loop passes over. *)
Definition passed_over (k : YVal) : Prop := plain_link k = true /\ ~ decides k.

(** A dictionary with the given keys; [None] leaves a key out. *)
Definition opt_key (k : string) (o : option YVal) : list (string * YVal) :=
  match o with
  | Some v => [(k, v)]
  | None => []
  end.

(** A link and a record of the data model. *)
Definition mkLink (type url : option string) : YVal :=
  YMap (opt_key "type" (YStr <$> type) ++ opt_key "url" (YStr <$> url)).

Definition mkPaper (title : option string) (year : option Z) (links : option (list YVal))
    (picture : option string) : YVal :=
  YMap (opt_key "title" (YStr <$> title) ++ opt_key "year" (YInt <$> year)
        ++ opt_key "links" (YSeq <$> links) ++ opt_key "picture" (YStr <$> picture)).

(** ** Links and images *)

(** An [href] the loop of [Html.find_pdf_link] stops at. *)
Definition looks_like_pdf (href : string) : bool :=
  PyStr.contains "pdf" href || PyStr.contains "arxiv.org/abs" href
  || PyStr.contains "openreview.net" href.

(** An image the size filter lets through: at least 10000 bytes. *)
Definition qualifies (img : ImgDict) : bool :=
  negb (Z.of_nat (length (img_image img)) <? 10000)%Z.

(** The embedded images of the first three pages, in page and embedding
    order. *)
Definition window (doc : Doc) : list ImgDict :=
  concat (map get_images (firstn 3 doc)).

(** All embedded images of a document, in page and embedding order. *)
Definition all_images (doc : Doc) : list ImgDict :=
  concat (map get_images doc).

(** Where an embedded image is saved: the output path with the image's
    native extension. *)
Definition saved_as (out_path : Path) (img : ImgDict) : Path :=
  PyPath.with_suffix out_path ("." +:+ get_default (img_ext img) "png").

(** The site tree once [img] is saved for [out_path]. *)
Definition save_image (out_path : Path) (img : ImgDict) (s : Sys) : Sys :=
  put_file (saved_as out_path img) (ImageBytes (img_image img)) s.

(** The site tree once [page] is rendered for [out_path]. *)
Definition save_render (out_path : Path) (page : Page) (s : Sys) : Sys :=
  put_file (PyPath.with_suffix out_path ".png") (PixmapPng page 150) s.

(** Every character of [s] satisfies [P]. *)
Fixpoint all_chars (P : ascii -> bool) (s : string) : bool :=
  match s with
  | EmptyString => true
  | String c s' => P c && all_chars P s'
  end.

(** The characters of a slug: [a-z], [0-9] and the dash. *)
Definition slug_char (c : ascii) : bool := Slug.is_slug_alnum c || Slug.is_dash c.

(** No character of [s] is a slash. *)
Definition no_slash (s : string) : bool := all_chars (fun c => negb (Ascii.eqb c "/")) s.

(** ** The loop of [Yaml.main], with the exceptions resolved *)

(** The title the loop body reads for the item of index [i]. *)
Definition title_of (i : nat) (paper : YVal) : YVal :=
  default (YStr ("paper-" +:+ pretty i)) (field "title" paper).

(** The slug of the record of index [i]. *)
Definition slug_of (i : nat) (paper : YVal) : string :=
  match title_of i paper with
  | YStr t => Slug.slugify t
  | _ => ""
  end.

(** The output path of the record of index [i]. *)
Definition target_of (w : World) (i : nat) (paper : YVal) : Path :=
  PyPath.joinpath (IMAGES_DIR w) (slug_of i paper).

(** What the extractor does with an opened document. *)
Definition extract_outcome (doc : Doc) (out_path : Path) (s : Sys) : bool * Sys :=
  match find qualifies (window doc) with
  | Some img => (true, save_image out_path img s)
  | None =>
      match doc with
      | page :: _ => (true, save_render out_path page s)
      | [] => (false, s)
      end
  end.

(** Whether a file exists under [target] with suffix [ext]. *)
Definition has_file (s : Sys) (target : Path) (ext : string) : bool :=
  bool_decide (is_Some (files s !! PyPath.with_suffix target ext)).

(** The paper and flag after the suffixes [exts] are probed in order. *)
Definition probe (s : Sys) (exts : list string) (target : Path) (paper : YVal) (updated : bool)
  : YVal * bool :=
  match find (has_file s target) exts with
  | Some ext =>
      (Yaml.set_picture paper
         ("/images/publications/" +:+ path_name (PyPath.with_suffix target ext)), true)
  | None => (paper, updated)
  end.

(** The exception an item makes the loop body raise outside its [try]
    blocks, if any: an item that is no dictionary has no [get]; for a
    record of 2025 without picture, the resolver raises on links it
    cannot walk, and [slugify] raises on a title that is no text once a
    link is found.  It depends on the item alone. *)
Definition aborts (paper : YVal) : option string :=
  if negb (is_record paper) then Some "AttributeError"
  else if is_2025 paper && negb (has_picture paper) then
    match Yaml.find_pdf_url paper with
    | Raises name => Some name
    | Returns pdf_url =>
        if Py.truthy pdf_url && negb (text_title paper) then Some "AttributeError"
        else None
    end
  else None.

(** The URL the loop body requests for an item, if any: the record is of
    2025, has no picture and a text title, and the resolver gives a
    non-empty text. *)
Definition wanted_url (paper : YVal) : option string :=
  if is_2025 paper && negb (has_picture paper) && text_title paper then
    match Yaml.find_pdf_url paper with
    | Returns (YStr url) => if String.eqb url "" then None else Some url
    | _ => None
    end
  else None.

(** What a loop body does once [url] is to be requested for a record
    whose output path is [target]: the record, the flag and the site
    tree it leaves. *)
Definition serve (w : World) (target : Path) (paper : YVal) (updated : bool) (s : Sys)
    (url : string) : YVal * bool * Sys :=
  let s1 := log_request url s in
  match http_get w url with
  | None => (paper, updated, s1)
  | Some pdf =>
      match fitz_open w pdf with
      | None => (paper, updated, s1)
      | Some doc =>
          let '(ok, s2) := extract_outcome doc target s1 in
          if ok : bool
          then (probe s2 [".png"; ".jpg"; ".jpeg"] target paper updated, s2)
          else (paper, updated, s2)
      end
  end.

(** One iteration of the loop on an item that does not abort it: the
    item, the flag and the site tree it leaves. *)
Definition iteration (w : World) (i : nat) (paper : YVal) (updated : bool) (s : Sys)
  : YVal * bool * Sys :=
  match wanted_url paper with
  | None => (paper, updated, s)
  | Some url => serve w (target_of w i paper) paper updated s url
  end.

(** The loop, from index [i] on, up to the first item that aborts it:
    that item and those after it stay as they are. *)
Fixpoint batch (w : World) (i : nat) (papers : list YVal) (updated : bool) (s : Sys)
  : list YVal * bool * Sys :=
  match papers with
  | [] => ([], updated, s)
  | paper :: rest =>
      match aborts paper with
      | Some _ => (paper :: rest, updated, s)
      | None =>
          let '(paper', updated', s') := iteration w i paper updated s in
          let '(rest', updated'', s'') := batch w (S i) rest updated' s' in
          (paper' :: rest', updated'', s'')
      end
  end.

(** The exception that ends the loop over [papers], if any. *)
Definition first_abort (papers : list YVal) : option string :=
  head (omap aborts papers).

(** The items the loop reaches: those before the first that aborts it. *)
Fixpoint reached (papers : list YVal) : list YVal :=
  match papers with
  | [] => []
  | paper :: rest =>
      match aborts paper with
      | Some _ => []
      | None => paper :: reached rest
      end
  end.

(** What one run may do to a record: keep it, or give a picture to a
    record of 2025 that had none. *)
Definition kept_or_pictured (p p' : YVal) : Prop :=
  p' = p \/
  (is_2025 p = true /\ has_picture p = false /\
   exists pic, pic <> "" /\ p' = Yaml.set_picture p pic).

(** A record the loop passes over at once. *)
Definition skipped (p : YVal) : Prop :=
  is_2025 p = false \/ has_picture p = true.

(** A URL the loop may request for one of [pubs]. *)
Definition requested_for (pubs : list YVal) (url : string) : Prop :=
  exists p, p ∈ pubs /\ is_2025 p = true /\ has_picture p = false /\
            Yaml.find_pdf_url p = Returns (YStr url).

(** What one iteration on [paper] may do. *)
Definition iteration_ok (paper : YVal) (updated : bool) (s : Sys) (r : YVal * bool * Sys) : Prop :=
  let '(paper', updated', s') := r in
  yaml_file s' = yaml_file s /\ html_rows s' = html_rows s /\ yaml_dumps s' = yaml_dumps s /\
  ((paper' = paper /\ updated' = updated) \/
   (updated' = true /\ paper' <> paper /\ kept_or_pictured paper paper')) /\
  (http_log s' = http_log s \/
   exists url, requested_for [paper] url /\ http_log s' = url :: http_log s) /\
  (forall path, is_Some (files s !! path) -> is_Some (files s' !! path)).

(** What the loop on [pubs] may do. *)
Definition batch_ok (pubs : list YVal) (updated : bool) (s : Sys) (r : list YVal * bool * Sys) : Prop :=
  let '(pubs', updated', s') := r in
  yaml_file s' = yaml_file s /\ html_rows s' = html_rows s /\ yaml_dumps s' = yaml_dumps s /\
  Forall2 kept_or_pictured pubs pubs' /\
  ((pubs' = pubs /\ updated' = updated) \/ (updated' = true /\ pubs' <> pubs)) /\
  (exists new, http_log s' = (new ++ http_log s)%list /\ Forall (requested_for pubs) new) /\
  (forall path, is_Some (files s !! path) -> is_Some (files s' !! path)).

(** How a run of the YAML batch ends. *)
Inductive Ending :=
| Completes
| Halts (e : Exn).

(** The ending the data file calls for: the exit of the two guards, the
    exception of the loader, of the loop header or of the first item
    that aborts the loop. *)
Definition yaml_ending (s : Sys) : Ending :=
  match yaml_file s with
  | None => Halts (SystemExit 1)
  | Some (Unreadable name) => Halts (Error name)
  | Some (Parsed publications) =>
      if negb (Py.truthy publications) then Halts (SystemExit 1)
      else
        match Py.iter publications with
        | Raises name => Halts (Error name)
        | Returns items =>
            match first_abort items with
            | Some name => Halts (Error name)
            | None => Completes
            end
        end
  end.

(** The run halts before the loop is entered: the data file is missing
    or unreadable, or what it holds is falsy or cannot be iterated. *)
Definition halts_at_startup (s : Sys) : bool :=
  match yaml_file s with
  | Some (Parsed publications) =>
      negb (Py.truthy publications)
      || (if Py.iter publications is Returns _ then false else true)
  | _ => true
  end.

(** The per-record failures: no usable link, a download that raises, a
    downloaded file that the PDF library cannot open.  A download is
    only tried for a record whose title is a text (or absent). *)
Inductive record_fails (w : World) (paper : YVal) : Prop :=
| fails_no_link (pdf_url : YVal) :
    Yaml.find_pdf_url paper = Returns pdf_url -> Py.truthy pdf_url = false ->
    record_fails w paper
| fails_download (url : string) :
    Yaml.find_pdf_url paper = Returns (YStr url) -> text_title paper = true ->
    http_get w url = None -> record_fails w paper
| fails_extraction (url : string) (pdf : list Byte.byte) :
    Yaml.find_pdf_url paper = Returns (YStr url) -> text_title paper = true ->
    http_get w url = Some pdf -> fitz_open w pdf = None -> record_fails w paper.

(** ** Sample data *)

(** A byte string of [n] bytes. *)
Definition blob (n : Z) : list Byte.byte := repeat Byte.x00 (Z.to_nat n).

Definition img_5k : ImgDict := mkImg (blob 5120) (Some "png").
Definition img_20k : ImgDict := mkImg (blob 20480) (Some "jpeg").

(** The two images on one page. *)
Definition doc_small_then_big : Doc := [mkPage [img_5k; img_20k]].

(** The small image on page 1, the large one on page 4. *)
Definition doc_big_on_page4 : Doc :=
  [mkPage [img_5k]; mkPage []; mkPage []; mkPage [img_20k]].

Definition sample_root : Path := mkPath ["srv"] "site".

Definition sample_out : Path := mkPath ["srv"; "site"; "images"; "publications"] "a-paper".

(** A site with neither data file nor image. *)
Definition empty_sys : Sys := mkSys None None ∅ [] 0.

(** A world in which every download gives one byte and every file opens
    as [doc]. *)
Definition world_of_doc (doc : Doc) : World :=
  mkWorld sample_root (fun _ => Some [Byte.x01]) (fun _ => Some doc).

(** A record of 2024 with a link and no picture, and one of 2025. *)
Definition paper_2024 : YVal :=
  mkPaper (Some "An older paper") (Some 2024%Z)
    (Some [mkLink (Some "pdf") (Some "https://example.org/older.pdf")]) None.

Definition paper_2025 : YVal :=
  mkPaper (Some "A paper") (Some 2025%Z)
    (Some [mkLink (Some "pdf") (Some "https://example.org/paper.pdf")]) None.

(** A site whose data file holds [pubs]. *)
Definition sys_of (pubs : list YVal) : Sys := mkSys (Some (Parsed (YSeq pubs))) None ∅ [] 0.

(** A record of 2025 whose only link is not one the resolver takes. *)
Definition paper_no_link : YVal :=
  mkPaper (Some "No link") (Some 2025%Z)
    (Some [mkLink (Some "code") (Some "https://github.com/lab/repo")]) None.

(** A record of 2025 whose download fails in [world_flaky]. *)
Definition paper_unreachable : YVal :=
  mkPaper (Some "Unreachable") (Some 2025%Z)
    (Some [mkLink (Some "pdf") (Some "https://down.example.org/paper.pdf")]) None.

(** A record of 2025 whose download is not a PDF in [world_flaky]. *)
Definition paper_not_pdf : YVal :=
  mkPaper (Some "Not a PDF") (Some 2025%Z)
    (Some [mkLink (Some "pdf") (Some "https://example.org/landing.html")]) None.

(** A world in which one host is down and one URL gives a page that is
    not a PDF; any other download opens as a document of one page
    without images. *)
Definition world_flaky : World :=
  mkWorld sample_root
    (fun url =>
       if String.eqb url "https://down.example.org/paper.pdf" then None
       else if String.eqb url "https://example.org/landing.html" then Some [Byte.x3c]
       else Some [Byte.x25])
    (fun pdf => match pdf with [Byte.x25] => Some [mkPage []] | _ => None end).

(** A 20 KB image in an encoding that the loop of [main] does not probe. *)
Definition img_20k_jpx : ImgDict := mkImg (blob 20480) (Some "jpx").

(** A site whose data file holds [paper_2025] and whose image directory
    already holds [a-paper.png]. *)
Definition sys_stale_png : Sys :=
  put_file (mkPath ["srv"; "site"; "images"; "publications"] "a-paper.png")
           (ImageBytes [Byte.x89]) (sys_of [paper_2025]).

(** Two records of 2025 with the same title, hence the same slug: the
    file of the first holds a large [jpx] image, the file of the second
    no image. *)
Definition paper_twin_a : YVal :=
  mkPaper (Some "Twin paper") (Some 2025%Z)
    (Some [mkLink (Some "pdf") (Some "https://example.org/twin-workshop.pdf")]) None.

Definition paper_twin_b : YVal :=
  mkPaper (Some "Twin paper") (Some 2025%Z)
    (Some [mkLink (Some "pdf") (Some "https://example.org/twin-conference.pdf")]) None.

Definition world_twins : World :=
  mkWorld sample_root
    (fun url =>
       if String.eqb url "https://example.org/twin-workshop.pdf" then Some [Byte.x01]
       else Some [Byte.x02])
    (fun pdf => match pdf with
                | [Byte.x01] => Some [mkPage [img_20k_jpx]]
                | _ => Some [mkPage []]
                end).

(** A record of 2025 whose [links] key holds nothing, and one whose
    title is a number. *)
Definition paper_null_links : YVal :=
  YMap [("title", YStr "Links to come"); ("year", YInt 2025); ("links", YNull)].

Definition paper_number_title : YVal :=
  YMap [("title", YInt 1984); ("year", YInt 2025);
        ("links", YSeq [mkLink (Some "pdf") (Some "https://example.org/1984.pdf")])].

(** A site whose data file holds what loading it gives as [v]. *)
Definition sys_with (v : YVal) : Sys := mkSys (Some (Parsed v)) None ∅ [] 0.

(** * Vocabulary of the further properties *)

(** Whether the document has a page. *)
Definition has_page (doc : Doc) : bool :=
  match doc with [] => false | _ :: _ => true end.

(** The outcome of an extraction is one of: the call raised, leaving the
    tree as it was; it returned [False], leaving the tree as it was; it
    returned [True] after writing one file at the output path under some
    dot suffix. *)
Definition one_file_or_nothing (out_path : Path) (s : Sys) (r : Res bool) : Prop :=
  match r with
  | Raise e s' => e = Error "FileDataError" /\ s' = s
  | Ret false s' => s' = s
  | Ret true s' =>
      exists suf data, PyStr.startswith "." suf = true /\
                       s' = put_file (PyPath.with_suffix out_path suf) data s
  end.

(** The record of index [i] was given, as its picture, the name of a
    file that exists in [s'] under its output path with a probed suffix. *)
Definition pictured_from (w : World) (i : nat) (s' : Sys) (p p' : YVal) : Prop :=
  exists ext, ext ∈ [".png"; ".jpg"; ".jpeg"] /\
    has_file s' (target_of w i p) ext = true /\
    p' = Yaml.set_picture p
           ("/images/publications/" +:+ path_name (PyPath.with_suffix (target_of w i p) ext)).

(** The file [name] of the images directory. *)
Definition image_file (w : World) (name : string) : Path :=
  mkPath (path_parent (IMAGES_DIR w) ++ [path_name (IMAGES_DIR w)]) name.

(** A record whose title has no ASCII letter or digit, hence an empty
    slug. *)
Definition paper_untitled : YVal :=
  mkPaper (Some "???") (Some 2025%Z)
    (Some [mkLink (Some "pdf") (Some "https://example.org/untitled.pdf")]) None.

(** No two dashes in a row; [prev] tells whether the character before
    the string is a dash. *)
Fixpoint no_double_dash_from (prev : bool) (s : string) : bool :=
  match s with
  | EmptyString => true
  | String c s' => negb (prev && Slug.is_dash c) && no_double_dash_from (Slug.is_dash c) s'
  end.

Definition starts_with_dash (s : string) : bool :=
  match s with
  | String c _ => Slug.is_dash c
  | EmptyString => false
  end.

Fixpoint ends_with_dash (s : string) : bool :=
  match s with
  | EmptyString => false
  | String c EmptyString => Slug.is_dash c
  | String _ s' => ends_with_dash s'
  end.

(** The shape of a slug: characters of [a-z0-9-], dashes only between
    other characters and never two in a row. *)
Definition slug_shape (s : string) : bool :=
  all_chars slug_char s && no_double_dash_from false s
  && negb (starts_with_dash s) && negb (ends_with_dash s).

(** A byte that is no ASCII letter or digit, in either case. *)
Definition not_alnum (c : ascii) : bool := negb (Slug.is_slug_alnum (Slug.lower_char c)).

(** The UTF-8 bytes of U+212A, KELVIN SIGN, and of U+0130, LATIN CAPITAL
    LETTER I WITH DOT ABOVE. *)
Definition kelvin_sign : string := String "226" (String "132" (String "170" "")).
Definition dotted_capital_i : string := String "196" (String "176" "").

(** The title under which the manual loop looks a record up. *)
Definition manual_title (p : YVal) : YVal := default (YStr "") (field "title" p).

(** The entry of the table for a record, if its title is a key. *)
Definition manual_entry (p : YVal) : option string :=
  match manual_title p with
  | YStr t => Remaining.manual_pdfs !! t
  | _ => None
  end.

(** The exception an item makes the manual loop raise, if any: an item
    that is no dictionary has no [get], a title that is a list or a
    dictionary cannot be looked up. *)
Definition manual_aborts (p : YVal) : option string :=
  if negb (is_record p) then Some "AttributeError"
  else if negb (Py.hashable (manual_title p)) then Some "TypeError"
  else None.

(** One iteration of the manual loop on an item that does not abort it. *)
Definition manual_iteration (w : World) (pub : YVal) (updated : bool) (s : Sys)
  : YVal * bool * Sys :=
  match manual_entry pub with
  | None => (pub, updated, s)
  | Some url =>
      if has_picture pub then (pub, updated, s)
      else serve w (PyPath.joinpath (IMAGES_DIR w) (Slug.slugify (text_of "title" pub)))
                 pub updated s url
  end.

(** The manual loop up to the first item that aborts it. *)
Fixpoint manual_batch (w : World) (pubs : list YVal) (updated : bool) (s : Sys)
  : list YVal * bool * Sys :=
  match pubs with
  | [] => ([], updated, s)
  | pub :: rest =>
      match manual_aborts pub with
      | Some _ => (pub :: rest, updated, s)
      | None =>
          let '(pub', updated', s') := manual_iteration w pub updated s in
          let '(rest', updated'', s'') := manual_batch w rest updated' s' in
          (pub' :: rest', updated'', s'')
      end
  end.

(** The exception that ends the manual loop over [pubs], if any. *)
Definition manual_first_abort (pubs : list YVal) : option string :=
  head (omap manual_aborts pubs).

(** How a run of the manual batch ends. *)
Definition manual_ending (s : Sys) : Ending :=
  match yaml_file s with
  | None => Halts (Error "FileNotFoundError")
  | Some (Unreadable name) => Halts (Error name)
  | Some (Parsed publications) =>
      match Py.iter publications with
      | Raises name => Halts (Error name)
      | Returns items =>
          match manual_first_abort items with
          | Some name => Halts (Error name)
          | None => Completes
          end
      end
  end.

(** A URL the manual batch may request for one of [pubs]: the entry of
    its table for the title of a record without picture. *)
Definition manual_request_for (pubs : list YVal) (url : string) : Prop :=
  exists p, p ∈ pubs /\ has_picture p = false /\ manual_entry p = Some url.

(** A record the manual loop passes over at once: its title is no key of
    the table, or it has a picture. *)
Definition manual_skipped (p : YVal) : Prop :=
  manual_entry p = None \/ has_picture p = true.

(** What the manual batch may do to a record: change nothing but the
    picture, and nothing at all when the record is passed over. *)
Definition manual_kept (p p' : YVal) : Prop :=
  (forall k, k <> "picture" -> field k p' = field k p) /\
  (manual_skipped p -> p' = p).

(** A record whose title is a key of the table and one whose title is
    not. *)
Definition paper_datagen : YVal :=
  mkPaper (Some "DataGen: Unified Synthetic Dataset Generation via Large Language Models")
          (Some 2025%Z) None None.

Definition paper_other : YVal :=
  mkPaper (Some "Some other paper") (Some 2025%Z)
          (Some [mkLink (Some "pdf") (Some "https://example.org/other.pdf")]) None.

(** The slug of [paper_datagen], and a site whose data file holds that
    record and whose image directory already holds a [.png] file of that
    name. *)
Definition slug_datagen : string :=
  "datagen-unified-synthetic-dataset-generation-via-large-language-models".

Definition sys_stale_datagen : Sys :=
  put_file (mkPath ["srv"; "site"; "images"; "publications"] (slug_datagen +:+ ".png"))
           (ImageBytes [Byte.x89]) (sys_of [paper_datagen]).

(** A record whose title is a list. *)
Definition paper_list_title : YVal :=
  YMap [("title", YSeq [YStr "Part one"; YStr "Part two"]); ("year", YInt 2025)].


(** The URL the loop of [Html.main] requests for a row, if any. *)
Definition html_wanted_url (tr : Row) : option string :=
  match Html.find_pdf_link tr with
  | Some href => if String.eqb href "" then None else Some (Html.normalize_pdf_url href)
  | None => None
  end.

(** The path the loop of [Html.main] derives for the row numbered [i],
    before its suffix is taken off. *)
Definition html_target (w : World) (i : nat) (tr : Row) : Path :=
  if PyStr.truthy (row_img_src tr)
  then PyPath.joinpath (ROOT w) (PyStr.lstrip_slash (get_default (row_img_src tr) ""))
  else PyPath.joinpath (IMAGES_DIR w)
         (Slug.slugify (get_default (row_title tr) ("pub-" +:+ pretty i)) +:+ ".png").

(** No character of [s] is a dot. *)
Definition no_dot (s : string) : bool := all_chars (fun c => negb (Ascii.eqb c ".")) s.

(** A row with an image tag and an arXiv link. *)
Definition row_with_img : Row :=
  mkRow (Some "A paper") ["https://github.com/lab/repo"; "https://arxiv.org/abs/2401.00001"]
        (Some "/images/publications/fig-one.png").

(** * Properties *)


(** ** The embedding on small inputs *)

Example replace_abs :
  PyStr.replace "/abs/" "/pdf/" "https://arxiv.org/abs/2401.00001"
  = "https://arxiv.org/pdf/2401.00001".
Proof. reflexivity. Qed.

Example replace_does_not_overlap : PyStr.replace "aa" "b" "aaaaa" = "bba".
Proof. reflexivity. Qed.

Example endswith_pdf :
  PyStr.endswith ".pdf" "paper.pdf" = true /\ PyStr.endswith ".pdf" "paper.pdf.gz" = false.
Proof. split; reflexivity. Qed.

Example slugify_title :
  Slug.slugify "  Hello, World! -- A.B  " = "hello-world-a-b".
Proof. reflexivity. Qed.

Example slugify_no_alnum : Slug.slugify " ?! " = "".
Proof. reflexivity. Qed.

(** The two characters outside ASCII whose lower case holds an ASCII
    letter: a title of degrees Kelvin, and one with a dotted capital I. *)
Example slugify_kelvin_sign :
  Slug.slugify ("300 " +:+ kelvin_sign) = "300-k" /\
  Slug.slugify (dotted_capital_i +:+ "zmir") = "i-zmir" /\
  Slug.slugify kelvin_sign = "k".
Proof. repeat split; reflexivity. Qed.

Example suffix_of_names :
  PyPath.suffix "a.b.png" = ".png" /\ PyPath.suffix ".png" = "" /\
  PyPath.suffix "name." = "" /\ PyPath.suffix "name" = "".
Proof. repeat split; reflexivity. Qed.

Example with_suffix_replaces :
  PyPath.with_suffix (mkPath ["images"] "fig.v2.png") "" = mkPath ["images"] "fig.v2" /\
  PyPath.with_suffix (mkPath ["images"] "fig.v2") ".jpeg" = mkPath ["images"] "fig.jpeg" /\
  PyPath.with_suffix (mkPath ["images"] "a-paper") ".png" = mkPath ["images"] "a-paper.png".
Proof. repeat split; reflexivity. Qed.

Example joinpath_parts :
  PyPath.joinpath sample_root "images//publications/./x.png"
  = mkPath ["srv"; "site"; "images"; "publications"] "x.png" /\
  PyPath.joinpath sample_root "" = sample_root.
Proof. split; reflexivity. Qed.

Example normalize_examples :
  Html.normalize_pdf_url "https://arxiv.org/abs/2401.00001"
  = "https://arxiv.org/pdf/2401.00001.pdf" /\
  Html.normalize_pdf_url "/papers/x.pdf" = "https://xiaocw11.github.io/papers/x.pdf".
Proof. split; reflexivity. Qed.

(** Values at the places of a record where the data model has another
    type. *)
Example odd_values :
  Yaml.find_pdf_url paper_null_links = Raises "TypeError" /\
  Yaml.find_pdf_url (YMap [("links", YStr "")]) = Returns YNull /\
  Yaml.find_pdf_url (YMap [("links", YSeq [YStr "https://example.org/a.pdf"])])
  = Raises "AttributeError" /\
  Yaml.find_pdf_url (YMap [("links", YSeq [mkLink (Some "pdf") None])]) = Returns (YStr "") /\
  Yaml.find_pdf_url (YMap [("links", YSeq [YMap [("type", YStr "arxiv"); ("url", YNull)]])])
  = Raises "TypeError" /\
  Slug.of_value (YInt 1984) = Raises "AttributeError" /\
  is_2025 (YMap [("year", YFloat (inject_Z 2025))]) = true /\
  is_2025 (YMap [("year", YStr "2025")]) = false.
Proof. repeat split; reflexivity. Qed.

(** A run in which the first three records fail, each in its own way,
    and the fourth is served. *)
Example batch_goes_on :
  let s' := final_sys (Yaml.main world_flaky
                         (sys_of [paper_no_link; paper_unreachable; paper_not_pdf; paper_2025])) in
  yaml_file s'
  = Some (Parsed (YSeq [paper_no_link; paper_unreachable; paper_not_pdf;
                        Yaml.set_picture paper_2025 "/images/publications/a-paper.png"])) /\
  http_log s'
  = ["https://example.org/paper.pdf"; "https://example.org/landing.html";
     "https://down.example.org/paper.pdf"] /\
  files s' !! mkPath ["srv"; "site"; "images"; "publications"] "a-paper.png"
  = Some (PixmapPng (mkPage []) 150) /\
  yaml_dumps s' = 1.
Proof. repeat split; reflexivity. Qed.

(** A run that a record without usable [links] value ends: the record
    before it was served, the one after it is never reached, and nothing
    is written to the data file. *)
Example batch_is_cut_short :
  let s := sys_of [paper_2025; paper_null_links; paper_unreachable] in
  let s' := final_sys (Yaml.main world_flaky s) in
  Yaml.main world_flaky s = Raise (Error "TypeError") s' /\
  yaml_file s' = yaml_file s /\
  http_log s' = ["https://example.org/paper.pdf"] /\
  files s' !! mkPath ["srv"; "site"; "images"; "publications"] "a-paper.png"
  = Some (PixmapPng (mkPage []) 150) /\
  yaml_dumps s' = 0.
Proof. repeat split; reflexivity. Qed.

(** ** The link resolver *)

Lemma find_pdf_url_of_links (paper : YVal) (links : YVal) :
  field "links" paper = Some links ->
  Yaml.find_pdf_url paper = (items ← Py.iter links; Yaml.find_in_links items).
Proof.
  destruct paper as [| | | | | |pairs]; try discriminate. cbn [field]. intros Hlinks.
  unfold Yaml.find_pdf_url, Py.contains, Py.getitem.
  rewrite Hlinks. reflexivity.
Qed.

Lemma find_pdf_url_of_list (paper : YVal) (ls : list YVal) :
  field "links" paper = Some (YSeq ls) ->
  Yaml.find_pdf_url paper = Yaml.find_in_links ls.
Proof. intros Hlinks. rewrite (find_pdf_url_of_links _ _ Hlinks). reflexivity. Qed.

Lemma find_pdf_url_no_links (paper : YVal) :
  is_record paper = true -> field "links" paper = None ->
  Yaml.find_pdf_url paper = Returns YNull.
Proof.
  destruct paper as [| | | | | |pairs]; try discriminate. cbn [field]. intros _ Hlinks.
  unfold Yaml.find_pdf_url, Py.contains. rewrite Hlinks. reflexivity.
Qed.

(** The type and the URL the loop reads from a link of the data model. *)
Lemma plain_link_get (k : YVal) :
  plain_link k = true ->
  exists t u, Py.get k "type" (YStr "") = Returns (YStr t) /\
              Py.get k "url" (YStr "") = Returns (YStr u) /\
              (field "type" k = Some (YStr t) \/ (field "type" k = None /\ t = "")) /\
              text_of "url" k = u.
Proof.
  unfold plain_link, text_of. destruct k as [| | | | | |pairs]; try discriminate.
  cbn [is_record andb field Py.get].
  destruct (Py.find_key "type" pairs) as [[| | | |t| |]|]; try discriminate;
    destruct (Py.find_key "url" pairs) as [[| | | |u| |]|]; try discriminate;
    intros _; eexists _, _; cbn [default];
    (split; [reflexivity|]); (split; [reflexivity|]);
    (split; [first [left; reflexivity | right; split; reflexivity] | reflexivity]).
Qed.

Lemma find_in_links_skip (k : YVal) (rest : list YVal) :
  passed_over k -> Yaml.find_in_links (k :: rest) = Yaml.find_in_links rest.
Proof.
  intros [Hplain Hk].
  destruct (plain_link_get k Hplain) as (t & u & Ht & Hu & Hfield & Htext).
  cbn [Yaml.find_in_links]. rewrite Ht, Hu. cbn [mbind Try_bind Py.eq_str Py.contains].
  destruct (String.eqb t "arxiv") eqn:Ea.
  - apply String.eqb_eq in Ea. subst t.
    destruct Hfield as [Hfield | [_ Hempty]]; [|discriminate].
    destruct (PyStr.contains "arxiv.org" u) eqn:Ec.
    + exfalso. apply Hk. right. split; [exact Hfield | rewrite Htext; exact Ec].
    + reflexivity.
  - destruct (String.eqb t "pdf") eqn:Ep; [|reflexivity].
    apply String.eqb_eq in Ep. subst t.
    destruct Hfield as [Hfield | [_ Hempty]]; [|discriminate].
    exfalso. apply Hk. left. exact Hfield.
Qed.

Lemma find_in_links_pdf (l : YVal) (rest : list YVal) :
  field "type" l = Some (YStr "pdf") ->
  Yaml.find_in_links (l :: rest) = Returns (default (YStr "") (field "url" l)).
Proof.
  destruct l as [| | | | | |pairs]; try discriminate. cbn [field]. intros Hl.
  cbn [Yaml.find_in_links Py.get]. rewrite Hl. reflexivity.
Qed.

(** C1, as the code has it: the resolver returns, unchanged, the URL of a
    [pdf] link when no earlier link of the list is a [pdf] link or an
    [arxiv] link whose URL mentions [arxiv.org]; the links are tried in
    list order and the first that decides wins. *)
Theorem find_pdf_url_first_pdf (paper : YVal) (before after : list YVal) (l : YVal) :
  field "links" paper = Some (YSeq (before ++ l :: after)) ->
  field "type" l = Some (YStr "pdf") ->
  Forall passed_over before ->
  Yaml.find_pdf_url paper = Returns (default (YStr "") (field "url" l)).
Proof.
  intros Hlinks Hl Hbefore. rewrite (find_pdf_url_of_list _ _ Hlinks). clear Hlinks.
  induction Hbefore as [|k before' Hk _ IH].
  - apply find_in_links_pdf, Hl.
  - rewrite <- app_comm_cons, find_in_links_skip by exact Hk. exact IH.
Qed.

Lemma find_pdf_url_first_pdf_witness :
  Yaml.find_pdf_url
    (mkPaper (Some "A paper") (Some 2025%Z)
       (Some [mkLink (Some "code") (Some "https://github.com/lab/repo");
              mkLink (Some "arxiv") (Some "https://example.org/mirror/1");
              mkLink (Some "pdf") (Some "https://example.org/paper.pdf");
              mkLink (Some "arxiv") (Some "https://arxiv.org/abs/2401.00001")])
       None)
  = Returns (YStr "https://example.org/paper.pdf").
Proof.
  apply (find_pdf_url_first_pdf _
           [mkLink (Some "code") (Some "https://github.com/lab/repo");
            mkLink (Some "arxiv") (Some "https://example.org/mirror/1")]
           [mkLink (Some "arxiv") (Some "https://arxiv.org/abs/2401.00001")]
           (mkLink (Some "pdf") (Some "https://example.org/paper.pdf")));
    [reflexivity | reflexivity |].
  repeat constructor; intros [H | [H1 H2]]; vm_compute in *; congruence.
Defined.

(** C1 fails as stated: an [arxiv] link placed before the [pdf] link
    decides, and the [pdf] link's URL is not what is returned. *)
Lemma find_pdf_url_arxiv_before_pdf :
  let pdf_link := mkLink (Some "pdf") (Some "https://example.org/paper.pdf") in
  let paper :=
    mkPaper (Some "A paper") (Some 2025%Z)
      (Some [mkLink (Some "arxiv") (Some "https://arxiv.org/abs/2401.00001"); pdf_link])
      None in
  Yaml.find_pdf_url paper = Returns (YStr "https://arxiv.org/pdf/2401.00001.pdf") /\
  field "url" pdf_link = Some (YStr "https://example.org/paper.pdf") /\
  Yaml.find_pdf_url paper <> Returns (YStr "https://example.org/paper.pdf").
Proof. split; [reflexivity|]. split; [reflexivity | discriminate]. Qed.

(** C2 fails on an abstract-page link that already ends in [.pdf]: the
    YAML resolver appends the suffix a second time, and the HTML
    normaliser, which tests for the suffix, leaves the path segment as it
    was. *)
Lemma find_pdf_url_suffix_twice :
  let paper :=
    mkPaper (Some "A paper") (Some 2025%Z)
      (Some [mkLink (Some "arxiv") (Some "https://arxiv.org/abs/2401.00001.pdf")]) None in
  Yaml.find_pdf_url paper = Returns (YStr "https://arxiv.org/pdf/2401.00001.pdf.pdf") /\
  Html.normalize_pdf_url "https://arxiv.org/abs/2401.00001.pdf"
  = "https://arxiv.org/abs/2401.00001.pdf".
Proof. split; reflexivity. Qed.


(** ** The figure extractor *)

Ltac unfold_monad := cbv [mbind M_bind mret M_ret write_file raise sys_exit get_sys].

Lemma find_app_first {A} (f : A -> bool) (l1 l2 : list A) :
  find f (l1 ++ l2) = match find f l1 with Some x => Some x | None => find f l2 end.
Proof.
  induction l1 as [|a l1 IH]; [reflexivity|].
  cbn [app find]. destruct (f a); [reflexivity | exact IH].
Qed.

Lemma find_split {A} (f : A -> bool) (small : list A) (x : A) (rest : list A) :
  Forall (fun a => f a = false) small -> f x = true ->
  find f (small ++ x :: rest) = Some x.
Proof.
  intros Hs Hx. induction Hs as [|a small Ha _ IH]; cbn [app find].
  - rewrite Hx. reflexivity.
  - rewrite Ha. exact IH.
Qed.

Lemma find_none_all {A} (f : A -> bool) (l : list A) :
  Forall (fun a => f a = false) l -> find f l = None.
Proof.
  induction 1 as [|a l Ha _ IH]; cbn [find]; [reflexivity|]. rewrite Ha. exact IH.
Qed.

Lemma yaml_scan_images_spec (images : list ImgDict) (out_path : Path) (s : Sys) :
  Yaml.scan_images images out_path s =
  match find qualifies images with
  | Some img => Ret true (save_image out_path img s)
  | None => Ret false s
  end.
Proof.
  induction images as [|img rest IH]; [reflexivity|].
  cbn [Yaml.scan_images find]. unfold qualifies at 1.
  destruct (Z.of_nat (length (img_image img)) <? 10000)%Z; cbn [negb].
  - exact IH.
  - reflexivity.
Qed.

Lemma yaml_scan_pages_spec (doc : Doc) (out_path : Path) (n k : nat) (s : Sys) :
  k + n <= length doc ->
  Yaml.scan_pages doc (seq k n) out_path s =
  match find qualifies (concat (map get_images (firstn n (skipn k doc)))) with
  | Some img => Ret true (save_image out_path img s)
  | None => Ret false s
  end.
Proof.
  revert k. induction n as [|n IH]; intros k Hk; [reflexivity|].
  cbn [seq Yaml.scan_pages].
  destruct (doc !! k) as [page|] eqn:Hpage.
  2:{ apply lookup_ge_None in Hpage. lia. }
  rewrite (drop_S _ _ _ Hpage). cbn [firstn map concat].
  rewrite find_app_first. unfold_monad.
  rewrite yaml_scan_images_spec.
  destruct (find qualifies (get_images page)); [reflexivity|].
  apply IH. lia.
Qed.

Lemma yaml_extract_spec (w : World) (pdf : list Byte.byte) (doc : Doc) (out_path : Path) (s : Sys) :
  fitz_open w pdf = Some doc ->
  Yaml.extract_first_image_from_pdf w pdf out_path s =
  match find qualifies (window doc) with
  | Some img => Ret true (save_image out_path img s)
  | None =>
      match doc with
      | page :: _ => Ret true (save_render out_path page s)
      | [] => Ret false s
      end
  end.
Proof.
  intros Hopen. unfold Yaml.extract_first_image_from_pdf, open_doc. unfold_monad.
  rewrite Hopen, yaml_scan_pages_spec by lia.
  rewrite drop_0. unfold window.
  replace (firstn (Nat.min 3 (length doc)) doc) with (firstn 3 doc).
  2:{ destruct (Nat.le_gt_cases 3 (length doc)) as [Hle | Hgt].
      - rewrite Nat.min_l by exact Hle. reflexivity.
      - rewrite Nat.min_r, firstn_all by lia. apply firstn_all2. lia. }
  destruct (find qualifies (concat (map get_images (firstn 3 doc)))); [reflexivity|].
  destruct doc; reflexivity.
Qed.

Lemma remaining_extract_same :
  Remaining.extract_first_image_from_pdf = Yaml.extract_first_image_from_pdf.
Proof. reflexivity. Qed.

Lemma html_scan_pages_spec (doc : Doc) (out_path : Path) (s : Sys) :
  Html.scan_pages doc out_path s =
  match head (all_images doc) with
  | Some img => Ret true (save_image out_path img s)
  | None => Ret false s
  end.
Proof.
  induction doc as [|page rest IH]; [reflexivity|].
  cbn [Html.scan_pages]. unfold all_images. cbn [map concat].
  destruct (get_images page) as [|img imgs]; [exact IH | reflexivity].
Qed.

Lemma html_extract_spec (w : World) (pdf : list Byte.byte) (doc : Doc) (out_path : Path) (s : Sys) :
  fitz_open w pdf = Some doc ->
  Html.extract_first_image_from_pdf w pdf out_path s =
  match head (all_images doc) with
  | Some img => Ret true (save_image out_path img s)
  | None =>
      match doc with
      | page :: _ => Ret true (save_render out_path page s)
      | [] => Ret false s
      end
  end.
Proof.
  intros Hopen. unfold Html.extract_first_image_from_pdf, open_doc. unfold_monad.
  rewrite Hopen, html_scan_pages_spec.
  destruct (head (all_images doc)); [reflexivity|].
  destruct doc; reflexivity.
Qed.

Lemma blob_length (n : Z) : (0 <= n)%Z -> Z.of_nat (length (blob n)) = n.
Proof. intros Hn. unfold blob. rewrite repeat_length. apply Z2Nat.id, Hn. Qed.

Lemma img_5k_small : (Z.of_nat (length (img_image img_5k)) < 10000)%Z.
Proof. cbn [img_5k img_image]. rewrite blob_length; lia. Qed.

Lemma img_20k_big : (10000 <= Z.of_nat (length (img_image img_20k)))%Z.
Proof. cbn [img_20k img_image]. rewrite blob_length; lia. Qed.

Lemma qualifies_false (img : ImgDict) :
  qualifies img = false <-> (Z.of_nat (length (img_image img)) < 10000)%Z.
Proof. unfold qualifies. rewrite negb_false_iff. apply Z.ltb_lt. Qed.

Lemma qualifies_true (img : ImgDict) :
  qualifies img = true <-> (10000 <= Z.of_nat (length (img_image img)))%Z.
Proof. unfold qualifies. rewrite negb_true_iff. apply Z.ltb_ge. Qed.

Lemma window_prefix (doc : Doc) :
  all_images doc = (window doc ++ all_images (skipn 3 doc))%list.
Proof.
  unfold all_images, window. rewrite <- concat_app, <- map_app, firstn_skipn. reflexivity.
Qed.

(** C3, as the code has it: in the YAML batch and in the manual batch,
    among the embedded images of the first three pages, taken in page
    and embedding order, every image of fewer than 10000 bytes is passed
    over and the first image of at least 10000 bytes is the one saved,
    under its native extension; nothing else is written.  (A document
    that carries a 5 KB image and then a 20 KB image within these pages
    has the 20 KB image saved.)  The extractor of the HTML batch has no
    size filter: on the same document it saves the first of these
    images, whatever its size. *)
Theorem extract_saves_first_large_in_window
    (w : World) (pdf : list Byte.byte) (doc : Doc) (out_path : Path) (s : Sys)
    (small : list ImgDict) (img : ImgDict) (rest : list ImgDict) :
  fitz_open w pdf = Some doc ->
  window doc = (small ++ img :: rest)%list ->
  Forall (fun a => (Z.of_nat (length (img_image a)) < 10000)%Z) small ->
  (10000 <= Z.of_nat (length (img_image img)))%Z ->
  Yaml.extract_first_image_from_pdf w pdf out_path s
  = Ret true (put_file (saved_as out_path img) (ImageBytes (img_image img)) s) /\
  Remaining.extract_first_image_from_pdf w pdf out_path s
  = Ret true (put_file (saved_as out_path img) (ImageBytes (img_image img)) s) /\
  Html.extract_first_image_from_pdf w pdf out_path s
  = Ret true (put_file (saved_as out_path (hd img small))
                       (ImageBytes (img_image (hd img small))) s).
Proof.
  intros Hopen Hwin Hsmall Hbig.
  assert (Hyaml : Yaml.extract_first_image_from_pdf w pdf out_path s
                  = Ret true (put_file (saved_as out_path img) (ImageBytes (img_image img)) s)).
  { rewrite (yaml_extract_spec _ _ _ _ _ Hopen), Hwin, find_split.
    - reflexivity.
    - eapply Forall_impl; [exact Hsmall|]. intros a Ha. apply qualifies_false, Ha.
    - apply qualifies_true, Hbig. }
  split; [exact Hyaml|]. split; [rewrite remaining_extract_same; exact Hyaml|].
  rewrite (html_extract_spec _ _ _ _ _ Hopen), window_prefix, Hwin.
  destruct small; reflexivity.
Qed.

Lemma extract_saves_first_large_in_window_witness :
  Yaml.extract_first_image_from_pdf (world_of_doc doc_small_then_big) [Byte.x01] sample_out empty_sys
  = Ret true (put_file (mkPath ["srv"; "site"; "images"; "publications"] "a-paper.jpeg")
                       (ImageBytes (img_image img_20k)) empty_sys) /\
  Remaining.extract_first_image_from_pdf (world_of_doc doc_small_then_big) [Byte.x01] sample_out empty_sys
  = Ret true (put_file (mkPath ["srv"; "site"; "images"; "publications"] "a-paper.jpeg")
                       (ImageBytes (img_image img_20k)) empty_sys) /\
  Html.extract_first_image_from_pdf (world_of_doc doc_small_then_big) [Byte.x01] sample_out empty_sys
  = Ret true (put_file (mkPath ["srv"; "site"; "images"; "publications"] "a-paper.png")
                       (ImageBytes (img_image img_5k)) empty_sys).
Proof.
  apply (extract_saves_first_large_in_window
           (world_of_doc doc_small_then_big) [Byte.x01] doc_small_then_big
           sample_out empty_sys [img_5k] img_20k []).
  - reflexivity.
  - reflexivity.
  - constructor; [exact img_5k_small | constructor].
  - exact img_20k_big.
Defined.

(** C3 fails as stated: with the 5 KB image on page 1 and the 20 KB image
    on page 4, the 20 KB image is not saved; page 1 is rendered. *)
Lemma extract_large_image_beyond_window :
  all_images doc_big_on_page4 = [img_5k; img_20k] /\
  Yaml.extract_first_image_from_pdf (world_of_doc doc_big_on_page4) [Byte.x01] sample_out empty_sys
  = Ret true (put_file (mkPath ["srv"; "site"; "images"; "publications"] "a-paper.png")
                       (PixmapPng (mkPage [img_5k]) 150) empty_sys) /\
  files (put_file (mkPath ["srv"; "site"; "images"; "publications"] "a-paper.png")
                  (PixmapPng (mkPage [img_5k]) 150) empty_sys)
    !! saved_as sample_out img_20k = None.
Proof.
  split; [reflexivity|]. split.
  - rewrite (yaml_extract_spec _ _ doc_big_on_page4) by reflexivity.
    rewrite find_none_all; [reflexivity|].
    constructor; [apply qualifies_false, img_5k_small | constructor].
  - reflexivity.
Qed.

Lemma window_firstn (doc doc' : Doc) :
  firstn 3 doc' = firstn 3 doc -> window doc' = window doc.
Proof. unfold window. intros ->. reflexivity. Qed.

(** C4, as the code has it: in the YAML batch and in the manual batch,
    what the extractor does is fixed by the first three pages, so no
    later page is searched for embedded images; and for a document with
    at least one page, if no image of these pages reaches the size
    threshold, page 1 is rendered at 150 DPI and saved under the [.png]
    suffix, nothing else being written.  The extractor of the HTML batch
    has no window: it saves the first embedded image of the document,
    on whatever page it lies, and renders page 1 only when a document
    with at least one page has no embedded image at all. *)
Theorem extract_window_then_render
    (w : World) (pdf : list Byte.byte) (doc : Doc) (out_path : Path) (s : Sys) :
  fitz_open w pdf = Some doc ->
  (forall (w' : World) (pdf' : list Byte.byte) (doc' : Doc),
      fitz_open w' pdf' = Some doc' ->
      firstn 3 doc' = firstn 3 doc ->
      Yaml.extract_first_image_from_pdf w' pdf' out_path s
      = Yaml.extract_first_image_from_pdf w pdf out_path s /\
      Remaining.extract_first_image_from_pdf w' pdf' out_path s
      = Remaining.extract_first_image_from_pdf w pdf out_path s) /\
  (forall (page : Page) (rest : list Page),
      doc = page :: rest ->
      Forall (fun a => (Z.of_nat (length (img_image a)) < 10000)%Z) (window doc) ->
      Yaml.extract_first_image_from_pdf w pdf out_path s
      = Ret true (put_file (PyPath.with_suffix out_path ".png") (PixmapPng page 150) s) /\
      Remaining.extract_first_image_from_pdf w pdf out_path s
      = Ret true (put_file (PyPath.with_suffix out_path ".png") (PixmapPng page 150) s)) /\
  (forall (img : ImgDict) (imgs : list ImgDict),
      all_images doc = img :: imgs ->
      Html.extract_first_image_from_pdf w pdf out_path s
      = Ret true (put_file (saved_as out_path img) (ImageBytes (img_image img)) s)) /\
  (forall (page : Page) (rest : list Page),
      doc = page :: rest ->
      all_images doc = [] ->
      Html.extract_first_image_from_pdf w pdf out_path s
      = Ret true (put_file (PyPath.with_suffix out_path ".png") (PixmapPng page 150) s)).
Proof.
  intros Hopen.
  assert (Hwindow : forall w' pdf' doc',
             fitz_open w' pdf' = Some doc' -> firstn 3 doc' = firstn 3 doc ->
             Yaml.extract_first_image_from_pdf w' pdf' out_path s
             = Yaml.extract_first_image_from_pdf w pdf out_path s).
  { intros w' pdf' doc' Hopen' Hsame.
    rewrite (yaml_extract_spec _ _ _ _ _ Hopen), (yaml_extract_spec _ _ _ _ _ Hopen').
    rewrite (window_firstn _ _ Hsame).
    destruct (find qualifies (window doc)); [reflexivity|].
    destruct doc as [|p d], doc' as [|p' d']; try reflexivity; try discriminate.
    cbn in Hsame. congruence. }
  assert (Hrender : forall page rest,
             doc = page :: rest ->
             Forall (fun a => (Z.of_nat (length (img_image a)) < 10000)%Z) (window doc) ->
             Yaml.extract_first_image_from_pdf w pdf out_path s
             = Ret true (put_file (PyPath.with_suffix out_path ".png") (PixmapPng page 150) s)).
  { intros page rest Hdoc Hsmall.
    rewrite (yaml_extract_spec _ _ _ _ _ Hopen), find_none_all.
    - rewrite Hdoc. reflexivity.
    - eapply Forall_impl; [exact Hsmall|]. intros a Ha. apply qualifies_false, Ha. }
  rewrite !remaining_extract_same.
  split; [|split; [|split]].
  - intros w' pdf' doc' Hopen' Hsame.
    split; apply (Hwindow _ _ doc'); assumption.
  - intros page rest Hdoc Hsmall. split; apply (Hrender page rest); assumption.
  - intros img imgs Hall. rewrite (html_extract_spec _ _ _ _ _ Hopen), Hall. reflexivity.
  - intros page rest Hdoc Hall. rewrite (html_extract_spec _ _ _ _ _ Hopen), Hall, Hdoc.
    reflexivity.
Qed.

Lemma extract_window_then_render_witness :
  (Yaml.extract_first_image_from_pdf (world_of_doc (firstn 3 doc_big_on_page4)) [Byte.x01] sample_out empty_sys
   = Yaml.extract_first_image_from_pdf (world_of_doc doc_big_on_page4) [Byte.x01] sample_out empty_sys) /\
  (Yaml.extract_first_image_from_pdf (world_of_doc doc_big_on_page4) [Byte.x01] sample_out empty_sys
   = Ret true (put_file (mkPath ["srv"; "site"; "images"; "publications"] "a-paper.png")
                        (PixmapPng (mkPage [img_5k]) 150) empty_sys)) /\
  (Html.extract_first_image_from_pdf (world_of_doc doc_big_on_page4) [Byte.x01] sample_out empty_sys
   = Ret true (put_file (mkPath ["srv"; "site"; "images"; "publications"] "a-paper.png")
                        (ImageBytes (img_image img_5k)) empty_sys)).
Proof.
  destruct (extract_window_then_render
              (world_of_doc doc_big_on_page4) [Byte.x01] doc_big_on_page4
              sample_out empty_sys eq_refl) as (Hwindow & Hrender & Hfirst & _).
  split; [|split].
  - apply (Hwindow _ _ (firstn 3 doc_big_on_page4)); reflexivity.
  - apply (Hrender (mkPage [img_5k]) [mkPage []; mkPage []; mkPage [img_20k]] eq_refl).
    constructor; [exact img_5k_small | constructor].
  - apply (Hfirst img_5k [img_20k]). reflexivity.
Defined.

(** C4 fails as stated on a document without pages: no page of the window
    yields an image, yet nothing is rendered and no [.png] file is saved. *)
Lemma extract_no_page_no_render :
  Forall (fun a => (Z.of_nat (length (img_image a)) < 10000)%Z) (window []) /\
  Yaml.extract_first_image_from_pdf (world_of_doc []) [Byte.x01] sample_out empty_sys
  = Ret false empty_sys /\
  files empty_sys !! PyPath.with_suffix sample_out ".png" = None.
Proof. split; [constructor | split; reflexivity]. Qed.

(** C6: for a document with zero pages, extraction returns [False] and
    leaves the site tree as it was, so no image file is created; this
    holds for the extractor of each of the three scripts. *)
Theorem extract_zero_pages
    (w : World) (pdf : list Byte.byte) (out_path : Path) (s : Sys) :
  fitz_open w pdf = Some [] ->
  Yaml.extract_first_image_from_pdf w pdf out_path s = Ret false s /\
  Remaining.extract_first_image_from_pdf w pdf out_path s = Ret false s /\
  Html.extract_first_image_from_pdf w pdf out_path s = Ret false s.
Proof.
  intros Hopen. rewrite remaining_extract_same.
  rewrite (yaml_extract_spec _ _ _ _ _ Hopen), (html_extract_spec _ _ _ _ _ Hopen).
  repeat split.
Qed.

Lemma extract_zero_pages_witness :
  let s := put_file (mkPath ["srv"; "site"; "images"; "publications"] "other.png")
                    (ImageBytes [Byte.x02]) empty_sys in
  Yaml.extract_first_image_from_pdf (world_of_doc []) [Byte.x01] sample_out s = Ret false s /\
  Remaining.extract_first_image_from_pdf (world_of_doc []) [Byte.x01] sample_out s = Ret false s /\
  Html.extract_first_image_from_pdf (world_of_doc []) [Byte.x01] sample_out s = Ret false s.
Proof.
  intros s. apply (extract_zero_pages (world_of_doc []) [Byte.x01] sample_out s). reflexivity.
Defined.


(** ** The loop of the YAML batch *)

Lemma bind_lift_returns {A B} (a : A) (f : A -> M B) (s : Sys) :
  (x ← lift (Returns a); f x) s = f a s.
Proof. reflexivity. Qed.

Lemma bind_lift_raises {A B} (name : string) (f : A -> M B) (s : Sys) :
  (x ← lift (Raises name); f x) s = Raise (Error name) s.
Proof. reflexivity. Qed.

Lemma find_key_set_key (k : string) (v : YVal) (pairs : list (string * YVal)) :
  Py.find_key k (Py.set_key k v pairs) = Some v.
Proof.
  induction pairs as [|[k' v'] rest IH]; cbn [Py.set_key Py.find_key].
  - rewrite String.eqb_refl. reflexivity.
  - destruct (String.eqb k' k) eqn:Hk; cbn [Py.find_key]; rewrite Hk; [reflexivity | exact IH].
Qed.

Lemma find_key_set_key_ne (k k0 : string) (v : YVal) (pairs : list (string * YVal)) :
  k0 <> k -> Py.find_key k0 (Py.set_key k v pairs) = Py.find_key k0 pairs.
Proof.
  intros Hne. induction pairs as [|[k' v'] rest IH]; cbn [Py.set_key Py.find_key].
  - replace (String.eqb k k0) with false; [reflexivity|].
    symmetry. apply String.eqb_neq. congruence.
  - destruct (String.eqb k' k) eqn:Hk; cbn [Py.find_key].
    + apply String.eqb_eq in Hk. subst k'.
      replace (String.eqb k k0) with false; [reflexivity|].
      symmetry. apply String.eqb_neq. congruence.
    + rewrite IH. reflexivity.
Qed.

(** A record of 2025, or one with a picture, is a dictionary. *)
Lemma is_2025_record (p : YVal) : is_2025 p = true -> is_record p = true.
Proof. destruct p; try discriminate. reflexivity. Qed.

Lemma has_picture_record (p : YVal) : has_picture p = true -> is_record p = true.
Proof. destruct p; try discriminate. reflexivity. Qed.

(** The picture of a record, once set. *)
Lemma has_picture_set (p : YVal) (pic : string) :
  is_record p = true -> pic <> "" -> has_picture (Yaml.set_picture p pic) = true.
Proof.
  destruct p as [| | | | | |pairs]; try discriminate. intros _ Hne.
  unfold has_picture, Yaml.set_picture, field. rewrite find_key_set_key.
  cbn. apply negb_true_iff, String.eqb_neq, Hne.
Qed.

Lemma field_set_picture (p : YVal) (pic k : string) :
  k <> "picture" -> field k (Yaml.set_picture p pic) = field k p.
Proof.
  intros Hne. destruct p as [| | | | | |pairs]; try reflexivity.
  cbn [Yaml.set_picture field]. apply find_key_set_key_ne, Hne.
Qed.

Lemma set_picture_record (p : YVal) (pic : string) :
  is_record (Yaml.set_picture p pic) = is_record p.
Proof. destruct p; reflexivity. Qed.

Lemma set_picture_changes (paper : YVal) (pic : string) :
  is_record paper = true -> has_picture paper = false -> pic <> "" ->
  Yaml.set_picture paper pic <> paper.
Proof.
  intros Hrec Hold Hne Heq.
  pose proof (has_picture_set paper pic Hrec Hne) as Hnew.
  rewrite Heq in Hnew. congruence.
Qed.

(** What makes a URL wanted. *)
Lemma wanted_url_inv (paper : YVal) (url : string) :
  wanted_url paper = Some url ->
  is_2025 paper = true /\ has_picture paper = false /\ text_title paper = true /\
  Yaml.find_pdf_url paper = Returns (YStr url) /\ url <> "".
Proof.
  unfold wanted_url.
  destruct (is_2025 paper); [|discriminate].
  destruct (has_picture paper); [discriminate|].
  destruct (text_title paper); [|discriminate]. cbn [negb andb].
  destruct (Yaml.find_pdf_url paper) as [[| | | |u| |]|]; try discriminate.
  destruct (String.eqb u "") eqn:Hu; [discriminate|].
  intros [= ->]. apply String.eqb_neq in Hu. auto.
Qed.

Lemma wanted_url_intro (paper : YVal) (url : string) :
  is_2025 paper = true -> has_picture paper = false -> text_title paper = true ->
  Yaml.find_pdf_url paper = Returns (YStr url) -> url <> "" ->
  wanted_url paper = Some url.
Proof.
  intros Hyear Hpic Htitle Hurl Hne. unfold wanted_url.
  rewrite Hyear, Hpic, Htitle, Hurl. cbn [negb andb].
  apply String.eqb_neq in Hne. rewrite Hne. reflexivity.
Qed.

(** A record for which a URL is wanted does not abort the loop. *)
Lemma wanted_url_no_abort (paper : YVal) (url : string) :
  wanted_url paper = Some url -> aborts paper = None.
Proof.
  intros Hwanted. apply wanted_url_inv in Hwanted as (Hyear & Hpic & Htitle & Hurl & _).
  unfold aborts. rewrite (is_2025_record _ Hyear), Hyear, Hpic, Hurl, Htitle.
  cbn. rewrite andb_false_r. reflexivity.
Qed.

Lemma omap_cons {A B} (f : A -> option B) (x : A) (l : list A) :
  omap f (x :: l) = match f x with Some y => y :: omap f l | None => omap f l end.
Proof. reflexivity. Qed.

Section YamlLoop.

Context (w : World).

Lemma yaml_extract_outcome (pdf : list Byte.byte) (doc : Doc) (out_path : Path) (s : Sys) :
  fitz_open w pdf = Some doc ->
  Yaml.extract_first_image_from_pdf w pdf out_path s
  = Ret (extract_outcome doc out_path s).1 (extract_outcome doc out_path s).2.
Proof.
  intros Hopen. rewrite (yaml_extract_spec _ _ _ _ _ Hopen). unfold extract_outcome.
  destruct (find qualifies (window doc)); [reflexivity|]. destruct doc; reflexivity.
Qed.

Lemma yaml_extract_raises (pdf : list Byte.byte) (out_path : Path) (s : Sys) :
  fitz_open w pdf = None ->
  Yaml.extract_first_image_from_pdf w pdf out_path s = Raise (Error "FileDataError") s.
Proof.
  intros Hopen. unfold Yaml.extract_first_image_from_pdf, open_doc. unfold_monad.
  rewrite Hopen. reflexivity.
Qed.

Lemma probe_exts_spec (exts : list string) (target : Path) (paper : YVal) (updated : bool) (s : Sys) :
  Yaml.probe_exts exts target paper updated s = Ret (probe s exts target paper updated) s.
Proof.
  unfold probe. induction exts as [|ext rest IH]; [reflexivity|].
  cbn [Yaml.probe_exts find]. unfold_monad. unfold exists_, has_file at 1.
  destruct (bool_decide (is_Some (files s !! PyPath.with_suffix target ext))).
  - reflexivity.
  - exact IH.
Qed.

(** The two [try] blocks of the loop body, once the URL is a text:
    nothing is raised, the outcome is the one of [serve]. *)
Lemma serve_spec (target : Path) (paper : YVal) (updated : bool) (s : Sys) (url : string) :
  (downloaded ← try_except (pdf_tmp ← download_file w url; mret (Some pdf_tmp))
                           (fun _ => mret None);
   match downloaded with
   | None => mret (paper, updated)
   | Some pdf_tmp =>
       try_except
         (success ← Yaml.extract_first_image_from_pdf w pdf_tmp target;
          if success : bool
          then Yaml.probe_exts [".png"; ".jpg"; ".jpeg"] target paper updated
          else mret (paper, updated))
         (fun _ => mret (paper, updated))
   end) s
  = Ret (serve w target paper updated s url).1 (serve w target paper updated s url).2.
Proof.
  unfold serve.
  unfold mbind at 1, M_bind at 1.
  unfold try_except at 1, mbind at 1, M_bind at 1, download_file.
  destruct (http_get w url) as [pdf|]; [|reflexivity].
  cbn [mret M_ret]. unfold try_except, mbind, M_bind.
  destruct (fitz_open w pdf) as [doc|] eqn:Hopen.
  - rewrite (yaml_extract_outcome _ _ _ _ Hopen).
    destruct (extract_outcome doc target (log_request url s)) as [ok s2].
    cbn [fst snd]. destruct ok; [|reflexivity].
    rewrite probe_exts_spec. reflexivity.
  - rewrite (yaml_extract_raises _ _ _ Hopen). reflexivity.
Qed.

(** The loop body raises exactly on the items that abort the loop, with
    the site tree as it found it; on any other item it is the pure
    [iteration]. *)
Lemma process_paper_spec (i : nat) (paper : YVal) (updated : bool) (s : Sys) :
  Yaml.process_paper w i paper updated s
  = match aborts paper with
    | Some name => Raise (Error name) s
    | None => Ret (iteration w i paper updated s).1 (iteration w i paper updated s).2
    end.
Proof.
  destruct paper as [| | | | | |pairs]; try reflexivity.
  unfold Yaml.process_paper, aborts, iteration, wanted_url, target_of, slug_of, title_of,
    is_2025, has_picture, text_title, field.
  cbn [is_record negb Py.get]. rewrite !bind_lift_returns.
  destruct (Py.eq_int (default YNull (Py.find_key "year" pairs)) 2025);
    cbn [negb andb]; [|reflexivity].
  rewrite bind_lift_returns.
  destruct (Py.truthy (default YNull (Py.find_key "picture" pairs)));
    cbn [negb andb]; [reflexivity|].
  destruct (Yaml.find_pdf_url (YMap pairs)) as [pdf_url|name];
    [rewrite bind_lift_returns | rewrite bind_lift_raises; reflexivity].
  destruct (Py.truthy pdf_url) eqn:Htruthy; cbn [negb andb].
  - destruct (Py.find_key "title" pairs) as [[| | | |t| |]|];
      cbn [default from_option id is_text negb Slug.of_value];
      try (rewrite bind_lift_raises; reflexivity);
      (rewrite bind_lift_returns;
       destruct pdf_url as [| | | |url| |]; try discriminate; try reflexivity;
       cbn [Py.truthy] in Htruthy; rewrite (proj1 (negb_true_iff _) Htruthy);
       cbn [Yaml.download_url]; apply serve_spec).
  - destruct (is_text (default (YStr "") (Py.find_key "title" pairs))); [|reflexivity].
    destruct pdf_url as [| | | |url| |]; try reflexivity.
    cbn [Py.truthy] in Htruthy. apply negb_false_iff in Htruthy. rewrite Htruthy. reflexivity.
Qed.

Lemma process_all_spec (papers : list YVal) (i : nat) (updated : bool) (s : Sys) :
  Yaml.process_all w i papers updated s
  = match first_abort papers with
    | Some name => Raise (Error name) (batch w i papers updated s).2
    | None => Ret (batch w i papers updated s).1 (batch w i papers updated s).2
    end.
Proof.
  revert i updated s. induction papers as [|paper rest IH]; intros i updated s; [reflexivity|].
  cbn [Yaml.process_all batch]. unfold mbind at 1, M_bind at 1.
  rewrite process_paper_spec. unfold first_abort. rewrite omap_cons.
  destruct (aborts paper) as [name|]; [reflexivity|].
  destruct (iteration w i paper updated s) as [[paper' updated'] s']. cbn [fst snd].
  unfold mbind, M_bind. rewrite IH. fold (first_abort rest).
  destruct (batch w (S i) rest updated' s') as [[rest' updated''] s''].
  destruct (first_abort rest); reflexivity.
Qed.

Lemma extract_outcome_false (doc : Doc) (out_path : Path) (s s2 : Sys) :
  extract_outcome doc out_path s = (false, s2) -> s2 = s.
Proof.
  unfold extract_outcome. destruct (find qualifies (window doc)); [discriminate|].
  destruct doc; [|discriminate]. congruence.
Qed.

Lemma extract_outcome_true (doc : Doc) (out_path : Path) (s s2 : Sys) :
  extract_outcome doc out_path s = (true, s2) ->
  exists path data, s2 = put_file path data s.
Proof.
  unfold extract_outcome. destruct (find qualifies (window doc)) as [img|].
  - intros [= <-]. eexists _, _. reflexivity.
  - destruct doc as [|page rest]; [discriminate|]. intros [= <-]. eexists _, _. reflexivity.
Qed.


(** Case analysis on one iteration: the record is passed over; or a
    request is made and the iteration ends there; or an image is written
    and the suffixes are probed. *)
Lemma iteration_cases (i : nat) (paper : YVal) (updated : bool) (s : Sys)
    (P : YVal * bool * Sys -> Prop) :
  P (paper, updated, s) ->
  (forall url, wanted_url paper = Some url -> P (paper, updated, log_request url s)) ->
  (forall url pdf doc s2,
      wanted_url paper = Some url ->
      http_get w url = Some pdf -> fitz_open w pdf = Some doc ->
      extract_outcome doc (target_of w i paper) (log_request url s) = (true, s2) ->
      P (probe s2 [".png"; ".jpg"; ".jpeg"] (target_of w i paper) paper updated, s2)) ->
  P (iteration w i paper updated s).
Proof.
  intros Hskip Hreq Hprobe. unfold iteration.
  destruct (wanted_url paper) as [url|] eqn:Hurl; [|exact Hskip].
  unfold serve. cbv zeta.
  destruct (http_get w url) as [pdf|] eqn:Hget; [|apply (Hreq url); reflexivity].
  destruct (fitz_open w pdf) as [doc|] eqn:Hopen; [|apply (Hreq url); reflexivity].
  destruct (extract_outcome doc (target_of w i paper) (log_request url s)) as [ok s2] eqn:Hout.
  destruct ok.
  - apply (Hprobe url pdf doc s2); assumption || reflexivity.
  - apply extract_outcome_false in Hout. subst s2. apply (Hreq url); reflexivity.
Qed.

Lemma probe_cases (s : Sys) (exts : list string) (target : Path) (paper : YVal) (updated : bool) :
  probe s exts target paper updated = (paper, updated) \/
  exists ext, ext ∈ exts /\ has_file s target ext = true /\
    probe s exts target paper updated
    = (Yaml.set_picture paper ("/images/publications/" +:+ path_name (PyPath.with_suffix target ext)),
       true).
Proof.
  unfold probe. destruct (find (has_file s target) exts) as [ext|] eqn:Hfind.
  - right. exists ext. apply find_some in Hfind as [Hin Hfile].
    split; [apply list_elem_of_In, Hin | split; [exact Hfile | reflexivity]].
  - left. reflexivity.
Qed.

(** The name the loop writes as a picture is never empty. *)
Lemma picture_name_not_empty (name : string) : "/images/publications/" +:+ name <> "".
Proof. discriminate. Qed.

Lemma put_file_keeps_files (path0 : Path) (data : FileData) (s : Sys) (path : Path) :
  is_Some (files s !! path) -> is_Some (files (put_file path0 data s) !! path).
Proof.
  intros Hsome. cbn [put_file files]. destruct (decide (path0 = path)) as [->|Hne].
  - rewrite lookup_insert_eq. eauto.
  - rewrite lookup_insert_ne by exact Hne. exact Hsome.
Qed.

Lemma wanted_is_requested (paper : YVal) (url : string) :
  wanted_url paper = Some url -> requested_for [paper] url.
Proof.
  intros Hwanted. apply wanted_url_inv in Hwanted as (Hyear & Hpic & _ & Hurl & _).
  exists paper. repeat split; auto. apply list_elem_of_here.
Qed.

Lemma iteration_invariant (i : nat) (paper : YVal) (updated : bool) (s : Sys) :
  iteration_ok paper updated s (iteration w i paper updated s).
Proof.
  apply iteration_cases.
  - repeat split; auto.
  - intros url Hwanted. repeat split; auto.
    right. exists url. split; [apply wanted_is_requested, Hwanted | reflexivity].
  - intros url pdf doc s2 Hwanted Hget Hopen Hout.
    apply extract_outcome_true in Hout as (path0 & data & ->).
    assert (Hlog : http_log (put_file path0 data (log_request url s)) = http_log s \/
                   exists url0, requested_for [paper] url0 /\
                     http_log (put_file path0 data (log_request url s)) = url0 :: http_log s).
    { right. exists url. split; [apply wanted_is_requested, Hwanted | reflexivity]. }
    apply wanted_url_inv in Hwanted as (Hyear & Hpic & _ & _ & _).
    destruct (probe_cases (put_file path0 data (log_request url s))
                [".png"; ".jpg"; ".jpeg"] (target_of w i paper) paper updated)
      as [-> | (ext & _ & _ & ->)].
    + repeat split; auto. intros path Hsome. apply put_file_keeps_files. exact Hsome.
    + repeat split; auto; [|intros path Hsome; apply put_file_keeps_files; exact Hsome].
      right. split; [reflexivity|]. split.
      * apply set_picture_changes;
          [apply is_2025_record, Hyear | exact Hpic | apply picture_name_not_empty].
      * right. repeat split; auto. eexists. split; [|reflexivity].
        apply picture_name_not_empty.
Qed.

Lemma requested_for_cons (p : YVal) (pubs : list YVal) (url : string) :
  requested_for pubs url -> requested_for (p :: pubs) url.
Proof.
  intros (q & Hin & Hq). exists q. split; [apply list_elem_of_further, Hin | exact Hq].
Qed.

Lemma requested_for_head (p : YVal) (pubs : list YVal) (url : string) :
  requested_for [p] url -> requested_for (p :: pubs) url.
Proof.
  intros (q & Hin & Hq). exists q. split; [|exact Hq].
  apply list_elem_of_singleton in Hin. subst q. apply list_elem_of_here.
Qed.

Lemma kept_refl (pubs : list YVal) : Forall2 kept_or_pictured pubs pubs.
Proof. apply Forall_Forall2_diag, Forall_forall. intros p _. left. reflexivity. Qed.

Lemma batch_invariant (pubs : list YVal) (i : nat) (updated : bool) (s : Sys) :
  batch_ok pubs updated s (batch w i pubs updated s).
Proof.
  revert i updated s. induction pubs as [|paper rest IH]; intros i updated s.
  - cbn. repeat split; auto. exists []. split; [reflexivity | constructor].
  - cbn [batch]. destruct (aborts paper) as [name|].
    { cbn. repeat split; auto; [apply kept_refl|].
      exists []. split; [reflexivity | constructor]. }
    pose proof (iteration_invariant i paper updated s) as Hit.
    destruct (iteration w i paper updated s) as [[paper' updated'] s'].
    pose proof (IH (S i) updated' s') as Hrest.
    destruct (batch w (S i) rest updated' s') as [[rest' updated''] s''].
    cbn [iteration_ok batch_ok] in *.
    destruct Hit as (Hy & Hh & Hd & Hchg & Hlog & Hfiles).
    destruct Hrest as (Hy' & Hh' & Hd' & Hrel & Hchg' & (new & Hlog' & Hnew) & Hfiles').
    split; [congruence|]. split; [congruence|]. split; [congruence|].
    split; [|split; [|split]].
    + constructor; [|exact Hrel].
      destruct Hchg as [[-> _] | (_ & _ & Hk)]; [left; reflexivity | exact Hk].
    + destruct Hchg as [[-> ->] | (-> & Hne & _)].
      * destruct Hchg' as [[-> ->] | [-> Hne']]; [left; auto|].
        right. split; [reflexivity | congruence].
      * right. destruct Hchg' as [[_ ->] | [-> _]]; (split; [reflexivity | congruence]).
    + destruct Hlog as [Hsame | (url & Hreq & Hcons)].
      * exists new. rewrite Hlog', Hsame. split; [reflexivity|].
        eapply Forall_impl; [exact Hnew|]. intros u. apply requested_for_cons.
      * exists (new ++ [url])%list. rewrite Hlog', Hcons, <- app_assoc. split; [reflexivity|].
        apply Forall_app. split.
        -- eapply Forall_impl; [exact Hnew|]. intros u. apply requested_for_cons.
        -- constructor; [apply requested_for_head, Hreq | constructor].
    + intros path Hsome. apply Hfiles', Hfiles, Hsome.
Qed.

(** The run on a data file that holds a list: an empty list halts it at
    the guard; otherwise the loop runs up to the first item that aborts
    it, and the file is rewritten when the loop ends with the flag set. *)
Lemma main_on_list (s : Sys) (pubs : list YVal) :
  yaml_file s = Some (Parsed (YSeq pubs)) ->
  Yaml.main w s =
  match pubs with
  | [] => Raise (SystemExit 1) s
  | _ :: _ =>
      match first_abort pubs with
      | Some name => Raise (Error name) (batch w 0 pubs false s).2
      | None =>
          Ret tt (if (batch w 0 pubs false s).1.2 : bool
                  then put_yaml (YSeq (batch w 0 pubs false s).1.1) (batch w 0 pubs false s).2
                  else (batch w 0 pubs false s).2)
      end
  end.
Proof.
  intros Hyaml. unfold Yaml.main. unfold mbind at 1, M_bind at 1, get_sys. rewrite Hyaml.
  destruct pubs as [|p ps]; [reflexivity|].
  cbn [Py.truthy negb Py.len Py.iter]. rewrite !bind_lift_returns.
  unfold mbind, M_bind. rewrite process_all_spec.
  destruct (first_abort (p :: ps)); [reflexivity|].
  destruct (batch w 0 (p :: ps) false s) as [[pubs' updated] s'].
  cbn [fst snd]. destruct updated; reflexivity.
Qed.

(** The run on a data file that is missing, unreadable, or holds
    something other than a list: it halts with the site tree as it was. *)
Lemma main_not_list (s : Sys) :
  (forall pubs, yaml_file s <> Some (Parsed (YSeq pubs))) ->
  exists e, yaml_ending s = Halts e /\ Yaml.main w s = Raise e s.
Proof.
  intros Hnot. unfold yaml_ending, Yaml.main. unfold mbind at 1, M_bind at 1, get_sys.
  destruct (yaml_file s) as [[|v]|]; [eexists; split; reflexivity| |eexists; split; reflexivity].
  destruct v as [|b|z|q|t|items|pairs];
    try (eexists; split; reflexivity).
  - destruct b; eexists; split; reflexivity.
  - cbn [Py.truthy]. destruct (negb (z =? 0)%Z); eexists; split; reflexivity.
  - cbn [Py.truthy]. destruct (negb (Qeq_bool q 0)); eexists; split; reflexivity.
  - destruct t as [|c t]; eexists; split; reflexivity.
  - exfalso. apply (Hnot items). reflexivity.
  - destruct pairs as [|[k v] pairs]; eexists; split; reflexivity.
Qed.

End YamlLoop.

(** ** The loops of the other two batches *)

Lemma html_extract_raises (w : World) (pdf : list Byte.byte) (out_path : Path) (s : Sys) :
  fitz_open w pdf = None ->
  Html.extract_first_image_from_pdf w pdf out_path s = Raise (Error "FileDataError") s.
Proof.
  intros Hopen. unfold Html.extract_first_image_from_pdf, open_doc. unfold_monad.
  rewrite Hopen. reflexivity.
Qed.

(** An iteration of the HTML loop always ends normally, and touches
    neither the data file nor the page. *)
Lemma html_process_row_total (w : World) (i : nat) (tr : Row) (s : Sys) :
  exists s', Html.process_row w i tr s = Ret tt s' /\
             yaml_file s' = yaml_file s /\ html_rows s' = html_rows s /\
             yaml_dumps s' = yaml_dumps s.
Proof.
  unfold Html.process_row.
  destruct (negb (PyStr.truthy (Html.find_pdf_link tr))); [exists s; auto|].
  set (pdf_url := Html.normalize_pdf_url _). set (out_path := PyPath.with_suffix _ "").
  unfold mbind at 1, M_bind at 1.
  unfold try_except at 1, mbind at 1, M_bind at 1, download_file.
  destruct (http_get w pdf_url) as [pdf|]; [|exists (log_request pdf_url s); auto].
  cbn [mret M_ret]. unfold try_except, mbind, M_bind.
  destruct (fitz_open w pdf) as [doc|] eqn:Hopen.
  - rewrite (html_extract_spec _ _ _ _ _ Hopen).
    destruct (head (all_images doc)) as [img|]; [eexists; split; [reflexivity | auto]|].
    destruct doc as [|page rest]; eexists; (split; [reflexivity | auto]).
  - rewrite (html_extract_raises _ _ _ _ Hopen). eexists; split; [reflexivity | auto].
Qed.

Lemma html_process_all_total (w : World) (rows : list Row) (i : nat) (s : Sys) :
  exists s', Html.process_all w i rows s = Ret tt s' /\
             yaml_file s' = yaml_file s /\ html_rows s' = html_rows s /\
             yaml_dumps s' = yaml_dumps s.
Proof.
  revert i s. induction rows as [|tr rest IH]; intros i s; [exists s; auto|].
  cbn [Html.process_all]. unfold mbind, M_bind.
  destruct (html_process_row_total w i tr s) as (s1 & -> & Hy & Hh & Hd).
  destruct (IH (S i) s1) as (s2 & -> & Hy' & Hh' & Hd').
  exists s2. repeat split; congruence.
Qed.

Lemma html_main_spec (w : World) (s : Sys) :
  match html_rows s with
  | None => Html.main w s = Raise (SystemExit 1) s
  | Some (Unreadable name) => Html.main w s = Raise (Error name) s
  | Some (Parsed rows) => exists s', Html.main w s = Ret tt s'
  end.
Proof.
  unfold Html.main. unfold mbind, M_bind, get_sys.
  destruct (html_rows s) as [[name|rows]|]; [reflexivity| |reflexivity].
  destruct (html_process_all_total w rows 1 s) as (s' & -> & _). eauto.
Qed.

(** ** The loop of the manual batch *)

Lemma remaining_probe_same : Remaining.probe_exts = Yaml.probe_exts.
Proof. reflexivity. Qed.

(** The loop body of the manual batch raises exactly on the items that
    abort its loop, with the site tree as it found it; on any other item
    it is the pure [manual_iteration]. *)
Lemma remaining_process_pub_spec (w : World) (pub : YVal) (updated : bool) (s : Sys) :
  Remaining.process_pub w pub updated s
  = match manual_aborts pub with
    | Some name => Raise (Error name) s
    | None => Ret (manual_iteration w pub updated s).1 (manual_iteration w pub updated s).2
    end.
Proof.
  destruct pub as [| | | | | |pairs]; try reflexivity.
  unfold Remaining.process_pub, manual_aborts, manual_iteration, manual_entry, manual_title,
    has_picture, text_of, field.
  cbn [is_record negb Py.get]. rewrite bind_lift_returns.
  destruct (Py.find_key "title" pairs) as [[| | | |t| |]|];
    cbn [default from_option id Remaining.in_table Py.hashable negb];
    try reflexivity.
  rewrite bind_lift_returns.
  destruct (Remaining.manual_pdfs !! t) as [pdf_url|]; [|reflexivity].
  rewrite bind_lift_returns.
  destruct (Py.truthy (default YNull (Py.find_key "picture" pairs))); [reflexivity|].
  cbn [Slug.of_value]. rewrite bind_lift_returns.
  rewrite remaining_extract_same, remaining_probe_same. apply serve_spec.
Qed.

Lemma remaining_process_pub_skips (w : World) (pub : YVal) (updated : bool) (s : Sys) :
  has_picture pub = true ->
  Remaining.process_pub w pub updated s
  = if Py.hashable (manual_title pub) then Ret (pub, updated) s
    else Raise (Error "TypeError") s.
Proof.
  intros Hpic. rewrite remaining_process_pub_spec. unfold manual_aborts, manual_iteration.
  rewrite (has_picture_record _ Hpic), Hpic. cbn [negb].
  destruct (Py.hashable (manual_title pub)); cbn [negb]; [|reflexivity].
  destruct (manual_entry pub); reflexivity.
Qed.

(** ** Exit status *)

Lemma halts_exit_status {A} (s s' : Sys) (e : Exn) :
  yaml_ending s = Halts e -> exit_status (@Raise A e s') = 1%Z.
Proof.
  unfold yaml_ending.
  destruct (yaml_file s) as [[|v]|]; try (intros [= <-]; reflexivity).
  destruct (negb (Py.truthy v)); [intros [= <-]; reflexivity|].
  destruct (Py.iter v) as [items|name]; [|intros [= <-]; reflexivity].
  destruct (first_abort items); [intros [= <-]; reflexivity | discriminate].
Qed.

(** How a run of the YAML batch ends, and what it leaves when it halts
    before the loop. *)
Lemma main_ending (w : World) (s : Sys) :
  match yaml_ending s with
  | Completes => exists s', Yaml.main w s = Ret tt s'
  | Halts e =>
      exists s', Yaml.main w s = Raise e s' /\ yaml_file s' = yaml_file s /\
                 (halts_at_startup s = true -> s' = s)
  end.
Proof.
  destruct (yaml_file s) as [[|[| | | | |pubs|]]|] eqn:Hyaml;
    try (destruct (main_not_list w s ltac:(intros pubs; rewrite Hyaml; discriminate))
           as (e & -> & ->);
         eexists; split; [reflexivity | split; [exact Hyaml | auto]]).
  rewrite (main_on_list w s pubs Hyaml). unfold yaml_ending, halts_at_startup. rewrite Hyaml.
  destruct pubs as [|p ps]; [eexists; split; [reflexivity | split; [exact Hyaml | auto]]|].
  cbn [Py.truthy negb Py.iter orb].
  destruct (first_abort (p :: ps)) as [name|].
  - eexists. split; [reflexivity|]. split; [|discriminate].
    pose proof (batch_invariant w (p :: ps) 0 false s) as Hinv.
    destruct (batch w 0 (p :: ps) false s) as [[pubs' updated] s'].
    destruct Hinv as (Hy & _). rewrite <- Hyaml. exact Hy.
  - eexists. reflexivity.
Qed.

(** C8, as the code has it: the YAML batch ends with exit status 1 when
    the data file is missing, when it cannot be read or parsed, when
    what it holds is falsy (an empty document, an empty list) or cannot
    be iterated, all of this before anything is touched, and when the
    loop meets an item that aborts it: an item that is no dictionary, or
    a record of 2025 without picture whose links cannot be walked or
    whose title is no text while a link is found; the data file is not
    rewritten then.  In every other case the run completes with exit
    status 0, whatever becomes of the downloads and extractions: the
    ending does not depend on the world.  The HTML batch halts with exit
    status 1, before anything is touched, exactly when its page is
    missing or cannot be read, and completes with exit status 0
    otherwise. *)
Theorem main_exit_status (w : World) (s : Sys) :
  exit_status (Yaml.main w s) = (if yaml_ending s is Completes then 0 else 1)%Z /\
  match yaml_ending s with
  | Completes => exists s', Yaml.main w s = Ret tt s'
  | Halts e =>
      exists s', Yaml.main w s = Raise e s' /\ yaml_file s' = yaml_file s /\
                 (halts_at_startup s = true -> s' = s)
  end /\
  exit_status (Html.main w s) = (if html_rows s is Some (Parsed _) then 0 else 1)%Z /\
  match html_rows s with
  | None => Html.main w s = Raise (SystemExit 1) s
  | Some (Unreadable name) => Html.main w s = Raise (Error name) s
  | Some (Parsed _) => exists s', Html.main w s = Ret tt s'
  end.
Proof.
  split; [|split; [|split]].
  - pose proof (main_ending w s) as Hmain.
    destruct (yaml_ending s) as [|e] eqn:Hend.
    + destruct Hmain as [s' ->]. reflexivity.
    + destruct Hmain as (s' & -> & _). apply (halts_exit_status s s' e Hend).
  - apply main_ending.
  - pose proof (html_main_spec w s) as Hmain.
    destruct (html_rows s) as [[name|rows]|];
      [rewrite Hmain | destruct Hmain as [s' ->] | rewrite Hmain]; reflexivity.
  - apply html_main_spec.
Qed.

(** C8 fails as stated: the data file is found, holds an empty list, and
    the run still halts with exit status 1. *)
Lemma main_exits_on_empty_list :
  let s := mkSys (Some (Parsed (YSeq []))) None ∅ [] 0 in
  is_Some (yaml_file s) /\
  Yaml.main (world_of_doc []) s = Raise (SystemExit 1) s /\
  exit_status (Yaml.main (world_of_doc []) s) = 1%Z.
Proof. cbn. split; [eexists; reflexivity | split; reflexivity]. Qed.

(** Other ways to exit status 1 with the data file found: a file that
    does not parse, a document that is a mapping, a record whose [links]
    key holds nothing. *)
Example main_exits_on_odd_files :
  exit_status (Yaml.main (world_of_doc []) (mkSys (Some (Unreadable "ScannerError")) None ∅ [] 0)) = 1%Z /\
  Yaml.main (world_of_doc []) (sys_with (YMap [("publications", YSeq [paper_2025])]))
  = Raise (Error "AttributeError") (sys_with (YMap [("publications", YSeq [paper_2025])])) /\
  Yaml.main (world_of_doc []) (sys_with (YInt 7)) = Raise (Error "TypeError") (sys_with (YInt 7)) /\
  Yaml.main (world_of_doc []) (sys_of [paper_null_links])
  = Raise (Error "TypeError") (sys_of [paper_null_links]).
Proof. repeat split; reflexivity. Qed.

(** ** Records the loop passes over *)

Lemma skipped_no_abort (p : YVal) : is_record p = true -> skipped p -> aborts p = None.
Proof.
  intros Hrec Hskip. unfold aborts. rewrite Hrec. cbn [negb].
  destruct Hskip as [-> | ->]; [reflexivity | rewrite andb_false_r; reflexivity].
Qed.

Lemma skipped_not_wanted (p : YVal) : skipped p -> wanted_url p = None.
Proof.
  intros Hskip. unfold wanted_url.
  destruct Hskip as [-> | ->]; [reflexivity | rewrite andb_false_r; reflexivity].
Qed.

Lemma iteration_skips (w : World) (i : nat) (p : YVal) (updated : bool) (s : Sys) :
  skipped p -> iteration w i p updated s = (p, updated, s).
Proof. intros Hskip. unfold iteration. rewrite (skipped_not_wanted p Hskip). reflexivity. Qed.

Lemma process_paper_skips (w : World) (i : nat) (p : YVal) (updated : bool) (s : Sys) :
  is_record p = true -> skipped p -> Yaml.process_paper w i p updated s = Ret (p, updated) s.
Proof.
  intros Hrec Hskip.
  rewrite process_paper_spec, (skipped_no_abort p Hrec Hskip), (iteration_skips w i p _ _ Hskip).
  reflexivity.
Qed.

Lemma kept_when_skipped (p p' : YVal) :
  kept_or_pictured p p' -> skipped p -> p' = p.
Proof.
  intros [-> | (Hyear & Hpic & _)] Hskip; [reflexivity|].
  destruct Hskip as [Hne | Htruthy]; congruence.
Qed.

Lemma Forall2_kept_lookup (pubs pubs' : list YVal) (i : nat) (p : YVal) :
  Forall2 kept_or_pictured pubs pubs' -> pubs !! i = Some p -> skipped p ->
  pubs' !! i = Some p.
Proof.
  intros Hrel Hp Hskip.
  destruct (Forall2_lookup_l _ _ _ _ _ Hrel Hp) as (p' & Hp' & Hk).
  rewrite Hp'. f_equal. apply kept_when_skipped; assumption.
Qed.

(** What a run leaves, read off the loop: the files and the requests of
    the loop, and the list of the loop in the data file when the loop
    came to its end. *)
Lemma main_run (w : World) (s : Sys) (pubs : list YVal) :
  yaml_file s = Some (Parsed (YSeq pubs)) ->
  let r := batch w 0 pubs false s in
  let s' := final_sys (Yaml.main w s) in
  files s' = files r.2 /\ http_log s' = http_log r.2 /\ html_rows s' = html_rows s /\
  yaml_file s' = Some (Parsed (YSeq (if first_abort pubs is None then r.1.1 else pubs))) /\
  yaml_dumps s' <= S (yaml_dumps s) /\
  (yaml_dumps s' = yaml_dumps s /\ s' = r.2 /\ yaml_file s' = yaml_file s \/
   yaml_dumps s' = S (yaml_dumps s) /\ r.1.1 <> pubs /\ first_abort pubs = None).
Proof.
  intros Hyaml. cbv zeta. rewrite (main_on_list w s pubs Hyaml).
  destruct pubs as [|p ps]; [cbn; repeat split; auto|].
  pose proof (batch_invariant w (p :: ps) 0 false s) as Hinv.
  destruct (batch w 0 (p :: ps) false s) as [[pubs' updated] s'].
  destruct Hinv as (Hy & Hh & Hd & _ & Hchg & _). cbn [fst snd].
  assert (Hsame : files s' = files s' /\ http_log s' = http_log s' /\
                  html_rows s' = html_rows s /\
                  yaml_file s' = Some (Parsed (YSeq (p :: ps))) /\
                  yaml_dumps s' <= S (yaml_dumps s) /\
                  (yaml_dumps s' = yaml_dumps s /\ s' = s' /\ yaml_file s' = yaml_file s \/
                   yaml_dumps s' = S (yaml_dumps s) /\ pubs' <> p :: ps /\
                   @None string = None)).
  { repeat split; auto; try congruence; try lia. }
  destruct (first_abort (p :: ps)) as [name|]; cbn [final_sys].
  - destruct Hsame as (H1 & H2 & H3 & H4 & H5 & [H6 | (H6 & _)]); [|lia].
    repeat split; auto.
  - destruct Hchg as [[-> ->] | [-> Hne]]; [exact Hsame|].
    cbn. repeat split; auto; try lia.
Qed.

(** The data file a run leaves: the list it found, with pictures given
    to some records; it is rewritten exactly when the list changed. *)
Lemma main_final_yaml (w : World) (s : Sys) (pubs : list YVal) :
  yaml_file s = Some (Parsed (YSeq pubs)) ->
  exists pubs', yaml_file (final_sys (Yaml.main w s)) = Some (Parsed (YSeq pubs')) /\
                Forall2 kept_or_pictured pubs pubs' /\
                ((pubs' = pubs /\ final_sys (Yaml.main w s) = (batch w 0 pubs false s).2) \/
                 (pubs' <> pubs /\
                  yaml_dumps (final_sys (Yaml.main w s)) = S (yaml_dumps s))).
Proof.
  intros Hyaml.
  destruct (main_run w s pubs Hyaml) as (_ & _ & _ & Hfinal & _ & Hchg).
  pose proof (batch_invariant w pubs 0 false s) as Hinv.
  destruct (batch w 0 pubs false s) as [[pubs' updated] s'].
  destruct Hinv as (_ & _ & _ & Hrel & _). cbn [fst snd] in *.
  destruct Hchg as [(Hd & Hs & Hy) | (Hd & Hne & Hno)].
  - exists pubs. split; [congruence|]. split; [apply kept_refl|]. left. split; auto.
  - rewrite Hno in Hfinal. exists pubs'. split; [exact Hfinal|]. split; [exact Hrel|].
    right. split; assumption.
Qed.

(** What the loop leaves when it is cut short: the loop of [batch]. *)
Lemma process_all_final (w : World) (pubs : list YVal) (i : nat) (updated : bool) (s : Sys) :
  final_sys (Yaml.process_all w i pubs updated s) = (batch w i pubs updated s).2.
Proof. rewrite process_all_spec. destruct (first_abort pubs); reflexivity. Qed.

(** C9: the YAML batch passes over every record whose year is not 2025
    (or is absent) at once, whatever its links and picture: the iteration
    changes neither the record nor the flag nor the site tree and makes
    no request; after the loop, and in the data file the run leaves, the
    record stands unchanged at its position; and every request of the
    run was made for a record of 2025. *)
Theorem other_years_untouched (w : World) (s : Sys) (pubs : list YVal) :
  yaml_file s = Some (Parsed (YSeq pubs)) ->
  (forall i p updated s0,
      is_record p = true -> is_2025 p = false ->
      Yaml.process_paper w i p updated s0 = Ret (p, updated) s0) /\
  (forall pubs' updated s',
      Yaml.process_all w 0 pubs false s = Ret (pubs', updated) s' ->
      forall i p, pubs !! i = Some p -> is_2025 p = false -> pubs' !! i = Some p) /\
  (first_abort pubs = None ->
   exists pubs' updated s', Yaml.process_all w 0 pubs false s = Ret (pubs', updated) s') /\
  (exists new,
      http_log (final_sys (Yaml.process_all w 0 pubs false s)) = (new ++ http_log s)%list /\
      Forall (fun url => exists q, q ∈ pubs /\ is_2025 q = true /\
                                   Yaml.find_pdf_url q = Returns (YStr url)) new) /\
  (exists pubs',
      yaml_file (final_sys (Yaml.main w s)) = Some (Parsed (YSeq pubs')) /\
      forall i p, pubs !! i = Some p -> is_2025 p = false -> pubs' !! i = Some p).
Proof.
  intros Hyaml.
  pose proof (batch_invariant w pubs 0 false s) as Hinv.
  split; [|split; [|split; [|split]]].
  - intros i p updated s0 Hrec Hyear. apply process_paper_skips; [exact Hrec|]. left. exact Hyear.
  - intros pubs' updated s'. rewrite process_all_spec.
    destruct (first_abort pubs); [discriminate|].
    destruct (batch w 0 pubs false s) as [[l u] s1].
    destruct Hinv as (_ & _ & _ & Hrel & _). cbn [fst snd]. intros [= <- <- <-].
    intros i p Hp Hyear. eapply Forall2_kept_lookup; eauto. left. exact Hyear.
  - intros Hno. rewrite process_all_spec, Hno.
    destruct (batch w 0 pubs false s) as [[l u] s1]. eauto.
  - rewrite process_all_final.
    destruct (batch w 0 pubs false s) as [[l u] s1].
    destruct Hinv as (_ & _ & _ & _ & _ & (new & Hlog & Hnew) & _).
    exists new. split; [exact Hlog|].
    eapply Forall_impl; [exact Hnew|].
    intros url (q & Hin & Hy & _ & Hurl). exists q. auto.
  - destruct (main_final_yaml w s pubs Hyaml) as (pubs' & Hfinal & Hrel & _).
    exists pubs'. split; [exact Hfinal|].
    intros i p Hp Hyear. eapply Forall2_kept_lookup; eauto. left. exact Hyear.
Qed.

Lemma other_years_untouched_witness :
  exists pubs',
    yaml_file (final_sys (Yaml.main (world_of_doc [mkPage []]) (sys_of [paper_2024; paper_2025])))
    = Some (Parsed (YSeq pubs')) /\
    pubs' !! 0 = Some paper_2024.
Proof.
  destruct (other_years_untouched (world_of_doc [mkPage []])
              (sys_of [paper_2024; paper_2025]) [paper_2024; paper_2025] eq_refl)
    as (_ & _ & _ & _ & pubs' & Hfinal & Hkept).
  exists pubs'. split; [exact Hfinal|].
  apply (Hkept 0 paper_2024); reflexivity.
Defined.

(** ** Failures of single records *)

Lemma failing_no_abort (w : World) (paper : YVal) :
  is_record paper = true -> record_fails w paper -> aborts paper = None.
Proof.
  intros Hrec Hfail. unfold aborts. rewrite Hrec. cbn [negb].
  destruct (is_2025 paper && negb (has_picture paper)); [|reflexivity].
  destruct Hfail as [v Hurl Hfalsy | url Hurl Htitle _ | url pdf Hurl Htitle _ _]; rewrite Hurl.
  - rewrite Hfalsy. reflexivity.
  - rewrite Htitle, andb_false_r. reflexivity.
  - rewrite Htitle, andb_false_r. reflexivity.
Qed.

Lemma failing_iteration (w : World) (i : nat) (paper : YVal) (updated : bool) (s : Sys) :
  record_fails w paper ->
  exists s', iteration w i paper updated s = (paper, updated, s') /\
             files s' = files s /\ yaml_file s' = yaml_file s /\
             yaml_dumps s' = yaml_dumps s.
Proof.
  intros Hfail. apply iteration_cases.
  - exists s. auto.
  - intros url _. exists (log_request url s). auto.
  - intros url pdf doc s2 Hwanted Hget Hopen _. exfalso.
    apply wanted_url_inv in Hwanted as (_ & _ & _ & Hurl & Hne).
    destruct Hfail as [v Hurl' Hfalsy | url' Hurl' _ Hget' | url' pdf' Hurl' _ Hget' Hopen'].
    + rewrite Hurl in Hurl'. injection Hurl' as <-. cbn in Hfalsy.
      apply negb_false_iff, String.eqb_eq in Hfalsy. contradiction.
    + congruence.
    + congruence.
Qed.

(** C7, as the code has it: a record (a dictionary) for which no link is
    found, or whose download raises, or whose downloaded file cannot be
    opened, makes its iteration end normally with the record, the flag,
    the image files and the data file as they were, and the loop goes on
    with the records after it: it ends as the loop over these ends.  A
    run over a data file that holds such a record completes, provided no
    item of the file is one that aborts the loop (an item that is no
    dictionary, or a record of 2025 without picture whose links cannot be
    walked or whose title is no text while a link is found).  In the
    HTML batch every iteration, and so the loop over any rows, ends
    normally. *)
Theorem record_failure_is_contained (w : World) (paper : YVal) :
  is_record paper = true ->
  record_fails w paper ->
  (forall i rest updated s, exists s',
      Yaml.process_paper w i paper updated s = Ret (paper, updated) s' /\
      files s' = files s /\ yaml_file s' = yaml_file s /\ yaml_dumps s' = yaml_dumps s /\
      Yaml.process_all w i (paper :: rest) updated s
      = match Yaml.process_all w (S i) rest updated s' with
        | Ret (rest', updated') s'' => Ret (paper :: rest', updated') s''
        | Raise e s'' => Raise e s''
        end) /\
  (forall s pubs,
      yaml_file s = Some (Parsed (YSeq pubs)) -> paper ∈ pubs -> first_abort pubs = None ->
      exists s', Yaml.main w s = Ret tt s' /\ exit_status (Yaml.main w s) = 0%Z) /\
  (forall i tr rest s, exists s' s'',
      Html.process_row w i tr s = Ret tt s' /\
      Html.process_all w (S i) rest s' = Ret tt s'' /\
      Html.process_all w i (tr :: rest) s = Ret tt s'').
Proof.
  intros Hrec Hfail. split; [|split].
  - intros i rest updated s.
    destruct (failing_iteration w i paper updated s Hfail) as (s' & Hit & Hf & Hy & Hd).
    pose proof (process_paper_spec w i paper updated s) as Hbody.
    rewrite (failing_no_abort w paper Hrec Hfail), Hit in Hbody. cbn [fst snd] in Hbody.
    exists s'. repeat (split; [assumption|]).
    cbn [Yaml.process_all]. unfold mbind at 1, M_bind at 1. rewrite Hbody.
    unfold mbind, M_bind.
    destruct (Yaml.process_all w (S i) rest updated s') as [[rest' updated'] s''|e s''];
      reflexivity.
  - intros s pubs Hyaml Hin Hno. rewrite (main_on_list w s pubs Hyaml), Hno.
    destruct pubs as [|p ps]; [apply elem_of_nil in Hin; contradiction|].
    eexists. split; reflexivity.
  - intros i tr rest s.
    destruct (html_process_row_total w i tr s) as (s' & Hrow & _).
    destruct (html_process_all_total w rest (S i) s') as (s'' & Hrest & _).
    exists s', s''. split; [exact Hrow|]. split; [exact Hrest|].
    cbn [Html.process_all]. unfold mbind, M_bind. rewrite Hrow. exact Hrest.
Qed.

Lemma record_failure_is_contained_witness :
  exists s',
    Yaml.main world_flaky (sys_of [paper_unreachable; paper_2025]) = Ret tt s' /\
    exit_status (Yaml.main world_flaky (sys_of [paper_unreachable; paper_2025])) = 0%Z.
Proof.
  assert (Hfail : record_fails world_flaky paper_unreachable).
  { apply (fails_download _ _ "https://down.example.org/paper.pdf"); reflexivity. }
  destruct (record_failure_is_contained world_flaky paper_unreachable eq_refl Hfail)
    as (_ & Hmain & _).
  apply (Hmain (sys_of [paper_unreachable; paper_2025]) [paper_unreachable; paper_2025]).
  - reflexivity.
  - apply list_elem_of_here.
  - reflexivity.
Defined.

(** C7 fails as stated: a record whose [links] key holds nothing is a
    record without link, yet nothing catches what the resolver raises
    on it: the run ends there with exit status 1, and the record after
    it is never tried.  The same happens, at [slugify], for a record
    whose link is found and whose title is a number. *)
Lemma malformed_record_ends_run :
  let s := sys_of [paper_null_links; paper_2025] in
  let t := sys_of [paper_number_title; paper_2025] in
  field "links" paper_null_links = Some YNull /\
  Yaml.main world_flaky s = Raise (Error "TypeError") s /\
  exit_status (Yaml.main world_flaky s) = 1%Z /\
  http_log (final_sys (Yaml.main world_flaky s)) = [] /\
  Yaml.main world_flaky t = Raise (Error "AttributeError") t /\
  exit_status (Yaml.main world_flaky t) = 1%Z.
Proof. repeat split; reflexivity. Qed.

(** ** Records that already carry a picture *)

Lemma batch_skips_all (w : World) (pubs : list YVal) (i : nat) (updated : bool) (s : Sys) :
  Forall skipped pubs -> batch w i pubs updated s = (pubs, updated, s).
Proof.
  intros Hall. revert i. induction Hall as [|p ps Hp _ IH]; intros i; [reflexivity|].
  cbn [batch]. destruct (aborts p); [reflexivity|].
  rewrite iteration_skips by exact Hp. rewrite IH. reflexivity.
Qed.

Lemma main_skips_all (w : World) (s : Sys) (pubs : list YVal) :
  yaml_file s = Some (Parsed (YSeq pubs)) -> Forall skipped pubs ->
  final_sys (Yaml.main w s) = s.
Proof.
  intros Hyaml Hall. rewrite (main_on_list w s pubs Hyaml).
  destruct pubs as [|p ps]; [reflexivity|].
  rewrite batch_skips_all by exact Hall.
  destruct (first_abort (p :: ps)); reflexivity.
Qed.

Lemma Forall2_changed (pubs pubs' : list YVal) :
  Forall2 kept_or_pictured pubs pubs' -> pubs' <> pubs ->
  exists i p p', pubs !! i = Some p /\ pubs' !! i = Some p' /\
                 has_picture p = false /\ has_picture p' = true.
Proof.
  induction 1 as [|p p' ps ps' Hk _ IH]; intros Hne; [contradiction|].
  destruct Hk as [-> | (Hyear & Hpic & pic & Hnew & ->)].
  - destruct IH as (i & q & q' & Hq & Hq' & Hold & Hnew); [congruence|].
    exists (S i), q, q'. auto.
  - exists 0, p, (Yaml.set_picture p pic). repeat split; auto.
    apply has_picture_set; [apply is_2025_record, Hyear | exact Hnew].
Qed.

(** C5, as the code has it: a record whose picture is set (and not empty)
    is passed over, so a run leaves it unchanged at its position and
    makes no request for it; a run rewrites the data file at most once,
    and only when it gave a picture to a record that had none; so a run
    over a list in which every record of 2025 has a picture changes
    nothing at all, and a second run performs no write when the first
    one left such a list.  Records the first run could not serve are
    tried again by the second.  The manual batch passes over a record
    with a picture in the same way (or, when the record's title is a
    list or a dictionary, ends there with nothing changed). *)
Theorem pictures_kept_and_rewrite_only_on_change (w : World) (s : Sys) (pubs : list YVal) :
  yaml_file s = Some (Parsed (YSeq pubs)) ->
  (forall i p updated s0,
      has_picture p = true ->
      Yaml.process_paper w i p updated s0 = Ret (p, updated) s0) /\
  (exists pubs',
      yaml_file (final_sys (Yaml.main w s)) = Some (Parsed (YSeq pubs')) /\
      (forall i p, pubs !! i = Some p -> has_picture p = true -> pubs' !! i = Some p) /\
      (yaml_dumps (final_sys (Yaml.main w s)) = yaml_dumps s \/
       (yaml_dumps (final_sys (Yaml.main w s)) = S (yaml_dumps s) /\
        exists i p p', pubs !! i = Some p /\ pubs' !! i = Some p' /\
                       has_picture p = false /\ has_picture p' = true)) /\
      (forall w2,
          Forall (fun p => is_2025 p = true -> has_picture p = true) pubs' ->
          final_sys (Yaml.main w2 (final_sys (Yaml.main w s))) = final_sys (Yaml.main w s))) /\
  (Forall (fun p => is_2025 p = true -> has_picture p = true) pubs ->
   final_sys (Yaml.main w s) = s) /\
  (forall p updated s0,
      has_picture p = true ->
      Remaining.process_pub w p updated s0
      = if Py.hashable (manual_title p) then Ret (p, updated) s0
        else Raise (Error "TypeError") s0).
Proof.
  intros Hyaml.
  assert (Hskipped : forall l,
             Forall (fun p => is_2025 p = true -> has_picture p = true) l ->
             Forall skipped l).
  { intros l Hl. eapply Forall_impl; [exact Hl|]. intros p Hp. unfold skipped.
    destruct (is_2025 p) eqn:Hy; [right; auto | left; reflexivity]. }
  split; [|split; [|split]]; [| | |intros p updated s0; apply remaining_process_pub_skips].
  - intros i p updated s0 Hpic.
    apply process_paper_skips; [apply has_picture_record, Hpic | right; exact Hpic].
  - destruct (main_final_yaml w s pubs Hyaml) as (pubs' & Hfinal & Hrel & Hchg).
    exists pubs'. split; [exact Hfinal|]. split; [|split].
    + intros i p Hp Hpic. eapply Forall2_kept_lookup; eauto. right. exact Hpic.
    + destruct Hchg as [[-> Hsame] | [Hne Hdump]].
      * left. rewrite Hsame.
        pose proof (batch_invariant w pubs 0 false s) as Hinv.
        destruct (batch w 0 pubs false s) as [[l u] s'].
        destruct Hinv as (_ & _ & Hd & _). exact Hd.
      * right. split; [exact Hdump|]. apply Forall2_changed; assumption.
    + intros w2 Hall. apply (main_skips_all w2 _ pubs' Hfinal), Hskipped, Hall.
  - intros Hall. apply (main_skips_all w s pubs Hyaml), Hskipped, Hall.
Qed.

Lemma pictures_kept_and_rewrite_only_on_change_witness :
  let w := world_of_doc [mkPage []] in
  let s1 := final_sys (Yaml.main w (sys_of [paper_2024; paper_2025])) in
  yaml_dumps s1 = 1 /\ final_sys (Yaml.main w s1) = s1.
Proof.
  intros w s1.
  destruct (pictures_kept_and_rewrite_only_on_change
              w (sys_of [paper_2024; paper_2025]) [paper_2024; paper_2025] eq_refl)
    as (_ & (pubs' & Hfinal & _ & _ & Hsecond) & _ & _).
  split; [reflexivity|].
  apply Hsecond.
  vm_compute in Hfinal. injection Hfinal as <-.
  repeat constructor; cbn; intros; congruence || reflexivity.
Defined.

(** C5 fails as stated: the first run cannot download the first record's
    file and writes the picture of the second; the second run, on the
    data file as the first left it, reaches the first record's file and
    writes again. *)
Lemma second_run_writes_again :
  let s0 := sys_of [paper_unreachable; paper_2025] in
  let s1 := final_sys (Yaml.main world_flaky s0) in
  let s2 := final_sys (Yaml.main (world_of_doc [mkPage []]) s1) in
  yaml_dumps s0 = 0 /\ yaml_dumps s1 = 1 /\ yaml_dumps s2 = 2 /\
  yaml_file s1
  = Some (Parsed (YSeq [paper_unreachable;
                        Yaml.set_picture paper_2025 "/images/publications/a-paper.png"])) /\
  yaml_file s2
  = Some (Parsed (YSeq [Yaml.set_picture paper_unreachable "/images/publications/unreachable.png";
                        Yaml.set_picture paper_2025 "/images/publications/a-paper.png"])).
Proof. vm_compute. repeat split. Qed.

(** ** The suffixes probed after an extraction *)

Lemma append_inj_l (s a b : string) : s +:+ a = s +:+ b -> a = b.
Proof.
  induction s as [|c s IH]; cbn; [auto|]. intros [= H]. apply IH, H.
Qed.

Lemma with_suffix_inj (p : Path) (a b : string) :
  PyPath.with_suffix p a = PyPath.with_suffix p b -> a = b.
Proof. unfold PyPath.with_suffix. intros [= H]. apply append_inj_l in H. exact H. Qed.

(** After an image of extension [e] is saved for [target], on a tree
    that held no file of a probed suffix, the only probed suffix under
    which a file exists is the one of the image. *)
Lemma has_file_after_save (s : Sys) (target : Path) (img : ImgDict) (x : string) :
  files s !! PyPath.with_suffix target ("." +:+ x) = None ->
  has_file (save_image target img s) target ("." +:+ x)
  = String.eqb (get_default (img_ext img) "png") x.
Proof.
  intros Hnone. unfold has_file, save_image, saved_as. cbn [put_file files].
  destruct (String.eqb (get_default (img_ext img) "png") x) eqn:He.
  - apply String.eqb_eq in He. rewrite He, lookup_insert_eq.
    apply bool_decide_eq_true. eauto.
  - apply String.eqb_neq in He. rewrite lookup_insert_ne, Hnone.
    + apply bool_decide_eq_false. intros [? ?]. discriminate.
    + intros Heq. apply with_suffix_inj in Heq. injection Heq as Heq. contradiction.
Qed.

(** The extension is one of those the loop of [main] probes. *)
Lemma probed_extension_cases (e : string) :
  e = "png" \/ e = "jpg" \/ e = "jpeg" \/
  (String.eqb e "png" = false /\ String.eqb e "jpg" = false /\ String.eqb e "jpeg" = false).
Proof.
  destruct (String.eqb e "png") eqn:H1; [left; apply String.eqb_eq, H1|].
  destruct (String.eqb e "jpg") eqn:H2; [right; left; apply String.eqb_eq, H2|].
  destruct (String.eqb e "jpeg") eqn:H3; [right; right; left; apply String.eqb_eq, H3|].
  right. right. right. auto.
Qed.

(** The iteration on a record for which a URL is wanted. *)
Lemma process_paper_wanted (w : World) (i : nat) (paper : YVal) (updated : bool) (s : Sys)
    (url : string) :
  is_2025 paper = true -> has_picture paper = false -> text_title paper = true ->
  Yaml.find_pdf_url paper = Returns (YStr url) -> url <> "" ->
  Yaml.process_paper w i paper updated s
  = Ret (serve w (target_of w i paper) paper updated s url).1
        (serve w (target_of w i paper) paper updated s url).2.
Proof.
  intros Hyear Hpic Htitle Hurl Hne.
  pose proof (wanted_url_intro paper url Hyear Hpic Htitle Hurl Hne) as Hwanted.
  rewrite process_paper_spec, (wanted_url_no_abort paper url Hwanted).
  unfold iteration. rewrite Hwanted. reflexivity.
Qed.

(** On a tree that holds no file of a probed suffix for the record, an
    extraction that saves an embedded image gives the record its
    picture, and sets the flag, exactly when the image's extension is
    [png], [jpg] or [jpeg]; under any other extension the image file is
    on disk while the record and the flag stay as they were. *)
Theorem picture_only_for_probed_extension
    (w : World) (i : nat) (paper : YVal) (updated : bool) (s : Sys)
    (url : string) (pdf : list Byte.byte) (doc : Doc) (img : ImgDict) :
  is_2025 paper = true -> has_picture paper = false -> text_title paper = true ->
  Yaml.find_pdf_url paper = Returns (YStr url) -> url <> "" ->
  http_get w url = Some pdf -> fitz_open w pdf = Some doc ->
  find qualifies (window doc) = Some img ->
  (forall ext, ext ∈ [".png"; ".jpg"; ".jpeg"] ->
               files s !! PyPath.with_suffix (target_of w i paper) ext = None) ->
  let e := get_default (img_ext img) "png" in
  let saved := PyPath.with_suffix (target_of w i paper) ("." +:+ e) in
  let s' := put_file saved (ImageBytes (img_image img)) (log_request url s) in
  files s' !! saved = Some (ImageBytes (img_image img)) /\
  Yaml.process_paper w i paper updated s
  = Ret (if bool_decide (e ∈ ["png"; "jpg"; "jpeg"])
         then (Yaml.set_picture paper ("/images/publications/" +:+ path_name saved), true)
         else (paper, updated)) s'.
Proof.
  intros Hyear Hpic Htitle Hurl Hne Hget Hopen Hfind Hfresh. cbv zeta.
  split; [apply lookup_insert_eq|].
  rewrite (process_paper_wanted w i paper updated s url Hyear Hpic Htitle Hurl Hne).
  unfold serve. cbv zeta.
  rewrite Hget, Hopen. unfold extract_outcome. rewrite Hfind. cbn [fst snd].
  f_equal. unfold probe. cbn [find].
  assert (Hhas : forall x, ("." +:+ x) ∈ [".png"; ".jpg"; ".jpeg"] ->
             has_file (save_image (target_of w i paper) img (log_request url s))
                      (target_of w i paper) ("." +:+ x)
             = String.eqb (get_default (img_ext img) "png") x).
  { intros x Hx. apply (has_file_after_save (log_request url s)), Hfresh, Hx. }
  change ".png" with ("." +:+ "png"). change ".jpg" with ("." +:+ "jpg").
  change ".jpeg" with ("." +:+ "jpeg").
  rewrite !Hhas by (cbn; repeat constructor). clear Hhas.
  destruct (probed_extension_cases (get_default (img_ext img) "png"))
    as [He | [He | [He | (H1 & H2 & H3)]]].
  - rewrite He, bool_decide_eq_true_2 by set_solver. reflexivity.
  - rewrite He, bool_decide_eq_true_2 by set_solver. reflexivity.
  - rewrite He, bool_decide_eq_true_2 by set_solver. reflexivity.
  - rewrite H1, H2, H3. rewrite bool_decide_eq_false_2; [reflexivity|].
    apply String.eqb_neq in H1. apply String.eqb_neq in H2. apply String.eqb_neq in H3.
    rewrite !elem_of_cons, elem_of_nil. tauto.
Qed.

Lemma picture_only_for_probed_extension_witness :
  let w := world_of_doc [mkPage [img_20k_jpx]] in
  let saved := mkPath ["srv"; "site"; "images"; "publications"] "a-paper.jpx" in
  let s' := put_file saved (ImageBytes (img_image img_20k_jpx))
                     (log_request "https://example.org/paper.pdf" (sys_of [paper_2025])) in
  files s' !! saved = Some (ImageBytes (img_image img_20k_jpx)) /\
  Yaml.process_paper w 0 paper_2025 false (sys_of [paper_2025]) = Ret (paper_2025, false) s'.
Proof.
  intros w saved s'.
  apply (picture_only_for_probed_extension w 0 paper_2025 false (sys_of [paper_2025])
           "https://example.org/paper.pdf" [Byte.x01] [mkPage [img_20k_jpx]] img_20k_jpx);
    reflexivity || discriminate.
Defined.

(** C10 fails where a file of a probed suffix is already there: the
    extraction saves [a-paper.jpx], and the record is given the picture
    [a-paper.png], a file this extraction did not create; the flag is
    set and the data file rewritten.  The loop that is to find the file
    the extraction created finds another one.  The manual batch, with
    the same loop, does the same. *)
Lemma stale_file_becomes_picture :
  let w := world_of_doc [mkPage [img_20k_jpx]] in
  let s' := final_sys (Yaml.main w sys_stale_png) in
  let t' := final_sys (Remaining.main w sys_stale_datagen) in
  files s' !! mkPath ["srv"; "site"; "images"; "publications"] "a-paper.jpx"
  = Some (ImageBytes (img_image img_20k_jpx)) /\
  files s' !! mkPath ["srv"; "site"; "images"; "publications"] "a-paper.png"
  = Some (ImageBytes [Byte.x89]) /\
  yaml_file s'
  = Some (Parsed (YSeq [Yaml.set_picture paper_2025 "/images/publications/a-paper.png"])) /\
  yaml_dumps s' = 1 /\
  files t' !! image_file w (slug_datagen +:+ ".jpx")
  = Some (ImageBytes (img_image img_20k_jpx)) /\
  files t' !! image_file w (slug_datagen +:+ ".png") = Some (ImageBytes [Byte.x89]) /\
  yaml_file t'
  = Some (Parsed (YSeq [Yaml.set_picture paper_datagen
                          ("/images/publications/" +:+ slug_datagen +:+ ".png")])) /\
  yaml_dumps t' = 1.
Proof. intros w s' t'. repeat split; reflexivity. Qed.

(** The same can happen with nothing changed outside: of two records with
    one slug, the first has its image saved as [twin-paper.jpx] and stays
    without picture in the first run; the second run finds the
    [twin-paper.png] that the first run rendered for the other record. *)
Lemma second_run_writes_again_same_world :
  let s0 := sys_of [paper_twin_a; paper_twin_b] in
  let s1 := final_sys (Yaml.main world_twins s0) in
  let s2 := final_sys (Yaml.main world_twins s1) in
  yaml_dumps s1 = 1 /\ yaml_dumps s2 = 2 /\
  yaml_file s1
  = Some (Parsed (YSeq [paper_twin_a;
                        Yaml.set_picture paper_twin_b "/images/publications/twin-paper.png"])) /\
  yaml_file s2
  = Some (Parsed (YSeq [Yaml.set_picture paper_twin_a "/images/publications/twin-paper.png";
                        Yaml.set_picture paper_twin_b "/images/publications/twin-paper.png"])).
Proof. intros s0 s1 s2. repeat split; reflexivity. Qed.

(** ** The extractor of the HTML batch *)

(** The HTML batch saves the first embedded image of the document,
    whatever its size and its page, under its native extension. *)
Theorem html_extract_saves_first_image
    (w : World) (pdf : list Byte.byte) (doc : Doc) (out_path : Path) (s : Sys)
    (img : ImgDict) (rest : list ImgDict) :
  fitz_open w pdf = Some doc ->
  all_images doc = img :: rest ->
  Html.extract_first_image_from_pdf w pdf out_path s
  = Ret true (put_file (saved_as out_path img) (ImageBytes (img_image img)) s).
Proof.
  intros Hopen Hall. rewrite (html_extract_spec _ _ _ _ _ Hopen), Hall. reflexivity.
Qed.

Lemma html_extract_saves_first_image_witness :
  Html.extract_first_image_from_pdf
    (world_of_doc [mkPage []; mkPage []; mkPage []; mkPage [img_5k; img_20k]])
    [Byte.x01] sample_out empty_sys
  = Ret true (put_file (mkPath ["srv"; "site"; "images"; "publications"] "a-paper.png")
                       (ImageBytes (img_image img_5k)) empty_sys).
Proof.
  apply (html_extract_saves_first_image
           (world_of_doc [mkPage []; mkPage []; mkPage []; mkPage [img_5k; img_20k]])
           [Byte.x01] [mkPage []; mkPage []; mkPage []; mkPage [img_5k; img_20k]]
           sample_out empty_sys img_5k [img_20k]);
    reflexivity.
Defined.

(** ** The manual batch *)

Lemma serve_cases (w : World) (target : Path) (paper : YVal) (updated : bool) (s : Sys)
    (url : string) (P : YVal * bool * Sys -> Prop) :
  P (paper, updated, log_request url s) ->
  (forall pdf doc s2,
      http_get w url = Some pdf -> fitz_open w pdf = Some doc ->
      extract_outcome doc target (log_request url s) = (true, s2) ->
      P (probe s2 [".png"; ".jpg"; ".jpeg"] target paper updated, s2)) ->
  P (serve w target paper updated s url).
Proof.
  intros Hreq Hprobe. unfold serve. cbv zeta.
  destruct (http_get w url) as [pdf|] eqn:Hget; [|exact Hreq].
  destruct (fitz_open w pdf) as [doc|] eqn:Hopen; [|exact Hreq].
  destruct (extract_outcome doc target (log_request url s)) as [ok s2] eqn:Hout.
  destruct ok.
  - apply (Hprobe pdf doc s2); assumption || reflexivity.
  - apply extract_outcome_false in Hout. subst s2. exact Hreq.
Qed.

(** A record whose title is a key of the table is a dictionary. *)
Lemma manual_entry_record (p : YVal) (url : string) :
  manual_entry p = Some url -> is_record p = true.
Proof. destruct p; try reflexivity; vm_compute; discriminate. Qed.

Lemma manual_entry_no_abort (p : YVal) (url : string) :
  manual_entry p = Some url -> manual_aborts p = None.
Proof.
  intros Hentry. unfold manual_aborts. rewrite (manual_entry_record p url Hentry).
  unfold manual_entry in Hentry. destruct (manual_title p); try discriminate. reflexivity.
Qed.

(** What one iteration of the manual loop may do. *)
Lemma manual_iteration_inv (w : World) (pub : YVal) (updated : bool) (s : Sys) :
  let '(pub', updated', s') := manual_iteration w pub updated s in
  yaml_file s' = yaml_file s /\ html_rows s' = html_rows s /\
  yaml_dumps s' = yaml_dumps s /\
  (forall path, is_Some (files s !! path) -> is_Some (files s' !! path)) /\
  (forall k, k <> "picture" -> field k pub' = field k pub) /\
  ((pub' = pub /\ updated' = updated) \/ (updated' = true /\ pub' <> pub)) /\
  ((pub' = pub /\ updated' = updated /\ s' = s) \/
   exists url, manual_entry pub = Some url /\ has_picture pub = false /\
               http_log s' = url :: http_log s).
Proof.
  unfold manual_iteration.
  destruct (manual_entry pub) as [pdf_url|] eqn:Hentry; [|repeat split; auto].
  destruct (has_picture pub) eqn:Hpic; [repeat split; auto|].
  apply serve_cases.
  - repeat split; auto. right. exists pdf_url. auto.
  - intros pdf doc s2 _ _ Hout.
    apply extract_outcome_true in Hout as (path0 & data & ->).
    destruct (probe_cases (put_file path0 data (log_request pdf_url s))
                [".png"; ".jpg"; ".jpeg"]
                (PyPath.joinpath (IMAGES_DIR w) (Slug.slugify (text_of "title" pub)))
                pub updated)
      as [-> | (ext & _ & _ & ->)].
    + repeat split; auto.
      * intros path Hsome. apply put_file_keeps_files. exact Hsome.
      * right. exists pdf_url. auto.
    + repeat split; auto.
      * intros path Hsome. apply put_file_keeps_files. exact Hsome.
      * intros k Hk. apply field_set_picture, Hk.
      * right. split; [reflexivity|].
        apply set_picture_changes;
          [apply (manual_entry_record _ _ Hentry) | exact Hpic | apply picture_name_not_empty].
      * right. exists pdf_url. auto.
Qed.

Lemma manual_request_cons (p : YVal) (pubs : list YVal) (url : string) :
  manual_request_for pubs url -> manual_request_for (p :: pubs) url.
Proof.
  intros (q & Hin & Hq). exists q. split; [apply list_elem_of_further, Hin | exact Hq].
Qed.

Lemma manual_kept_refl (pubs : list YVal) : Forall2 manual_kept pubs pubs.
Proof. apply Forall_Forall2_diag, Forall_forall. intros p _. split; auto. Qed.

(** What the manual loop may do, up to the first item that aborts it. *)
Lemma manual_batch_inv (w : World) (pubs : list YVal) (updated : bool) (s : Sys) :
  let '(pubs', updated', s') := manual_batch w pubs updated s in
  yaml_file s' = yaml_file s /\ html_rows s' = html_rows s /\
  yaml_dumps s' = yaml_dumps s /\
  (forall path, is_Some (files s !! path) -> is_Some (files s' !! path)) /\
  Forall2 manual_kept pubs pubs' /\
  ((pubs' = pubs /\ updated' = updated) \/ (updated' = true /\ pubs' <> pubs)) /\
  exists new, http_log s' = (new ++ http_log s)%list /\
              Forall (manual_request_for pubs) new.
Proof.
  revert updated s. induction pubs as [|pub rest IH]; intros updated s.
  - cbn. repeat split; auto. exists []. split; [reflexivity | constructor].
  - cbn [manual_batch]. destruct (manual_aborts pub) as [name|].
    { repeat split; auto; [apply manual_kept_refl|].
      exists []. split; [reflexivity | constructor]. }
    pose proof (manual_iteration_inv w pub updated s) as Hit.
    destruct (manual_iteration w pub updated s) as [[pub' u1] s1].
    pose proof (IH u1 s1) as Hrest.
    destruct (manual_batch w rest u1 s1) as [[rest' u2] s2].
    destruct Hit as (Hy & Hh & Hd & Hf & Hfields & Hchg & Hlog).
    destruct Hrest as (Hy' & Hh' & Hd' & Hf' & Hrel & Hchg' & new & Hlog' & Hnew).
    split; [congruence|]. split; [congruence|]. split; [congruence|].
    split; [intros path Hsome; apply Hf', Hf, Hsome|].
    split; [|split].
    + constructor; [|exact Hrel]. split; [exact Hfields|].
      intros Hskip. destruct Hlog as [(-> & _ & _) | (url & Hkey & Hpic & _)]; [reflexivity|].
      destruct Hskip as [Hnone | Htruthy]; congruence.
    + destruct Hchg as [[-> ->] | (-> & Hne)].
      * destruct Hchg' as [[-> ->] | [-> Hne']]; [left; auto|].
        right. split; [reflexivity | congruence].
      * right. destruct Hchg' as [[_ ->] | [-> _]]; (split; [reflexivity | congruence]).
    + destruct Hlog as [(_ & _ & ->) | (url & Hkey & Hpic & Hcons)].
      * exists new. split; [exact Hlog'|].
        eapply Forall_impl; [exact Hnew|]. intros u. apply manual_request_cons.
      * exists (new ++ [url])%list. rewrite Hlog', Hcons, <- app_assoc.
        split; [reflexivity|]. apply Forall_app. split.
        -- eapply Forall_impl; [exact Hnew|]. intros u. apply manual_request_cons.
        -- constructor; [|constructor]. exists pub. split; [apply list_elem_of_here | auto].
Qed.

Lemma remaining_process_all_spec (w : World) (pubs : list YVal) (updated : bool) (s : Sys) :
  Remaining.process_all w pubs updated s
  = match manual_first_abort pubs with
    | Some name => Raise (Error name) (manual_batch w pubs updated s).2
    | None => Ret (manual_batch w pubs updated s).1 (manual_batch w pubs updated s).2
    end.
Proof.
  revert updated s. induction pubs as [|pub rest IH]; intros updated s; [reflexivity|].
  cbn [Remaining.process_all manual_batch]. unfold mbind at 1, M_bind at 1.
  rewrite remaining_process_pub_spec. unfold manual_first_abort. rewrite omap_cons.
  destruct (manual_aborts pub) as [name|]; [reflexivity|].
  destruct (manual_iteration w pub updated s) as [[pub' updated'] s']. cbn [fst snd].
  unfold mbind, M_bind. rewrite IH. fold (manual_first_abort rest).
  destruct (manual_batch w rest updated' s') as [[rest' updated''] s''].
  destruct (manual_first_abort rest); reflexivity.
Qed.

(** The run of the manual batch on a data file that holds a list. *)
Lemma remaining_main_on_list (w : World) (s : Sys) (pubs : list YVal) :
  yaml_file s = Some (Parsed (YSeq pubs)) ->
  Remaining.main w s =
  match manual_first_abort pubs with
  | Some name => Raise (Error name) (manual_batch w pubs false s).2
  | None =>
      Ret tt (if (manual_batch w pubs false s).1.2 : bool
              then put_yaml (YSeq (manual_batch w pubs false s).1.1)
                            (manual_batch w pubs false s).2
              else (manual_batch w pubs false s).2)
  end.
Proof.
  intros Hyaml. unfold Remaining.main. unfold mbind at 1, M_bind at 1, get_sys. rewrite Hyaml.
  cbn [Py.iter]. rewrite bind_lift_returns.
  unfold mbind, M_bind. rewrite remaining_process_all_spec.
  destruct (manual_first_abort pubs); [reflexivity|].
  destruct (manual_batch w pubs false s) as [[pubs' updated] s'].
  cbn [fst snd]. destruct updated; reflexivity.
Qed.

(** The run of the manual batch on any other data file: it halts with
    the site tree as it was, unless the document is empty text or an
    empty mapping, over which the loop does not run at all. *)
Lemma remaining_main_not_list (w : World) (s : Sys) :
  (forall pubs, yaml_file s <> Some (Parsed (YSeq pubs))) ->
  match manual_ending s with
  | Completes => Remaining.main w s = Ret tt s
  | Halts e => Remaining.main w s = Raise e s
  end.
Proof.
  intros Hnot. remember (Remaining.main w s) as r eqn:Hr.
  unfold Remaining.main in Hr. unfold mbind at 1, M_bind at 1, get_sys in Hr.
  unfold manual_ending.
  destruct (yaml_file s) as [[|v]|]; [exact Hr| |exact Hr].
  destruct v as [|b|z|q|t|items|pairs]; try exact Hr.
  - destruct t as [|c t]; exact Hr.
  - exfalso. apply (Hnot items). reflexivity.
  - destruct pairs as [|[k v] pairs]; exact Hr.
Qed.

Lemma manual_ending_status {A} (s s' : Sys) (e : Exn) :
  manual_ending s = Halts e -> exit_status (@Raise A e s') = 1%Z.
Proof.
  unfold manual_ending.
  destruct (yaml_file s) as [[|v]|]; try (intros [= <-]; reflexivity).
  destruct (Py.iter v) as [items|name]; [|intros [= <-]; reflexivity].
  destruct (manual_first_abort items); [intros [= <-]; reflexivity | discriminate].
Qed.

Lemma remaining_main_ending (w : World) (s : Sys) :
  match manual_ending s with
  | Completes => exists s', Remaining.main w s = Ret tt s'
  | Halts e => exists s', Remaining.main w s = Raise e s' /\ yaml_file s' = yaml_file s
  end.
Proof.
  destruct (yaml_file s) as [[|[| | | | |pubs|]]|] eqn:Hyaml;
    try (pose proof (remaining_main_not_list w s
                       ltac:(intros pubs; rewrite Hyaml; discriminate)) as Hmain;
         destruct (manual_ending s); rewrite Hmain; eexists;
         first [reflexivity | split; [reflexivity | exact Hyaml]]).
  rewrite (remaining_main_on_list w s pubs Hyaml). unfold manual_ending. rewrite Hyaml.
  cbn [Py.iter].
  destruct (manual_first_abort pubs) as [name|]; [|eexists; reflexivity].
  eexists. split; [reflexivity|].
  pose proof (manual_batch_inv w pubs false s) as Hinv.
  destruct (manual_batch w pubs false s) as [[pubs' updated] s'].
  destruct Hinv as (Hy & _). rewrite <- Hyaml. exact Hy.
Qed.

Lemma no_manual_abort (pubs : list YVal) :
  Forall (fun p => is_record p = true /\ Py.hashable (manual_title p) = true) pubs ->
  manual_first_abort pubs = None.
Proof.
  unfold manual_first_abort. induction 1 as [|p ps [Hrec Hhash] _ IH]; [reflexivity|].
  rewrite omap_cons. unfold manual_aborts at 1. rewrite Hrec, Hhash. exact IH.
Qed.

(** The manual batch opens the data file without a test and iterates
    over what it holds without a test: when the file is missing the run
    ends on an uncaught [FileNotFoundError], when it does not parse on
    the loader's exception, when the document is empty (or a number) on
    a [TypeError], each with the site tree untouched and exit status 1;
    when the file holds a list, the run ends with exit status 1 on the
    first item that is no dictionary or whose title is a list or a
    dictionary, the data file not being rewritten, and completes with
    exit status 0 otherwise, whatever happens to the downloads and
    extractions. *)
Theorem remaining_main_exit_status (w : World) (s : Sys) :
  match manual_ending s with
  | Completes => exists s', Remaining.main w s = Ret tt s'
  | Halts e => exists s', Remaining.main w s = Raise e s' /\ yaml_file s' = yaml_file s
  end /\
  exit_status (Remaining.main w s) = (if manual_ending s is Completes then 0 else 1)%Z /\
  (yaml_file s = None -> Remaining.main w s = Raise (Error "FileNotFoundError") s) /\
  (yaml_file s = Some (Parsed YNull) -> Remaining.main w s = Raise (Error "TypeError") s) /\
  (forall pubs,
      yaml_file s = Some (Parsed (YSeq pubs)) ->
      Forall (fun p => is_record p = true /\ Py.hashable (manual_title p) = true) pubs ->
      exists s', Remaining.main w s = Ret tt s') /\
  ((forall pubs, yaml_file s <> Some (Parsed (YSeq pubs))) ->
   final_sys (Remaining.main w s) = s).
Proof.
  pose proof (remaining_main_ending w s) as Hmain.
  split; [exact Hmain|]. split; [|split; [|split; [|split]]];
    [| | | |intros Hnot; pose proof (remaining_main_not_list w s Hnot) as Hstop;
            destruct (manual_ending s); rewrite Hstop; reflexivity].
  - destruct (manual_ending s) as [|e] eqn:Hend.
    + destruct Hmain as [s' ->]. reflexivity.
    + destruct Hmain as (s' & -> & _). apply (manual_ending_status s s' e Hend).
  - intros Hyaml. unfold Remaining.main, mbind, M_bind, get_sys. rewrite Hyaml. reflexivity.
  - intros Hyaml. unfold Remaining.main, mbind, M_bind, get_sys. rewrite Hyaml. reflexivity.
  - intros pubs Hyaml Hall. rewrite (remaining_main_on_list w s pubs Hyaml).
    rewrite (no_manual_abort pubs Hall). eexists. reflexivity.
Qed.

(** A record whose title is a list ends the run of the manual batch. *)
Example remaining_list_title :
  Remaining.main (world_of_doc [mkPage []]) (sys_of [paper_other; paper_list_title; paper_datagen])
  = Raise (Error "TypeError") (sys_of [paper_other; paper_list_title; paper_datagen]).
Proof. reflexivity. Qed.

(** ** Slugs and picture paths *)

Lemma all_chars_lstrip (P Q : ascii -> bool) (s : string) :
  all_chars P s = true -> all_chars P (Slug.lstrip Q s) = true.
Proof.
  induction s as [|c s IH]; [reflexivity|]. cbn [Slug.lstrip].
  intros Hall. destruct (Q c); [|exact Hall].
  cbn [all_chars] in Hall. apply andb_true_iff in Hall as [_ Hs]. apply IH, Hs.
Qed.

Lemma all_chars_rstrip (P Q : ascii -> bool) (s : string) :
  all_chars P s = true -> all_chars P (Slug.rstrip Q s) = true.
Proof.
  induction s as [|c s IH]; [reflexivity|]. cbn [Slug.rstrip all_chars].
  intros Hall. apply andb_true_iff in Hall as [Hc Hs].
  destruct (Q c && String.eqb (Slug.rstrip Q s) ""); [reflexivity|].
  cbn [all_chars]. rewrite Hc, (IH Hs). reflexivity.
Qed.

Lemma all_chars_strip (P Q : ascii -> bool) (s : string) :
  all_chars P s = true -> all_chars P (Slug.strip Q s) = true.
Proof. intros Hall. apply all_chars_rstrip, all_chars_lstrip, Hall. Qed.

Lemma sub_runs_non_alnum (s : string) (in_run : bool) :
  all_chars slug_char (Slug.sub_runs (fun c => negb (Slug.is_slug_alnum c)) in_run s) = true.
Proof.
  revert in_run. induction s as [|c s IH]; intros in_run; [reflexivity|].
  cbn [Slug.sub_runs]. destruct (Slug.is_slug_alnum c) eqn:Hc; cbn [negb].
  - cbn [all_chars]. unfold slug_char at 1. rewrite Hc, IH. reflexivity.
  - destruct in_run; [apply IH|]. cbn [all_chars]. rewrite IH. reflexivity.
Qed.

Lemma sub_runs_dash (s : string) (in_run : bool) :
  all_chars slug_char s = true ->
  all_chars slug_char (Slug.sub_runs Slug.is_dash in_run s) = true.
Proof.
  revert in_run. induction s as [|c s IH]; intros in_run Hall; [reflexivity|].
  cbn [all_chars] in Hall. apply andb_true_iff in Hall as [Hc Hs].
  cbn [Slug.sub_runs]. destruct (Slug.is_dash c).
  - destruct in_run; [apply IH, Hs|]. cbn [all_chars]. rewrite (IH _ Hs). reflexivity.
  - cbn [all_chars]. rewrite Hc, (IH _ Hs). reflexivity.
Qed.

Lemma rfind_dot_none (s : string) (i : nat) :
  all_chars slug_char s = true -> PyPath.rfind_dot s i = None.
Proof.
  revert i. induction s as [|c s IH]; intros i Hall; [reflexivity|].
  cbn [all_chars] in Hall. apply andb_true_iff in Hall as [Hc Hs].
  cbn [PyPath.rfind_dot]. rewrite (IH _ Hs).
  destruct (Ascii.eqb c ".") eqn:Hdot; [|reflexivity].
  apply Ascii.eqb_eq in Hdot. subst c. discriminate.
Qed.

Lemma split_on_slash_slug (s : string) :
  all_chars slug_char s = true -> PyPath.split_on "/" s = [s].
Proof.
  induction s as [|c s IH]; intros Hall; [reflexivity|].
  cbn [all_chars] in Hall. apply andb_true_iff in Hall as [Hc Hs].
  cbn [PyPath.split_on]. rewrite (IH Hs).
  destruct (Ascii.eqb c "/") eqn:Hsep; [|reflexivity].
  apply Ascii.eqb_eq in Hsep. subst c. discriminate.
Qed.

Lemma parts_slug (s : string) :
  all_chars slug_char s = true -> s <> "" -> PyPath.parts s = [s].
Proof.
  intros Hall Hne. unfold PyPath.parts. rewrite (split_on_slash_slug s Hall).
  rewrite filter_cons_True; [reflexivity|].
  split; [exact Hne|]. intros ->. discriminate.
Qed.

Lemma substring_all (s : string) : String.substring 0 (String.length s) s = s.
Proof. induction s as [|c s IH]; [reflexivity|]. cbn. rewrite IH. reflexivity. Qed.

(** A slug is made of the characters [a-z], [0-9] and the dash, so it has
    no suffix in the sense of [pathlib], and [with_suffix] on the output
    path of a paper with a non-empty slug appends to the slug: the file
    of suffix [ext] is [images/publications/<slug><ext>]. *)
Theorem slugify_charset (text : string) :
  all_chars slug_char (Slug.slugify text) = true /\
  PyPath.suffix (Slug.slugify text) = "" /\
  (Slug.slugify text <> "" ->
   forall (w : World) (ext : string),
     PyPath.with_suffix (PyPath.joinpath (IMAGES_DIR w) (Slug.slugify text)) ext
     = mkPath (path_parent (IMAGES_DIR w) ++ [path_name (IMAGES_DIR w)])
              (Slug.slugify text +:+ ext)).
Proof.
  assert (Hall : all_chars slug_char (Slug.slugify text) = true).
  { unfold Slug.slugify. apply all_chars_strip, sub_runs_dash, sub_runs_non_alnum. }
  assert (Hsuf : PyPath.suffix (Slug.slugify text) = "").
  { unfold PyPath.suffix. rewrite rfind_dot_none by exact Hall. reflexivity. }
  split; [exact Hall|]. split; [exact Hsuf|].
  intros Hne w ext.
  unfold PyPath.joinpath. rewrite (parts_slug _ Hall Hne). cbn [reverse rev_append].
  unfold PyPath.with_suffix. cbn [path_name path_parent].
  rewrite Hsuf. cbn [String.length]. rewrite Nat.sub_0_r, substring_all.
  reflexivity.
Qed.

(** ** The rewriting of arXiv links *)

Lemma endswith_cons (suf : string) (c : ascii) (s : string) :
  PyStr.endswith suf (String c s) = String.eqb (String c s) suf || PyStr.endswith suf s.
Proof. reflexivity. Qed.

Lemma endswith_tail (suf : string) (c : ascii) (s : string) :
  PyStr.endswith suf s = true -> PyStr.endswith suf (String c s) = true.
Proof. intros H. rewrite endswith_cons, H. apply orb_true_r. Qed.

Lemma endswith_pdf_skip (c : ascii) (s : string) :
  c <> "."%char -> PyStr.endswith ".pdf" (String c s) = PyStr.endswith ".pdf" s.
Proof.
  intros Hc. rewrite endswith_cons.
  replace (String.eqb (String c s) ".pdf") with false; [reflexivity|].
  symmetry. apply String.eqb_neq. intros [= ? _]. contradiction.
Qed.

(** Without a slash in the result, nothing was replaced. *)
Lemma replace_abs_no_slash (s : string) :
  no_slash (PyStr.replace_from "/abs/" "/pdf/" s 0) = true ->
  PyStr.replace_from "/abs/" "/pdf/" s 0 = s.
Proof.
  induction s as [|c s IH]; [reflexivity|].
  cbn [PyStr.replace_from].
  destruct (String.prefix "/abs/" (String c s)); [discriminate|].
  unfold no_slash. cbn [all_chars]. intros Hall.
  apply andb_true_iff in Hall as [_ Hs]. rewrite (IH Hs). reflexivity.
Qed.

Lemma replace_abs_endswith_pdf (s : string) (skip : nat) :
  PyStr.endswith ".pdf" (PyStr.replace_from "/abs/" "/pdf/" s skip) = true ->
  PyStr.endswith ".pdf" s = true.
Proof.
  revert skip. induction s as [|c s IH]; intros skip; [discriminate|].
  cbn [PyStr.replace_from]. destruct skip as [|k].
  - destruct (String.prefix "/abs/" (String c s)).
    + change ("/pdf/" +:+ ?r) with (String "/" (String "p" (String "d" (String "f" (String "/" r))))).
      rewrite !endswith_pdf_skip by discriminate.
      intros H. apply endswith_tail, (IH _ H).
    + rewrite endswith_cons. intros H. apply orb_true_iff in H as [H | H].
      * apply String.eqb_eq in H. injection H as -> Hr.
        rewrite replace_abs_no_slash in Hr by (rewrite Hr; reflexivity).
        subst s. reflexivity.
      * apply endswith_tail, (IH _ H).
  - intros H. apply endswith_tail, (IH _ H).
Qed.

(** The good half of C2: for a record whose only link is an arXiv link
    to an abstract page that does not already end in [.pdf], the YAML
    resolver returns the URL with [/abs/] replaced by [/pdf/] and the
    suffix [.pdf] appended, and the URL it appends to does not end in
    [.pdf]: the suffix is there exactly once. *)
Theorem find_pdf_url_arxiv_abs (paper : YVal) (url : string) :
  field "links" paper = Some (YSeq [mkLink (Some "arxiv") (Some url)]) ->
  PyStr.contains "arxiv.org" url = true ->
  PyStr.contains "/abs/" url = true ->
  PyStr.endswith ".pdf" url = false ->
  Yaml.find_pdf_url paper = Returns (YStr (PyStr.replace "/abs/" "/pdf/" url +:+ ".pdf")) /\
  PyStr.endswith ".pdf" (PyStr.replace "/abs/" "/pdf/" url) = false.
Proof.
  intros Hlinks Harxiv Habs Hpdf. split.
  - rewrite (find_pdf_url_of_list _ _ Hlinks).
    cbn [Yaml.find_in_links mkLink opt_key fmap option_fmap option_map app Py.get Py.find_key
         String.eqb Ascii.eqb Bool.eqb default from_option id mbind Try_bind Py.eq_str
         Py.contains Py.replace].
    rewrite Harxiv. cbn [mbind Try_bind]. rewrite Habs. reflexivity.
  - destruct (PyStr.endswith ".pdf" (PyStr.replace "/abs/" "/pdf/" url)) eqn:Hends; [|reflexivity].
    apply replace_abs_endswith_pdf in Hends. congruence.
Qed.

Lemma find_pdf_url_arxiv_abs_witness :
  Yaml.find_pdf_url
    (mkPaper (Some "A paper") (Some 2025%Z)
       (Some [mkLink (Some "arxiv") (Some "https://arxiv.org/abs/2401.00001")]) None)
  = Returns (YStr "https://arxiv.org/pdf/2401.00001.pdf") /\
  PyStr.endswith ".pdf" "https://arxiv.org/pdf/2401.00001" = false.
Proof.
  apply (find_pdf_url_arxiv_abs
           (mkPaper (Some "A paper") (Some 2025%Z)
              (Some [mkLink (Some "arxiv") (Some "https://arxiv.org/abs/2401.00001")]) None)
           "https://arxiv.org/abs/2401.00001"); reflexivity.
Defined.

Lemma slugify_charset_witness :
  PyPath.with_suffix (PyPath.joinpath (IMAGES_DIR (world_of_doc [])) (Slug.slugify "  Hello, World!  ")) ".png"
  = mkPath ["srv"; "site"; "images"; "publications"] "hello-world.png".
Proof.
  destruct (slugify_charset "  Hello, World!  ") as (_ & _ & Hpath).
  apply (Hpath ltac:(discriminate) (world_of_doc []) ".png").
Defined.

(** ** The link heuristic of the HTML batch *)

Lemma contains_tail (sub : string) (c : ascii) (s : string) :
  PyStr.contains sub s = true -> PyStr.contains sub (String c s) = true.
Proof. intros H. cbn [PyStr.contains]. rewrite H. apply orb_true_r. Qed.

(** A string that ends in [.pdf] contains [pdf]: the fourth test of
    [find_pdf_link] never decides. *)
Lemma endswith_pdf_contains (s : string) :
  PyStr.endswith ".pdf" s = true -> PyStr.contains "pdf" s = true.
Proof.
  induction s as [|c s IH]; [discriminate|].
  rewrite endswith_cons. intros H. apply orb_true_iff in H as [H | H].
  - apply String.eqb_eq in H. rewrite H. reflexivity.
  - apply contains_tail, IH, H.
Qed.

Lemma find_in_hrefs_step (h : string) (rest : list string) :
  Html.find_in_hrefs (h :: rest)
  = if looks_like_pdf h then Some h else Html.find_in_hrefs rest.
Proof.
  cbn [Html.find_in_hrefs]. unfold looks_like_pdf.
  destruct (PyStr.endswith ".pdf" h) eqn:Hends.
  - rewrite (endswith_pdf_contains h Hends). reflexivity.
  - rewrite orb_false_r. reflexivity.
Qed.

(** The HTML batch takes, unchanged, the first [href] of the row, in
    document order, that contains [pdf], [arxiv.org/abs] or
    [openreview.net]. *)
Theorem find_pdf_link_first_match (tr : Row) (before after : list string) (h : string) :
  row_hrefs tr = (before ++ h :: after)%list ->
  Forall (fun x => looks_like_pdf x = false) before ->
  looks_like_pdf h = true ->
  Html.find_pdf_link tr = Some h.
Proof.
  intros Hrow Hbefore Hh. unfold Html.find_pdf_link. rewrite Hrow. clear Hrow.
  induction Hbefore as [|x before' Hx _ IH].
  - cbn [app]. rewrite find_in_hrefs_step, Hh. reflexivity.
  - rewrite <- app_comm_cons, find_in_hrefs_step, Hx. exact IH.
Qed.

Lemma find_pdf_link_first_match_witness :
  Html.find_pdf_link
    (mkRow (Some "A paper")
           ["https://github.com/lab/repo"; "https://arxiv.org/abs/2401.00001";
            "https://example.org/paper.pdf"]
           None)
  = Some "https://arxiv.org/abs/2401.00001".
Proof.
  apply (find_pdf_link_first_match
           (mkRow (Some "A paper")
                  ["https://github.com/lab/repo"; "https://arxiv.org/abs/2401.00001";
                   "https://example.org/paper.pdf"]
                  None)
           ["https://github.com/lab/repo"] ["https://example.org/paper.pdf"]
           "https://arxiv.org/abs/2401.00001").
  - reflexivity.
  - repeat constructor.
  - reflexivity.
Defined.

(** * Further properties *)

(** ** The link resolver, beyond the claims *)

Lemma find_in_links_decides (k : YVal) (rest : list YVal) :
  plain_link k = true -> decides k -> Yaml.find_in_links (k :: rest) <> Returns YNull.
Proof.
  intros Hplain Hk.
  destruct (plain_link_get k Hplain) as (t & u & Ht & Hu & Hfield & Htext).
  cbn [Yaml.find_in_links]. rewrite Ht, Hu. cbn [mbind Try_bind Py.eq_str Py.contains].
  destruct Hk as [Hpdf | [Harxiv Hhost]].
  - destruct Hfield as [Hfield | [Hfield _]]; [|congruence].
    rewrite Hpdf in Hfield. injection Hfield as <-. cbn. discriminate.
  - destruct Hfield as [Hfield | [Hfield _]]; [|congruence].
    rewrite Harxiv in Hfield. injection Hfield as <-.
    rewrite Htext in Hhost. cbn [String.eqb Ascii.eqb Bool.eqb]. rewrite Hhost.
    cbn [mbind Try_bind]. destruct (PyStr.contains "/abs/" u); discriminate.
Qed.

Lemma find_in_links_none (ls : list YVal) :
  Forall (fun k => plain_link k = true) ls ->
  Yaml.find_in_links ls = Returns YNull <-> Forall (fun k => ~ decides k) ls.
Proof.
  induction 1 as [|k rest Hplain _ IH].
  - split; [constructor | reflexivity].
  - split.
    + intros Hnone.
      assert (Hk : ~ decides k).
      { intros Hk. exact (find_in_links_decides k rest Hplain Hk Hnone). }
      constructor; [exact Hk|]. apply IH. rewrite <- Hnone. symmetry.
      apply find_in_links_skip. split; assumption.
    + intros Hall. inversion Hall as [|? ? Hk Hrest]; subst.
      rewrite find_in_links_skip by (split; assumption). apply IH, Hrest.
Qed.

(** For a record whose links, when it has any, are a list of links of
    the data model, the resolver finds nothing exactly when the record
    has no [links] key or none of its links is a [pdf] link or an
    [arxiv] link whose URL mentions [arxiv.org]; an [arxiv] link to
    another host does not count. *)
Theorem find_pdf_url_none_iff (paper : YVal) :
  is_record paper = true ->
  (forall v, field "links" paper = Some v ->
             exists ls, v = YSeq ls /\ Forall (fun k => plain_link k = true) ls) ->
  Yaml.find_pdf_url paper = Returns YNull <->
  field "links" paper = None \/
  exists ls, field "links" paper = Some (YSeq ls) /\ Forall (fun k => ~ decides k) ls.
Proof.
  intros Hrec Hmodel. destruct (field "links" paper) as [v|] eqn:Hlinks.
  - destruct (Hmodel v eq_refl) as (ls & -> & Hplain).
    rewrite (find_pdf_url_of_list _ _ Hlinks), (find_in_links_none ls Hplain). split.
    + intros Hall. right. exists ls. auto.
    + intros [Hnone | (ls' & [= <-] & Hall)]; [discriminate | exact Hall].
  - rewrite (find_pdf_url_no_links paper Hrec Hlinks). split; [auto | reflexivity].
Qed.

Lemma find_pdf_url_none_iff_witness :
  Yaml.find_pdf_url paper_no_link = Returns YNull.
Proof.
  apply (find_pdf_url_none_iff paper_no_link eq_refl).
  - intros v [= <-]. eexists. split; [reflexivity|]. repeat constructor.
  - right. eexists. split; [reflexivity|].
    repeat constructor; intros [H | [H1 H2]]; vm_compute in *; congruence.
Defined.

(** An [arxiv] link whose URL mentions [arxiv.org] decides when no earlier
    link does, whatever follows it, a [pdf] link included: an
    abstract-page URL is returned with every [/abs/] replaced by [/pdf/]
    and [.pdf] appended, any other URL as it is. *)
Theorem find_pdf_url_first_arxiv (paper : YVal) (before after : list YVal) (l : YVal)
    (url : string) :
  field "links" paper = Some (YSeq (before ++ l :: after)) ->
  field "type" l = Some (YStr "arxiv") ->
  field "url" l = Some (YStr url) ->
  PyStr.contains "arxiv.org" url = true ->
  Forall passed_over before ->
  Yaml.find_pdf_url paper
  = Returns (YStr (if PyStr.contains "/abs/" url
                   then PyStr.replace "/abs/" "/pdf/" url +:+ ".pdf"
                   else url)).
Proof.
  intros Hlinks Htype Hurl Hhost Hbefore. rewrite (find_pdf_url_of_list _ _ Hlinks).
  clear Hlinks. induction Hbefore as [|k before' Hk _ IH].
  - destruct l as [| | | | | |pairs]; try discriminate. cbn [field] in Htype, Hurl.
    cbn [app Yaml.find_in_links Py.get]. rewrite Htype, Hurl.
    cbn [default from_option id mbind Try_bind Py.eq_str Py.contains String.eqb Ascii.eqb
         Bool.eqb].
    rewrite Hhost. cbn [mbind Try_bind]. destruct (PyStr.contains "/abs/" url); reflexivity.
  - rewrite <- app_comm_cons, find_in_links_skip by exact Hk. exact IH.
Qed.

Lemma find_pdf_url_first_arxiv_witness :
  Yaml.find_pdf_url
    (mkPaper (Some "A paper") (Some 2025%Z)
       (Some [mkLink (Some "arxiv") (Some "https://example.org/mirror/1");
              mkLink (Some "arxiv") (Some "https://arxiv.org/pdf/2401.00001v2");
              mkLink (Some "pdf") (Some "https://example.org/paper.pdf")])
       None)
  = Returns (YStr "https://arxiv.org/pdf/2401.00001v2").
Proof.
  apply (find_pdf_url_first_arxiv _
           [mkLink (Some "arxiv") (Some "https://example.org/mirror/1")]
           [mkLink (Some "pdf") (Some "https://example.org/paper.pdf")]
           (mkLink (Some "arxiv") (Some "https://arxiv.org/pdf/2401.00001v2"))
           "https://arxiv.org/pdf/2401.00001v2"); try reflexivity.
  repeat constructor; intros [H | [H1 H2]]; vm_compute in *; congruence.
Defined.

(** ** The extractors, beyond the claims *)

Lemma startswith_dot (e : string) : PyStr.startswith "." ("." +:+ e) = true.
Proof. destruct e; reflexivity. Qed.

Lemma one_file_save_image (out_path : Path) (img : ImgDict) (s : Sys) :
  one_file_or_nothing out_path s (Ret true (save_image out_path img s)).
Proof. cbn. eexists _, _. split; [|reflexivity]. apply startswith_dot. Qed.

Lemma one_file_save_render (out_path : Path) (page : Page) (s : Sys) :
  one_file_or_nothing out_path s (Ret true (save_render out_path page s)).
Proof. cbn. eexists _, _. split; [|reflexivity]. reflexivity. Qed.

(** In each of the three scripts an extraction raises only when the file
    cannot be opened (the page loop never indexes past the document),
    returns [True] exactly when the document has a page, and then has
    written exactly one file, at the output path under a dot suffix; in
    every other case the site tree is as it was. *)
Theorem extract_one_file_or_nothing
    (w : World) (pdf : list Byte.byte) (out_path : Path) (s : Sys) :
  let outcome_of (r : Res bool) :=
    one_file_or_nothing out_path s r /\
    match fitz_open w pdf with
    | None => exists e, r = Raise e s
    | Some doc => exists s', r = Ret (has_page doc) s'
    end in
  outcome_of (Yaml.extract_first_image_from_pdf w pdf out_path s) /\
  outcome_of (Remaining.extract_first_image_from_pdf w pdf out_path s) /\
  outcome_of (Html.extract_first_image_from_pdf w pdf out_path s).
Proof.
  cbv zeta. rewrite remaining_extract_same.
  destruct (fitz_open w pdf) as [doc|] eqn:Hopen.
  - rewrite (yaml_extract_spec _ _ _ _ _ Hopen), (html_extract_spec _ _ _ _ _ Hopen).
    assert (Hyaml :
      one_file_or_nothing out_path s
        match find qualifies (window doc) with
        | Some img => Ret true (save_image out_path img s)
        | None => match doc with
                  | [] => Ret false s
                  | page :: _ => Ret true (save_render out_path page s)
                  end
        end /\
      exists s', match find qualifies (window doc) with
                 | Some img => Ret true (save_image out_path img s)
                 | None => match doc with
                           | [] => Ret false s
                           | page :: _ => Ret true (save_render out_path page s)
                           end
                 end = Ret (has_page doc) s').
    { destruct (find qualifies (window doc)) as [img|] eqn:Hfind.
      - split; [apply one_file_save_image|].
        destruct doc as [|page rest]; [discriminate|]. eexists; reflexivity.
      - destruct doc as [|page rest].
        + split; [reflexivity | eexists; reflexivity].
        + split; [apply one_file_save_render | eexists; reflexivity]. }
    split; [exact Hyaml|]. split; [exact Hyaml|].
    destruct (head (all_images doc)) as [img|] eqn:Hhead.
    + split; [apply one_file_save_image|].
      destruct doc as [|page rest]; [discriminate|]. eexists; reflexivity.
    + destruct doc as [|page rest].
      * split; [reflexivity | eexists; reflexivity].
      * split; [apply one_file_save_render | eexists; reflexivity].
  - rewrite (yaml_extract_raises _ _ _ _ Hopen), (html_extract_raises _ _ _ _ Hopen).
    repeat split; eauto.
Qed.

(** The extractor of the HTML batch and the one of the two YAML scripts
    do the same on a document whose first embedded image, if it has any,
    lies on one of the first three pages and has at least 10000 bytes. *)
Theorem extractors_agree
    (w : World) (pdf : list Byte.byte) (doc : Doc) (out_path : Path) (s : Sys) :
  fitz_open w pdf = Some doc ->
  (forall img, head (all_images doc) = Some img ->
               head (window doc) = Some img /\
               (10000 <= Z.of_nat (length (img_image img)))%Z) ->
  Html.extract_first_image_from_pdf w pdf out_path s
  = Yaml.extract_first_image_from_pdf w pdf out_path s.
Proof.
  intros Hopen Hfirst.
  rewrite (yaml_extract_spec _ _ _ _ _ Hopen), (html_extract_spec _ _ _ _ _ Hopen).
  destruct (head (all_images doc)) as [img|] eqn:Hhead.
  - destruct (Hfirst img eq_refl) as [Hwin Hbig].
    destruct (window doc) as [|img' rest]; [discriminate|].
    injection Hwin as ->. cbn [find].
    apply qualifies_true in Hbig. rewrite Hbig. reflexivity.
  - rewrite window_prefix in Hhead.
    destruct (window doc) as [|img rest]; [reflexivity | discriminate].
Qed.

Lemma extractors_agree_witness :
  Html.extract_first_image_from_pdf
    (world_of_doc [mkPage []; mkPage [img_20k; img_5k]]) [Byte.x01] sample_out empty_sys
  = Yaml.extract_first_image_from_pdf
      (world_of_doc [mkPage []; mkPage [img_20k; img_5k]]) [Byte.x01] sample_out empty_sys.
Proof.
  apply (extractors_agree (world_of_doc [mkPage []; mkPage [img_20k; img_5k]]) [Byte.x01]
           [mkPage []; mkPage [img_20k; img_5k]] sample_out empty_sys eq_refl).
  intros img [= <-]. split; [reflexivity | exact img_20k_big].
Defined.

(** ** The run of the YAML batch, beyond the claims *)


Lemma field_picture_set (p : YVal) (pic : string) :
  is_record p = true -> field "picture" (Yaml.set_picture p pic) = Some (YStr pic).
Proof.
  destruct p as [| | | | | |pairs]; try discriminate. intros _.
  cbn [Yaml.set_picture field]. apply find_key_set_key.
Qed.

Section YamlRun.

Context (w : World).

Lemma has_file_kept (s s' : Sys) (target : Path) (ext : string) :
  (forall path, is_Some (files s !! path) -> is_Some (files s' !! path)) ->
  has_file s target ext = true -> has_file s' target ext = true.
Proof.
  unfold has_file. intros Hkept Hfile.
  apply bool_decide_eq_true in Hfile. apply bool_decide_eq_true, Hkept, Hfile.
Qed.

Lemma probe_pictured (s : Sys) (i : nat) (paper : YVal) (updated : bool) :
  let r := probe s [".png"; ".jpg"; ".jpeg"] (target_of w i paper) paper updated in
  r.1 = paper \/ pictured_from w i s paper r.1.
Proof.
  cbv zeta.
  destruct (probe_cases s [".png"; ".jpg"; ".jpeg"] (target_of w i paper) paper updated)
    as [-> | (ext & Hin & Hfile & ->)]; [left; reflexivity|].
  right. exists ext. auto.
Qed.

(** One iteration: the request it makes and the picture it gives. *)
Lemma iteration_log_and_picture (i : nat) (paper : YVal) (updated : bool) (s : Sys) :
  let r := iteration w i paper updated s in
  http_log r.2 = (match wanted_url paper with Some u => [u] | None => [] end
                  ++ http_log s)%list /\
  (r.1.1 = paper \/ pictured_from w i r.2 paper r.1.1).
Proof.
  cbv zeta. unfold iteration. destruct (wanted_url paper) as [url|]; [|auto].
  apply (serve_cases w (target_of w i paper) paper updated s url
           (fun r => http_log r.2 = ([url] ++ http_log s)%list /\
                     (r.1.1 = paper \/ pictured_from w i r.2 paper r.1.1))).
  - auto.
  - intros pdf doc s2 _ _ Hout.
    apply extract_outcome_true in Hout as (path & data & ->).
    split; [reflexivity|]. apply probe_pictured.
Qed.

Lemma pictured_from_kept (i : nat) (s s' : Sys) (p p' : YVal) :
  (forall path, is_Some (files s !! path) -> is_Some (files s' !! path)) ->
  pictured_from w i s p p' -> pictured_from w i s' p p'.
Proof.
  intros Hkept (ext & Hin & Hfile & Heq). exists ext.
  split; [exact Hin|]. split; [eapply has_file_kept; eauto | exact Heq].
Qed.

(** The whole loop: one request per wanted URL of the items it reaches,
    in list order, and every changed record was given the name of a file
    that exists at the end. *)
Lemma batch_log_and_pictures (pubs : list YVal) (i : nat) (updated : bool) (s : Sys) :
  let r := batch w i pubs updated s in
  http_log r.2 = (reverse (omap wanted_url (reached pubs)) ++ http_log s)%list /\
  (forall j p p', pubs !! j = Some p -> r.1.1 !! j = Some p' ->
                  p' = p \/ pictured_from w (i + j) r.2 p p').
Proof.
  cbv zeta. revert i updated s. induction pubs as [|paper rest IH]; intros i updated s.
  - split; [reflexivity|]. intros j p p' Hj. discriminate.
  - cbn [batch reached]. destruct (aborts paper) as [name|].
    { split; [reflexivity|]. intros j p p' Hp Hp'. cbn [fst] in Hp'. left. congruence. }
    pose proof (iteration_log_and_picture i paper updated s) as Hit.
    destruct (iteration w i paper updated s) as [[paper' updated'] s1].
    pose proof (IH (S i) updated' s1) as Hrest.
    pose proof (batch_invariant w rest (S i) updated' s1) as Hinv.
    destruct (batch w (S i) rest updated' s1) as [[rest' updated''] s2].
    cbn [fst snd] in *.
    destruct Hit as [Hlog Hpic]. destruct Hrest as [Hlog' Hpics].
    destruct Hinv as (_ & _ & _ & _ & _ & _ & Hkept).
    split.
    + rewrite Hlog', Hlog, omap_cons.
      destruct (wanted_url paper) as [u|].
      * rewrite reverse_cons, <- app_assoc. reflexivity.
      * reflexivity.
    + intros [|j] p p' Hp Hp'.
      * cbn in Hp, Hp'. injection Hp as <-. injection Hp' as <-.
        rewrite Nat.add_0_r.
        destruct Hpic as [-> | Hpic]; [left; reflexivity | right].
        eapply pictured_from_kept; eauto.
      * cbn in Hp, Hp'. replace (i + S j) with (S i + j) by lia.
        apply Hpics; assumption.
Qed.

End YamlRun.



Lemma kept_or_pictured_fields (p p' : YVal) :
  kept_or_pictured p p' ->
  (is_record p = false -> p' = p) /\
  (forall k, k <> "picture" -> field k p' = field k p).
Proof.
  intros [-> | (_ & _ & pic & _ & ->)]; [auto|]. split.
  - destruct p; try reflexivity. discriminate.
  - intros k Hk. apply field_set_picture, Hk.
Qed.

(** A run of the YAML batch never removes a record or an image file,
    never changes a title, a year, a link list or any key of a record
    other than [picture], leaves an item that is no dictionary as it is,
    never touches the page of the HTML batch, and rewrites the data file
    at most once. *)
Theorem main_only_adds (w : World) (s : Sys) (pubs : list YVal) :
  yaml_file s = Some (Parsed (YSeq pubs)) ->
  let s' := final_sys (Yaml.main w s) in
  html_rows s' = html_rows s /\
  yaml_dumps s' <= S (yaml_dumps s) /\
  (forall path, is_Some (files s !! path) -> is_Some (files s' !! path)) /\
  exists pubs',
    yaml_file s' = Some (Parsed (YSeq pubs')) /\
    Forall2 (fun p p' => (is_record p = false -> p' = p) /\
                         forall k, k <> "picture" -> field k p' = field k p)
            pubs pubs'.
Proof.
  intros Hyaml. cbv zeta.
  destruct (main_run w s pubs Hyaml) as (Hfiles & _ & Hhtml & _ & Hdumps & _).
  destruct (main_final_yaml w s pubs Hyaml) as (pubs' & Hfinal & Hrel & _).
  pose proof (batch_invariant w pubs 0 false s) as Hinv.
  destruct (batch w 0 pubs false s) as [[pubs1 updated] s1]. cbn [fst snd] in *.
  destruct Hinv as (_ & _ & _ & _ & _ & _ & Hkept).
  split; [exact Hhtml|]. split; [exact Hdumps|]. split.
  - intros path Hsome. rewrite Hfiles. apply Hkept, Hsome.
  - exists pubs'. split; [exact Hfinal|].
    eapply Forall2_impl; [exact Hrel|]. intros p p'. apply kept_or_pictured_fields.
Qed.

Lemma main_only_adds_witness :
  let s := put_file (mkPath ["srv"; "site"; "images"; "publications"] "twin-paper.gif")
                    (ImageBytes [Byte.x47]) (sys_of [paper_twin_a; paper_twin_b]) in
  is_Some (files (final_sys (Yaml.main world_twins s))
             !! mkPath ["srv"; "site"; "images"; "publications"] "twin-paper.gif").
Proof.
  intros s.
  destruct (main_only_adds world_twins s [paper_twin_a; paper_twin_b] eq_refl)
    as (_ & _ & Hkept & _).
  apply Hkept. eexists. reflexivity.
Defined.

Lemma target_with_suffix (w : World) (i : nat) (p : YVal) (ext : string) :
  slug_of i p <> "" ->
  PyPath.with_suffix (target_of w i p) ext = image_file w (slug_of i p +:+ ext).
Proof.
  intros Hne. unfold target_of.
  assert (Hall : all_chars slug_char (slug_of i p) = true).
  { unfold slug_of. destruct (title_of i p); try reflexivity.
    unfold Slug.slugify. apply all_chars_strip, sub_runs_dash, sub_runs_non_alnum. }
  unfold PyPath.joinpath. rewrite (parts_slug _ Hall Hne). cbn [reverse rev_append].
  unfold PyPath.with_suffix, PyPath.suffix. cbn [path_name path_parent].
  rewrite (rfind_dot_none _ 0 Hall). cbn [String.length].
  rewrite Nat.sub_0_r, substring_all. reflexivity.
Qed.

Lemma target_empty_slug (w : World) (i : nat) (p : YVal) (ext : string) :
  slug_of i p = "" ->
  PyPath.with_suffix (target_of w i p) ext
  = mkPath (path_parent (ROOT w) ++ [path_name (ROOT w); "images"]) ("publications" +:+ ext).
Proof.
  intros Hempty. unfold target_of. rewrite Hempty.
  change (PyPath.with_suffix (PyPath.joinpath (IMAGES_DIR w) "") ext)
    with (mkPath ((path_parent (ROOT w) ++ [path_name (ROOT w)]) ++ ["images"])
                 ("publications" +:+ ext)).
  rewrite <- app_assoc. reflexivity.
Qed.

Lemma changed_is_pictured (w : World) (s : Sys) (pubs : list YVal) :
  yaml_file s = Some (Parsed (YSeq pubs)) ->
  exists pubs',
    yaml_file (final_sys (Yaml.main w s)) = Some (Parsed (YSeq pubs')) /\
    forall j p p', pubs !! j = Some p -> pubs' !! j = Some p' -> p' <> p ->
                   is_record p = true /\ pictured_from w j (final_sys (Yaml.main w s)) p p'.
Proof.
  intros Hyaml. destruct (main_run w s pubs Hyaml) as (Hfiles & _ & _ & Hfinal & _).
  eexists. split; [exact Hfinal|].
  intros j p p' Hp Hp' Hne.
  assert (Hbatch : (batch w 0 pubs false s).1.1 !! j = Some p').
  { destruct (first_abort pubs); [congruence | exact Hp']. }
  destruct (batch_log_and_pictures w pubs 0 false s) as [_ Hpics].
  destruct (Hpics j p p' Hp Hbatch) as [-> | (ext & Hin & Hfile & Heq)]; [contradiction|].
  split.
  - destruct p; try (exfalso; apply Hne; rewrite Heq; reflexivity). reflexivity.
  - exists ext. split; [exact Hin|]. split; [|exact Heq].
    unfold has_file in *. rewrite Hfiles. exact Hfile.
Qed.

(** The picture a run writes into a record whose slug is not empty is
    [/images/publications/<slug><ext>], with [ext] one of [.png], [.jpg],
    [.jpeg], and the file [<slug><ext>] exists in the images directory
    when the run ends. *)
Theorem picture_names_existing_file (w : World) (s : Sys) (pubs : list YVal) :
  yaml_file s = Some (Parsed (YSeq pubs)) ->
  exists pubs',
    yaml_file (final_sys (Yaml.main w s)) = Some (Parsed (YSeq pubs')) /\
    forall j p p',
      pubs !! j = Some p -> pubs' !! j = Some p' -> p' <> p -> slug_of j p <> "" ->
      exists ext, ext ∈ [".png"; ".jpg"; ".jpeg"] /\
        field "picture" p' = Some (YStr ("/images/publications/" +:+ slug_of j p +:+ ext)) /\
        is_Some (files (final_sys (Yaml.main w s)) !! image_file w (slug_of j p +:+ ext)).
Proof.
  intros Hyaml. destruct (changed_is_pictured w s pubs Hyaml) as (pubs' & Hfinal & Hpics).
  exists pubs'. split; [exact Hfinal|].
  intros j p p' Hp Hp' Hne Hslug.
  destruct (Hpics j p p' Hp Hp' Hne) as (Hrec & ext & Hin & Hfile & ->).
  exists ext. split; [exact Hin|].
  unfold has_file in Hfile. rewrite (target_with_suffix w j p ext Hslug) in *.
  split; [apply field_picture_set, Hrec|]. apply bool_decide_eq_true in Hfile. exact Hfile.
Qed.

Lemma picture_names_existing_file_witness :
  exists pubs',
    yaml_file (final_sys (Yaml.main (world_of_doc [mkPage []]) (sys_of [paper_2024; paper_2025])))
    = Some (Parsed (YSeq pubs')) /\
    forall p', pubs' !! 1 = Some p' -> p' <> paper_2025 ->
      exists ext, ext ∈ [".png"; ".jpg"; ".jpeg"] /\
        field "picture" p' = Some (YStr ("/images/publications/" +:+ "a-paper" +:+ ext)) /\
        is_Some (files (final_sys (Yaml.main (world_of_doc [mkPage []])
                                      (sys_of [paper_2024; paper_2025])))
                   !! image_file (world_of_doc [mkPage []]) ("a-paper" +:+ ext)).
Proof.
  destruct (picture_names_existing_file (world_of_doc [mkPage []])
              (sys_of [paper_2024; paper_2025]) [paper_2024; paper_2025] eq_refl)
    as (pubs' & Hfinal & Hpics).
  exists pubs'. split; [exact Hfinal|].
  intros p' Hp' Hne. apply (Hpics 1 paper_2025 p' eq_refl Hp' Hne). discriminate.
Defined.

(** The picture a run writes into a record whose slug is empty (a title
    without ASCII letter or digit) is
    [/images/publications/publications<ext>], while the file found for
    it lies beside the images directory, as [images/publications<ext>]:
    the output path of such a record is the directory itself. *)
Theorem empty_slug_picture (w : World) (s : Sys) (pubs : list YVal) :
  yaml_file s = Some (Parsed (YSeq pubs)) ->
  exists pubs',
    yaml_file (final_sys (Yaml.main w s)) = Some (Parsed (YSeq pubs')) /\
    forall j p p',
      pubs !! j = Some p -> pubs' !! j = Some p' -> p' <> p -> slug_of j p = "" ->
      exists ext, ext ∈ [".png"; ".jpg"; ".jpeg"] /\
        field "picture" p' = Some (YStr ("/images/publications/publications" +:+ ext)) /\
        is_Some (files (final_sys (Yaml.main w s))
                   !! mkPath (path_parent (ROOT w) ++ [path_name (ROOT w); "images"])
                             ("publications" +:+ ext)).
Proof.
  intros Hyaml. destruct (changed_is_pictured w s pubs Hyaml) as (pubs' & Hfinal & Hpics).
  exists pubs'. split; [exact Hfinal|].
  intros j p p' Hp Hp' Hne Hslug.
  destruct (Hpics j p p' Hp Hp' Hne) as (Hrec & ext & Hin & Hfile & ->).
  exists ext. split; [exact Hin|].
  unfold has_file in Hfile. rewrite (target_empty_slug w j p ext Hslug) in *.
  split; [apply field_picture_set, Hrec|]. apply bool_decide_eq_true in Hfile. exact Hfile.
Qed.

Lemma empty_slug_picture_witness :
  let s' := final_sys (Yaml.main (world_of_doc [mkPage []]) (sys_of [paper_untitled])) in
  exists pubs',
    yaml_file s' = Some (Parsed (YSeq pubs')) /\
    forall p', pubs' !! 0 = Some p' -> p' <> paper_untitled ->
      exists ext, ext ∈ [".png"; ".jpg"; ".jpeg"] /\
        field "picture" p' = Some (YStr ("/images/publications/publications" +:+ ext)) /\
        is_Some (files s' !! mkPath ["srv"; "site"; "images"] ("publications" +:+ ext)).
Proof.
  intros s'.
  destruct (empty_slug_picture (world_of_doc [mkPage []]) (sys_of [paper_untitled])
              [paper_untitled] eq_refl) as (pubs' & Hfinal & Hpics).
  exists pubs'. split; [exact Hfinal|].
  intros p' Hp' Hne. apply (Hpics 0 paper_untitled p' eq_refl Hp' Hne). reflexivity.
Defined.

(** The run on the record without letters: the rendering is written
    beside the images directory and the picture names a file inside it. *)
Example empty_slug_run :
  let s' := final_sys (Yaml.main (world_of_doc [mkPage []]) (sys_of [paper_untitled])) in
  yaml_file s'
  = Some (Parsed (YSeq [Yaml.set_picture paper_untitled
                          "/images/publications/publications.png"])) /\
  files s' !! mkPath ["srv"; "site"; "images"] "publications.png"
  = Some (PixmapPng (mkPage []) 150) /\
  files s' !! mkPath ["srv"; "site"; "images"; "publications"] "publications.png" = None.
Proof. repeat split; reflexivity. Qed.

(** ** The shape of slugs *)

Section SlugShape.

Let N : ascii -> bool := fun c => negb (Slug.is_slug_alnum c).

Lemma is_dash_eq (c : ascii) : Slug.is_dash c = true -> c = "-"%char.
Proof. apply Ascii.eqb_eq. Qed.

Lemma dash_not_alnum (c : ascii) : Slug.is_dash c = true -> Slug.is_slug_alnum c = false.
Proof. intros H. apply is_dash_eq in H. subst c. reflexivity. Qed.

Lemma alnum_not_dash (c : ascii) : Slug.is_slug_alnum c = true -> Slug.is_dash c = false.
Proof.
  intros H. destruct (Slug.is_dash c) eqn:Hd; [|reflexivity].
  apply dash_not_alnum in Hd. congruence.
Qed.

Lemma alnum_ranges (c : ascii) :
  Slug.is_slug_alnum c = true ->
  97 <= nat_of_ascii c <= 122 \/ 48 <= nat_of_ascii c <= 57.
Proof.
  unfold Slug.is_slug_alnum. intros H.
  apply orb_true_iff in H as [H | H]; apply andb_true_iff in H as [H1 H2];
    apply Nat.leb_le in H1, H2; lia.
Qed.

Lemma alnum_not_space (c : ascii) : Slug.is_slug_alnum c = true -> Slug.is_space c = false.
Proof.
  intros H. apply alnum_ranges in H. unfold Slug.is_space.
  apply orb_false_iff. split; apply andb_false_iff.
  - right. apply Nat.leb_gt. lia.
  - right. apply Nat.leb_gt. lia.
Qed.

Lemma alnum_lower_fixed (c : ascii) : Slug.is_slug_alnum c = true -> Slug.lower_char c = c.
Proof.
  intros H. apply alnum_ranges in H. unfold Slug.lower_char.
  replace ((65 <=? nat_of_ascii c)%nat && (nat_of_ascii c <=? 90)%nat) with false;
    [reflexivity|].
  symmetry. apply andb_false_iff.
  destruct H as [H | H]; [right | left]; apply Nat.leb_gt; lia.
Qed.

Lemma slug_char_not_space (c : ascii) : slug_char c = true -> Slug.is_space c = false.
Proof.
  unfold slug_char. intros H. apply orb_true_iff in H as [H | H].
  - apply alnum_not_space, H.
  - apply is_dash_eq in H. subst c. reflexivity.
Qed.

Lemma slug_char_lower_fixed (c : ascii) : slug_char c = true -> Slug.lower_char c = c.
Proof.
  unfold slug_char. intros H. apply orb_true_iff in H as [H | H].
  - apply alnum_lower_fixed, H.
  - apply is_dash_eq in H. subst c. reflexivity.
Qed.

(** *** What [slugify] builds *)

Lemma sub_runs_no_double (s : string) (in_run prev : bool) :
  (prev = true -> in_run = true) ->
  no_double_dash_from prev (Slug.sub_runs N in_run s) = true.
Proof.
  revert in_run prev. induction s as [|c s IH]; intros in_run prev Hprev; [reflexivity|].
  cbn [Slug.sub_runs]. unfold N at 1.
  destruct (Slug.is_slug_alnum c) eqn:Hc; cbn [negb].
  - cbn [no_double_dash_from]. rewrite (alnum_not_dash c Hc), andb_false_r. cbn [negb andb].
    apply IH. discriminate.
  - destruct in_run.
    + apply IH. auto.
    + cbn [no_double_dash_from].
      replace prev with false by (destruct prev; [discriminate (Hprev eq_refl) | reflexivity]).
      cbn. apply IH. auto.
Qed.

Lemma sub_runs_dash_fixed (s : string) (prev : bool) :
  no_double_dash_from prev s = true -> Slug.sub_runs Slug.is_dash prev s = s.
Proof.
  revert prev. induction s as [|c s IH]; intros prev Hno; [reflexivity|].
  cbn [no_double_dash_from] in Hno. apply andb_true_iff in Hno as [Hhere Hrest].
  cbn [Slug.sub_runs]. destruct (Slug.is_dash c) eqn:Hc.
  - rewrite andb_true_r in Hhere. apply negb_true_iff in Hhere. subst prev.
    rewrite (IH true Hrest). apply is_dash_eq in Hc. subst c. reflexivity.
  - rewrite (IH false Hrest). reflexivity.
Qed.

Lemma no_double_weaken (s : string) (prev : bool) :
  no_double_dash_from prev s = true -> no_double_dash_from false s = true.
Proof.
  destruct s as [|c s]; [reflexivity|]. cbn [no_double_dash_from].
  intros H. apply andb_true_iff in H as [_ H]. rewrite H. reflexivity.
Qed.

Lemma no_double_lstrip (P : ascii -> bool) (s : string) (prev : bool) :
  no_double_dash_from prev s = true ->
  no_double_dash_from false (Slug.lstrip P s) = true.
Proof.
  revert prev. induction s as [|c s IH]; intros prev Hno; [reflexivity|].
  cbn [Slug.lstrip]. destruct (P c).
  - cbn [no_double_dash_from] in Hno. apply andb_true_iff in Hno as [_ Hno].
    apply (IH _ Hno).
  - apply (no_double_weaken _ _ Hno).
Qed.

Lemma no_double_rstrip (P : ascii -> bool) (s : string) (prev : bool) :
  no_double_dash_from prev s = true ->
  no_double_dash_from prev (Slug.rstrip P s) = true.
Proof.
  revert prev. induction s as [|c s IH]; intros prev Hno; [reflexivity|].
  cbn [no_double_dash_from] in Hno. apply andb_true_iff in Hno as [Hhere Hrest].
  cbn [Slug.rstrip]. destruct (P c && String.eqb (Slug.rstrip P s) ""); [reflexivity|].
  cbn [no_double_dash_from]. rewrite Hhere, (IH _ Hrest). reflexivity.
Qed.

Lemma lstrip_dash_start (s : string) :
  starts_with_dash (Slug.lstrip Slug.is_dash s) = false.
Proof.
  induction s as [|c s IH]; [reflexivity|]. cbn [Slug.lstrip].
  destruct (Slug.is_dash c) eqn:Hc; [exact IH | exact Hc].
Qed.

Lemma rstrip_keeps_start (P : ascii -> bool) (s : string) :
  starts_with_dash s = false -> starts_with_dash (Slug.rstrip P s) = false.
Proof.
  destruct s as [|c s]; [reflexivity|]. cbn [Slug.rstrip starts_with_dash].
  intros Hc. destruct (P c && String.eqb (Slug.rstrip P s) ""); [reflexivity | exact Hc].
Qed.

Lemma rstrip_dash_end (s : string) :
  ends_with_dash (Slug.rstrip Slug.is_dash s) = false.
Proof.
  induction s as [|c s IH]; [reflexivity|]. cbn [Slug.rstrip].
  destruct (Slug.rstrip Slug.is_dash s) as [|c' r] eqn:Hr.
  - cbn. destruct (Slug.is_dash c) eqn:Hc; [reflexivity | exact Hc].
  - rewrite andb_false_r. exact IH.
Qed.

Lemma slugify_has_shape (text : string) : slug_shape (Slug.slugify text) = true.
Proof.
  unfold slug_shape, Slug.slugify, Slug.strip.
  set (r1 := Slug.sub_runs (fun c => negb (Slug.is_slug_alnum c)) false _).
  assert (Hno : no_double_dash_from false r1 = true) by (apply sub_runs_no_double; auto).
  rewrite (sub_runs_dash_fixed r1 false Hno).
  rewrite all_chars_rstrip by (apply all_chars_lstrip, sub_runs_non_alnum).
  rewrite (no_double_rstrip _ _ false) by (apply (no_double_lstrip _ _ false), Hno).
  rewrite rstrip_keeps_start by apply lstrip_dash_start.
  rewrite rstrip_dash_end. reflexivity.
Qed.

(** *** What [slugify] leaves as it is *)

Lemma lstrip_fixed (P : ascii -> bool) (s : string) :
  all_chars (fun c => negb (P c)) s = true -> Slug.lstrip P s = s.
Proof.
  destruct s as [|c s]; [reflexivity|]. cbn [all_chars Slug.lstrip].
  intros H. apply andb_true_iff in H as [Hc _]. apply negb_true_iff in Hc.
  rewrite Hc. reflexivity.
Qed.

Lemma rstrip_fixed (P : ascii -> bool) (s : string) :
  all_chars (fun c => negb (P c)) s = true -> Slug.rstrip P s = s.
Proof.
  induction s as [|c s IH]; [reflexivity|]. cbn [all_chars Slug.rstrip].
  intros H. apply andb_true_iff in H as [Hc Hs]. apply negb_true_iff in Hc.
  rewrite Hc, (IH Hs). reflexivity.
Qed.

Lemma all_chars_impl (P Q : ascii -> bool) (s : string) :
  (forall c, P c = true -> Q c = true) -> all_chars P s = true -> all_chars Q s = true.
Proof.
  intros Himpl. induction s as [|c s IH]; [reflexivity|]. cbn [all_chars].
  intros H. apply andb_true_iff in H as [Hc Hs]. rewrite (Himpl c Hc), (IH Hs). reflexivity.
Qed.

Lemma lower_eq (a : ascii) (s1 : string) :
  Slug.lower (String a s1)
  = match s1 with
    | EmptyString => String (Slug.lower_char a) EmptyString
    | String b s2 =>
        if Slug.is_dotted_capital_i a b
        then String "i" (String "204" (String "135" (Slug.lower s2)))
        else
          match s2 with
          | EmptyString => String (Slug.lower_char a) (Slug.lower s1)
          | String c s3 =>
              if Slug.is_kelvin_sign a b c then String "k" (Slug.lower s3)
              else String (Slug.lower_char a) (Slug.lower s1)
          end
    end.
Proof. destruct s1 as [|b [|c s3]]; reflexivity. Qed.

Lemma prefix_cons (a b : ascii) (s1 s2 : string) :
  String.prefix (String a s1) (String b s2) = Ascii.eqb a b && String.prefix s1 s2.
Proof.
  cbn [String.prefix]. destruct (ascii_dec a b) as [->|Hne].
  - rewrite Ascii.eqb_refl. reflexivity.
  - apply Ascii.eqb_neq in Hne. rewrite Hne. reflexivity.
Qed.

Lemma prefix_nil (s : string) : String.prefix "" s = true.
Proof. destruct s; reflexivity. Qed.

(** Where neither of the two characters starts, [lower] works on the
    first byte alone. *)
Lemma lower_plain (a : ascii) (s1 : string) :
  String.prefix dotted_capital_i (String a s1) = false ->
  String.prefix kelvin_sign (String a s1) = false ->
  Slug.lower (String a s1) = String (Slug.lower_char a) (Slug.lower s1).
Proof.
  intros Hdotted Hkelvin. rewrite lower_eq.
  destruct s1 as [|b s2]; [reflexivity|].
  destruct (Slug.is_dotted_capital_i a b) eqn:Hd.
  { apply andb_true_iff in Hd as [Ha Hb].
    apply Ascii.eqb_eq in Ha, Hb. subst a b.
    unfold dotted_capital_i in Hdotted. rewrite !prefix_cons, prefix_nil in Hdotted.
    discriminate Hdotted. }
  destruct s2 as [|c s3]; [reflexivity|].
  destruct (Slug.is_kelvin_sign a b c) eqn:Hk; [|reflexivity].
  apply andb_true_iff in Hk as [Hk Hc]. apply andb_true_iff in Hk as [Ha Hb].
  apply Ascii.eqb_eq in Ha, Hb, Hc. subst a b c.
  unfold kelvin_sign in Hkelvin. rewrite !prefix_cons, prefix_nil in Hkelvin.
  discriminate Hkelvin.
Qed.

Lemma slug_char_plain (a : ascii) (s1 : string) :
  slug_char a = true ->
  String.prefix dotted_capital_i (String a s1) = false /\
  String.prefix kelvin_sign (String a s1) = false.
Proof.
  intros Ha. unfold dotted_capital_i, kelvin_sign. rewrite !prefix_cons.
  split.
  - destruct (Ascii.eqb "196" a) eqn:E; [|reflexivity].
    apply Ascii.eqb_eq in E. subst a. discriminate Ha.
  - destruct (Ascii.eqb "226" a) eqn:E; [|reflexivity].
    apply Ascii.eqb_eq in E. subst a. discriminate Ha.
Qed.

Lemma lower_fixed (s : string) : all_chars slug_char s = true -> Slug.lower s = s.
Proof.
  induction s as [|c s IH]; [reflexivity|]. cbn [all_chars].
  intros H. apply andb_true_iff in H as [Hc Hs].
  destruct (slug_char_plain c s Hc) as [Hdotted Hkelvin].
  rewrite (lower_plain c s Hdotted Hkelvin), (slug_char_lower_fixed c Hc), (IH Hs).
  reflexivity.
Qed.

Lemma sub_runs_non_alnum_fixed (s : string) (prev : bool) :
  all_chars slug_char s = true -> no_double_dash_from prev s = true ->
  Slug.sub_runs N prev s = s.
Proof.
  revert prev. induction s as [|c s IH]; intros prev Hall Hno; [reflexivity|].
  cbn [all_chars] in Hall. apply andb_true_iff in Hall as [Hc Hs].
  cbn [no_double_dash_from] in Hno. apply andb_true_iff in Hno as [Hhere Hrest].
  cbn [Slug.sub_runs]. unfold N at 1.
  destruct (Slug.is_slug_alnum c) eqn:Ha; cbn [negb].
  - rewrite (alnum_not_dash c Ha) in Hrest. rewrite (IH false Hs Hrest). reflexivity.
  - unfold slug_char in Hc. rewrite Ha in Hc. cbn [orb] in Hc.
    rewrite Hc in Hhere, Hrest. rewrite andb_true_r in Hhere.
    apply negb_true_iff in Hhere. subst prev.
    rewrite (IH true Hs Hrest). apply is_dash_eq in Hc. subst c. reflexivity.
Qed.

Lemma lstrip_dash_fixed (s : string) :
  starts_with_dash s = false -> Slug.lstrip Slug.is_dash s = s.
Proof.
  destruct s as [|c s]; [reflexivity|]. cbn [starts_with_dash Slug.lstrip].
  intros ->. reflexivity.
Qed.

Lemma rstrip_cons (P : ascii -> bool) (c : ascii) (s : string) :
  Slug.rstrip P (String c s)
  = if P c && String.eqb (Slug.rstrip P s) "" then "" else String c (Slug.rstrip P s).
Proof. reflexivity. Qed.

Lemma rstrip_dash_fixed (s : string) :
  ends_with_dash s = false -> Slug.rstrip Slug.is_dash s = s.
Proof.
  induction s as [|c s IH]; [reflexivity|].
  destruct s as [|c' s'].
  - cbn. intros ->. reflexivity.
  - intros Hend. change (ends_with_dash (String c' s') = false) in Hend.
    rewrite rstrip_cons, (IH Hend). rewrite andb_false_r. reflexivity.
Qed.

Lemma slugify_fixed (s : string) : slug_shape s = true -> Slug.slugify s = s.
Proof.
  unfold slug_shape. intros H.
  apply andb_true_iff in H as [H Hend]. apply andb_true_iff in H as [H Hstart].
  apply andb_true_iff in H as [Hall Hno].
  apply negb_true_iff in Hend, Hstart.
  assert (Hspace : all_chars (fun c => negb (Slug.is_space c)) s = true).
  { apply (all_chars_impl slug_char); [|exact Hall].
    intros c Hc. apply negb_true_iff, slug_char_not_space, Hc. }
  unfold Slug.slugify, Slug.strip.
  rewrite (lstrip_fixed _ _ Hspace), (rstrip_fixed _ _ Hspace), (lower_fixed _ Hall).
  fold N. rewrite (sub_runs_non_alnum_fixed _ _ Hall Hno), (sub_runs_dash_fixed _ _ Hno).
  rewrite (lstrip_dash_fixed _ Hstart), (rstrip_dash_fixed _ Hend). reflexivity.
Qed.

End SlugShape.

(** A slug is made of characters of [a-z0-9-], has no dash at either end
    and no two dashes in a row; [slugify] leaves every string of that
    shape as it is, so slugifying a slug gives the slug back. *)
Theorem slugify_idempotent (text : string) :
  slug_shape (Slug.slugify text) = true /\
  Slug.slugify (Slug.slugify text) = Slug.slugify text /\
  (forall s, slug_shape s = true -> Slug.slugify s = s).
Proof.
  split; [apply slugify_has_shape|]. split.
  - apply slugify_fixed, slugify_has_shape.
  - apply slugify_fixed.
Qed.

(** ** Titles without a slug *)

Section EmptySlug.

Let N : ascii -> bool := fun c => negb (Slug.is_slug_alnum c).

Lemma space_not_alnum (c : ascii) : Slug.is_space c = true -> not_alnum c = true.
Proof.
  unfold Slug.is_space, not_alnum, Slug.lower_char, Slug.is_slug_alnum. intros H.
  assert (Hn : 9 <= nat_of_ascii c <= 32).
  { apply orb_true_iff in H as [H | H]; apply andb_true_iff in H as [H1 H2];
      apply Nat.leb_le in H1, H2; lia. }
  replace (65 <=? nat_of_ascii c)%nat with false by (symmetry; apply Nat.leb_gt; lia).
  cbn [andb]. apply negb_true_iff, orb_false_iff.
  split; apply andb_false_iff; left; apply Nat.leb_gt; lia.
Qed.

Lemma dash_is_N (c : ascii) : Slug.is_dash c = true -> N c = true.
Proof. intros H. unfold N. rewrite (dash_not_alnum c H). reflexivity. Qed.

Lemma all_chars_of_lstrip (P Q : ascii -> bool) (s : string) :
  (forall c, P c = true -> Q c = true) ->
  all_chars Q (Slug.lstrip P s) = true -> all_chars Q s = true.
Proof.
  intros Himpl. induction s as [|c s IH]; [reflexivity|]. cbn [Slug.lstrip].
  destruct (P c) eqn:Hc; [|auto]. intros H. cbn [all_chars].
  rewrite (Himpl c Hc), (IH H). reflexivity.
Qed.

Lemma all_chars_of_rstrip (P Q : ascii -> bool) (s : string) :
  (forall c, P c = true -> Q c = true) ->
  all_chars Q (Slug.rstrip P s) = true -> all_chars Q s = true.
Proof.
  intros Himpl. induction s as [|c s IH]; [reflexivity|]. rewrite rstrip_cons.
  destruct (P c) eqn:Hc; cbn [andb].
  - destruct (String.eqb (Slug.rstrip P s) "") eqn:He.
    + intros _. apply String.eqb_eq in He. rewrite He in IH.
      cbn [all_chars]. rewrite (Himpl c Hc), (IH eq_refl). reflexivity.
    + cbn [all_chars]. intros H. apply andb_true_iff in H as [Hq Hs].
      rewrite Hq, (IH Hs). reflexivity.
  - cbn [all_chars]. intros H. apply andb_true_iff in H as [Hq Hs].
    rewrite Hq, (IH Hs). reflexivity.
Qed.

Lemma all_chars_of_sub_dash (s : string) (in_run : bool) :
  all_chars N (Slug.sub_runs Slug.is_dash in_run s) = true -> all_chars N s = true.
Proof.
  revert in_run. induction s as [|c s IH]; intros in_run; [reflexivity|].
  cbn [Slug.sub_runs all_chars]. destruct (Slug.is_dash c) eqn:Hc.
  - rewrite (dash_is_N c Hc). destruct in_run.
    + apply IH.
    + cbn [all_chars]. intros H. apply andb_true_iff in H as [_ H]. apply (IH _ H).
  - cbn [all_chars]. intros H. apply andb_true_iff in H as [Hn H].
    rewrite Hn, (IH _ H). reflexivity.
Qed.

Lemma all_chars_of_sub_non_alnum (s : string) (in_run : bool) :
  all_chars N (Slug.sub_runs N in_run s) = true -> all_chars N s = true.
Proof.
  revert in_run. induction s as [|c s IH]; intros in_run; [reflexivity|].
  cbn [Slug.sub_runs all_chars]. destruct (N c) eqn:Hc.
  - destruct in_run.
    + apply IH.
    + cbn [all_chars]. intros H. apply andb_true_iff in H as [_ H]. apply (IH _ H).
  - cbn [all_chars]. rewrite Hc. discriminate.
Qed.

Lemma contains_cons (sub : string) (c : ascii) (s : string) :
  PyStr.contains sub (String c s) = String.prefix sub (String c s) || PyStr.contains sub s.
Proof. reflexivity. Qed.

(** Where one of the two characters starts, the lower case starts with
    an ASCII letter. *)
Lemma lower_head_dotted (s : string) :
  String.prefix dotted_capital_i s = true -> all_chars N (Slug.lower s) = false.
Proof.
  unfold dotted_capital_i. destruct s as [|a [|b s2]]; [discriminate| |].
  - rewrite !prefix_cons. cbn [String.prefix]. rewrite andb_false_r. discriminate.
  - rewrite !prefix_cons, prefix_nil. intros H.
    apply andb_true_iff in H as [Ha H]. apply andb_true_iff in H as [Hb _].
    apply Ascii.eqb_eq in Ha, Hb. subst a b. reflexivity.
Qed.

Lemma lower_head_kelvin (s : string) :
  String.prefix kelvin_sign s = true -> all_chars N (Slug.lower s) = false.
Proof.
  unfold kelvin_sign. destruct s as [|a [|b [|c s3]]]; [discriminate| | |].
  - rewrite !prefix_cons. cbn [String.prefix]. rewrite andb_false_r. discriminate.
  - rewrite !prefix_cons. cbn [String.prefix]. rewrite !andb_false_r. discriminate.
  - rewrite !prefix_cons, prefix_nil. intros H.
    apply andb_true_iff in H as [Ha H]. apply andb_true_iff in H as [Hb H].
    apply andb_true_iff in H as [Hc _].
    apply Ascii.eqb_eq in Ha, Hb, Hc. subst a b c. reflexivity.
Qed.

(** The lower case of a text has no ASCII letter or digit exactly when
    the text has none and holds neither of the two characters. *)
Lemma lower_not_alnum (s : string) :
  all_chars N (Slug.lower s)
  = all_chars not_alnum s && negb (PyStr.contains kelvin_sign s)
    && negb (PyStr.contains dotted_capital_i s).
Proof.
  induction s as [|a s1 IH]; [reflexivity|].
  rewrite !contains_cons.
  destruct (String.prefix dotted_capital_i (String a s1)) eqn:Hd.
  { rewrite (lower_head_dotted _ Hd). cbn [orb negb]. rewrite andb_false_r. reflexivity. }
  destruct (String.prefix kelvin_sign (String a s1)) eqn:Hk.
  { rewrite (lower_head_kelvin _ Hk). cbn [orb negb]. rewrite andb_false_r. reflexivity. }
  rewrite (lower_plain a s1 Hd Hk). cbn [all_chars orb]. rewrite IH.
  unfold not_alnum, N. rewrite !andb_assoc. reflexivity.
Qed.

(** Stripping white space removes no occurrence of a text that holds no
    white space. *)
Lemma contains_lstrip (p : ascii) (pat s : string) :
  Slug.is_space p = false ->
  PyStr.contains (String p pat) (Slug.lstrip Slug.is_space s)
  = PyStr.contains (String p pat) s.
Proof.
  intros Hp. induction s as [|c s IH]; [reflexivity|]. cbn [Slug.lstrip].
  destruct (Slug.is_space c) eqn:Hc; [|reflexivity].
  rewrite IH, contains_cons, prefix_cons.
  replace (Ascii.eqb p c) with false; [reflexivity|].
  symmetry. apply Ascii.eqb_neq. intros ->. congruence.
Qed.

Lemma prefix_rstrip (pat s : string) :
  all_chars (fun c => negb (Slug.is_space c)) pat = true ->
  String.prefix pat (Slug.rstrip Slug.is_space s) = String.prefix pat s.
Proof.
  revert pat. induction s as [|c s IH]; intros pat Hpat; [reflexivity|].
  destruct pat as [|p pat]; [rewrite !prefix_nil; reflexivity|].
  cbn [all_chars] in Hpat. apply andb_true_iff in Hpat as [Hp Hpat].
  apply negb_true_iff in Hp. rewrite rstrip_cons.
  destruct (Slug.is_space c) eqn:Hc; cbn [andb].
  - destruct (String.eqb (Slug.rstrip Slug.is_space s) "") eqn:He.
    + rewrite prefix_cons. replace (Ascii.eqb p c) with false; [reflexivity|].
      symmetry. apply Ascii.eqb_neq. intros ->. congruence.
    + rewrite !prefix_cons, (IH pat Hpat). reflexivity.
  - rewrite !prefix_cons, (IH pat Hpat). reflexivity.
Qed.

Lemma contains_rstrip (p : ascii) (pat s : string) :
  all_chars (fun c => negb (Slug.is_space c)) (String p pat) = true ->
  PyStr.contains (String p pat) (Slug.rstrip Slug.is_space s)
  = PyStr.contains (String p pat) s.
Proof.
  intros Hpat. induction s as [|c s IH]; [reflexivity|].
  rewrite (contains_cons _ c s), <- (prefix_rstrip _ (String c s) Hpat), <- IH, rstrip_cons.
  destruct (Slug.is_space c && String.eqb (Slug.rstrip Slug.is_space s) "") eqn:Hcase.
  - apply andb_true_iff in Hcase as [_ He]. apply String.eqb_eq in He. rewrite He.
    reflexivity.
  - reflexivity.
Qed.

Lemma contains_strip (p : ascii) (pat s : string) :
  all_chars (fun c => negb (Slug.is_space c)) (String p pat) = true ->
  PyStr.contains (String p pat) (Slug.strip Slug.is_space s)
  = PyStr.contains (String p pat) s.
Proof.
  intros Hpat. unfold Slug.strip. rewrite (contains_rstrip _ _ _ Hpat).
  apply contains_lstrip. cbn [all_chars] in Hpat.
  apply andb_true_iff in Hpat as [Hp _]. apply negb_true_iff, Hp.
Qed.

Lemma not_alnum_strip (s : string) :
  all_chars not_alnum (Slug.strip Slug.is_space s) = all_chars not_alnum s.
Proof.
  destruct (all_chars not_alnum s) eqn:Hs.
  - apply all_chars_strip, Hs.
  - destruct (all_chars not_alnum (Slug.strip Slug.is_space s)) eqn:Hstrip; [|reflexivity].
    rewrite <- Hs. symmetry.
    apply (all_chars_of_lstrip Slug.is_space), (all_chars_of_rstrip Slug.is_space);
      try apply space_not_alnum.
    exact Hstrip.
Qed.

Lemma sub_runs_cons (P : ascii -> bool) (in_run : bool) (c : ascii) (s : string) :
  Slug.sub_runs P in_run (String c s)
  = if P c
    then (if in_run then Slug.sub_runs P true s else String "-" (Slug.sub_runs P true s))
    else String c (Slug.sub_runs P false s).
Proof. reflexivity. Qed.

Lemma sub_runs_in_run_empty (s : string) :
  all_chars N s = true -> Slug.sub_runs N true s = "".
Proof.
  induction s as [|c s IH]; [reflexivity|]. cbn [all_chars Slug.sub_runs].
  intros H. apply andb_true_iff in H as [Hc Hs]. rewrite Hc. apply IH, Hs.
Qed.

(** The slug is empty exactly when the lower case of the stripped text
    has no ASCII letter or digit. *)
Lemma slugify_empty_lower (text : string) :
  Slug.slugify text = "" <->
  all_chars N (Slug.lower (Slug.strip Slug.is_space text)) = true.
Proof.
  split.
  - intros Hempty.
    assert (Hdash : forall c, Slug.is_dash c = true -> N c = true) by apply dash_is_N.
    apply (all_chars_of_sub_non_alnum _ false), (all_chars_of_sub_dash _ false).
    apply (all_chars_of_lstrip Slug.is_dash N _ Hdash).
    apply (all_chars_of_rstrip Slug.is_dash N _ Hdash).
    match goal with |- all_chars N ?x = true => change x with (Slug.slugify text) end.
    rewrite Hempty. reflexivity.
  - intros Hu. unfold Slug.slugify.
    destruct (Slug.lower (Slug.strip Slug.is_space text)) as [|c u]; [reflexivity|].
    cbn [all_chars] in Hu. apply andb_true_iff in Hu as [Hc Hu].
    change (Slug.strip Slug.is_dash
              (Slug.sub_runs Slug.is_dash false (Slug.sub_runs N false (String c u))) = "").
    rewrite (sub_runs_cons N), Hc, (sub_runs_in_run_empty u Hu). reflexivity.
Qed.

Lemma slugify_empty_chars (text : string) :
  Slug.slugify text = "" <->
  all_chars not_alnum text && negb (PyStr.contains kelvin_sign text)
  && negb (PyStr.contains dotted_capital_i text) = true.
Proof.
  rewrite slugify_empty_lower, lower_not_alnum, not_alnum_strip.
  unfold kelvin_sign, dotted_capital_i. rewrite !contains_strip by reflexivity.
  reflexivity.
Qed.

End EmptySlug.

(** [slugify] gives the empty string exactly for a text that has no
    ASCII letter or digit and holds neither U+212A, KELVIN SIGN, nor
    U+0130, LATIN CAPITAL LETTER I WITH DOT ABOVE, the two characters
    outside ASCII whose lower case holds an ASCII letter: the empty
    text, punctuation, a title written in another script. *)
Theorem slugify_empty_iff (text : string) :
  Slug.slugify text = "" <->
  all_chars not_alnum text = true /\
  PyStr.contains kelvin_sign text = false /\
  PyStr.contains dotted_capital_i text = false.
Proof.
  rewrite slugify_empty_chars, !andb_true_iff, !negb_true_iff. tauto.
Qed.

(** The two characters give a slug of one letter, a title in another
    script gives none. *)
Example slugify_special_cases :
  Slug.slugify kelvin_sign = "k" /\ Slug.slugify dotted_capital_i = "i" /\
  Slug.slugify (String "206" (String "177" (String "206" (String "178" "")))) = "".
Proof. repeat split; reflexivity. Qed.

(** ** From the extraction to the picture *)

(** When the extraction falls back to rendering page 1, the record gets
    the rendering as its picture and the flag is set, whatever the image
    directory held before: the rendering is written under [.png], the
    first suffix probed. *)
Theorem rendered_page_becomes_picture
    (w : World) (i : nat) (paper : YVal) (updated : bool) (s : Sys)
    (url : string) (pdf : list Byte.byte) (page : Page) (rest : list Page) :
  is_2025 paper = true -> has_picture paper = false -> text_title paper = true ->
  Yaml.find_pdf_url paper = Returns (YStr url) -> url <> "" ->
  http_get w url = Some pdf -> fitz_open w pdf = Some (page :: rest) ->
  Forall (fun a => (Z.of_nat (length (img_image a)) < 10000)%Z) (window (page :: rest)) ->
  Yaml.process_paper w i paper updated s
  = Ret (Yaml.set_picture paper
           ("/images/publications/"
            +:+ path_name (PyPath.with_suffix (target_of w i paper) ".png")), true)
        (put_file (PyPath.with_suffix (target_of w i paper) ".png") (PixmapPng page 150)
                  (log_request url s)).
Proof.
  intros Hyear Hpic Htitle Hurl Hne Hget Hopen Hsmall.
  rewrite (process_paper_wanted w i paper updated s url Hyear Hpic Htitle Hurl Hne).
  unfold serve. cbv zeta.
  rewrite Hget, Hopen. unfold extract_outcome.
  rewrite find_none_all.
  2:{ eapply Forall_impl; [exact Hsmall|]. intros a Ha. apply qualifies_false, Ha. }
  cbn [fst snd]. f_equal. unfold probe. cbn [find].
  replace (has_file (save_render (target_of w i paper) page (log_request url s))
             (target_of w i paper) ".png") with true; [reflexivity|].
  symmetry. unfold has_file, save_render. cbn [put_file files].
  rewrite lookup_insert_eq. apply bool_decide_eq_true. eauto.
Qed.

Lemma rendered_page_becomes_picture_witness :
  Yaml.process_paper (world_of_doc [mkPage [img_5k]]) 0 paper_2025 false sys_stale_png
  = Ret (Yaml.set_picture paper_2025 "/images/publications/a-paper.png", true)
        (put_file (mkPath ["srv"; "site"; "images"; "publications"] "a-paper.png")
                  (PixmapPng (mkPage [img_5k]) 150)
                  (log_request "https://example.org/paper.pdf" sys_stale_png)).
Proof.
  apply (rendered_page_becomes_picture (world_of_doc [mkPage [img_5k]]) 0 paper_2025 false
           sys_stale_png "https://example.org/paper.pdf" [Byte.x01] (mkPage [img_5k]) []);
    try reflexivity.
  - discriminate.
  - constructor; [exact img_5k_small | constructor].
Defined.

(** ** The manual batch, beyond its exit status *)

(** A run of the manual batch requests nothing but table entries, each
    for a record without picture whose title is its key; it leaves every
    record whose title is no key, or that has a picture, exactly as it
    was, changes of the others nothing but the picture, never removes an
    image file and rewrites the data file at most once. *)
Theorem remaining_only_table (w : World) (s : Sys) (pubs : list YVal) :
  yaml_file s = Some (Parsed (YSeq pubs)) ->
  let s' := final_sys (Remaining.main w s) in
  (exists new, http_log s' = (new ++ http_log s)%list /\
               Forall (manual_request_for pubs) new) /\
  (exists pubs', yaml_file s' = Some (Parsed (YSeq pubs')) /\
                 Forall2 manual_kept pubs pubs') /\
  (forall path, is_Some (files s !! path) -> is_Some (files s' !! path)) /\
  yaml_dumps s' <= S (yaml_dumps s).
Proof.
  intros Hyaml. cbv zeta. rewrite (remaining_main_on_list w s pubs Hyaml).
  pose proof (manual_batch_inv w pubs false s) as Hinv.
  destruct (manual_batch w pubs false s) as [[pubs' updated] s1]. cbn [fst snd].
  destruct Hinv as (Hy & _ & Hd & Hf & Hrel & Hchg & Hlog).
  destruct (manual_first_abort pubs) as [name|]; cbn [final_sys].
  - split; [exact Hlog|].
    split; [exists pubs; split; [congruence | apply manual_kept_refl]|].
    split; [exact Hf | lia].
  - destruct Hchg as [[-> ->] | [-> _]].
    + split; [exact Hlog|]. split; [exists pubs; split; [congruence | exact Hrel]|].
      split; [exact Hf | lia].
    + split; [exact Hlog|]. split; [exists pubs'; split; [reflexivity | exact Hrel]|].
      split; [exact Hf | cbn; lia].
Qed.

Lemma remaining_only_table_witness :
  let s' := final_sys (Remaining.main (world_of_doc [mkPage []])
                         (sys_of [paper_other; paper_datagen])) in
  exists pubs', yaml_file s' = Some (Parsed (YSeq pubs')) /\ pubs' !! 0 = Some paper_other.
Proof.
  intros s'.
  destruct (remaining_only_table (world_of_doc [mkPage []])
              (sys_of [paper_other; paper_datagen]) [paper_other; paper_datagen] eq_refl)
    as (_ & (pubs' & Hfinal & Hrel) & _).
  exists pubs'. split; [exact Hfinal|].
  destruct (Forall2_lookup_l _ _ _ 0 paper_other Hrel eq_refl) as (p' & Hp' & _ & Hkept).
  rewrite Hp'. f_equal. apply Hkept. left. reflexivity.
Defined.

(** The run of the witness: the record of the table is served from the
    table's URL, the other one is not touched. *)
Example remaining_run :
  let s' := final_sys (Remaining.main (world_of_doc [mkPage []])
                         (sys_of [paper_other; paper_datagen])) in
  http_log s' = ["https://openreview.net/pdf?id=F5R0lG74Tu"] /\
  yaml_file s'
  = Some (Parsed (YSeq [paper_other;
                Yaml.set_picture paper_datagen
                  "/images/publications/datagen-unified-synthetic-dataset-generation-via-large-language-models.png"])).
Proof. split; reflexivity. Qed.

(** ** The run of the HTML batch *)

Lemma prefix_cons_inv (a b : ascii) (s1 s2 : string) :
  String.prefix (String a s1) (String b s2) = true -> a = b /\ String.prefix s1 s2 = true.
Proof.
  change (String.prefix (String a s1) (String b s2))
    with (if ascii_dec a b then String.prefix s1 s2 else false).
  destruct (ascii_dec a b); [auto | discriminate].
Qed.

Lemma startswith_http_inv (h : string) :
  PyStr.startswith "http" h = true -> exists r, h = "http" +:+ r.
Proof.
  unfold PyStr.startswith.
  destruct h as [|c1 [|c2 [|c3 [|c4 r]]]]; try discriminate; intros H.
  - apply prefix_cons_inv in H as [_ H]. discriminate.
  - apply prefix_cons_inv in H as [_ H]. apply prefix_cons_inv in H as [_ H]. discriminate.
  - do 3 apply prefix_cons_inv in H as [_ H]. discriminate.
  - apply prefix_cons_inv in H as [<- H]. apply prefix_cons_inv in H as [<- H].
    apply prefix_cons_inv in H as [<- H]. apply prefix_cons_inv in H as [<- H].
    exists r. reflexivity.
Qed.

(** Whatever the link, the URL the HTML batch downloads from starts with
    [http]: a link that does not is taken as a path of the fixed site. *)
Lemma normalize_starts_http (href : string) :
  PyStr.startswith "http" (Html.normalize_pdf_url href) = true.
Proof.
  unfold Html.normalize_pdf_url.
  destruct (PyStr.startswith "http" href) eqn:Hhttp; [|reflexivity].
  destruct (PyStr.contains "arxiv.org/abs" href); [|exact Hhttp].
  destruct (negb (PyStr.endswith ".pdf" href)); [|exact Hhttp].
  destruct (startswith_http_inv href Hhttp) as [r ->].
  unfold PyStr.startswith, PyStr.replace. cbn. apply prefix_nil.
Qed.

Lemma html_process_row_inv (w : World) (i : nat) (tr : Row) (s : Sys) :
  exists s', Html.process_row w i tr s = Ret tt s' /\
    yaml_file s' = yaml_file s /\ html_rows s' = html_rows s /\
    yaml_dumps s' = yaml_dumps s /\
    (forall path, is_Some (files s !! path) -> is_Some (files s' !! path)) /\
    http_log s' = (match html_wanted_url tr with Some u => [u] | None => [] end
                   ++ http_log s)%list.
Proof.
  unfold Html.process_row, html_wanted_url.
  destruct (Html.find_pdf_link tr) as [href|]; cbn [PyStr.truthy negb];
    [|exists s; repeat split; auto].
  destruct (String.eqb href ""); cbn [negb get_default]; [exists s; repeat split; auto|].
  set (pdf_url := Html.normalize_pdf_url href). set (out_path := PyPath.with_suffix _ "").
  unfold mbind at 1, M_bind at 1.
  unfold try_except at 1, mbind at 1, M_bind at 1, download_file.
  destruct (http_get w pdf_url) as [pdf|];
    [|exists (log_request pdf_url s); repeat split; auto].
  cbn [mret M_ret]. unfold try_except, mbind, M_bind.
  destruct (fitz_open w pdf) as [doc|] eqn:Hopen.
  - rewrite (html_extract_spec _ _ _ _ _ Hopen).
    destruct (head (all_images doc)) as [img|].
    + eexists. split; [reflexivity|]. repeat split; auto.
      intros path Hsome. apply put_file_keeps_files. exact Hsome.
    + destruct doc as [|page rest]; eexists; (split; [reflexivity|]); repeat split; auto.
      intros path Hsome. apply put_file_keeps_files. exact Hsome.
  - rewrite (html_extract_raises _ _ _ _ Hopen). eexists. split; [reflexivity|].
    repeat split; auto.
Qed.

Lemma html_process_all_inv (w : World) (rows : list Row) (i : nat) (s : Sys) :
  exists s', Html.process_all w i rows s = Ret tt s' /\
    yaml_file s' = yaml_file s /\ html_rows s' = html_rows s /\
    yaml_dumps s' = yaml_dumps s /\
    (forall path, is_Some (files s !! path) -> is_Some (files s' !! path)) /\
    http_log s' = (reverse (omap html_wanted_url rows) ++ http_log s)%list.
Proof.
  revert i s. induction rows as [|tr rest IH]; intros i s; [exists s; repeat split; auto|].
  cbn [Html.process_all]. unfold mbind, M_bind.
  destruct (html_process_row_inv w i tr s) as (s1 & -> & Hy & Hh & Hd & Hf & Hlog).
  destruct (IH (S i) s1) as (s2 & -> & Hy' & Hh' & Hd' & Hf' & Hlog').
  exists s2. split; [reflexivity|].
  split; [congruence|]. split; [congruence|]. split; [congruence|].
  split; [intros path Hsome; apply Hf', Hf, Hsome|].
  rewrite Hlog', Hlog, omap_cons. destruct (html_wanted_url tr) as [u|].
  - rewrite reverse_cons, <- app_assoc. reflexivity.
  - reflexivity.
Qed.

Lemma html_wanted_starts_http (rows : list Row) :
  Forall (fun u => PyStr.startswith "http" u = true) (omap html_wanted_url rows).
Proof.
  induction rows as [|tr rest IH]; [constructor|]. rewrite omap_cons.
  destruct (html_wanted_url tr) as [u|] eqn:Hu; [|exact IH].
  constructor; [|exact IH]. unfold html_wanted_url in Hu.
  destruct (Html.find_pdf_link tr) as [href|]; [|discriminate].
  destruct (String.eqb href ""); [discriminate|]. injection Hu as <-.
  apply normalize_starts_http.
Qed.

(** A run of the HTML batch writes neither the page it reads nor the data
    file and never removes an image file; it makes exactly one request
    per row in which a link is found, in document order, to the
    normalised link, and every URL it requests starts with [http]. *)
Theorem html_main_frame (w : World) (s : Sys) (rows : list Row) :
  html_rows s = Some (Parsed rows) ->
  let s' := final_sys (Html.main w s) in
  yaml_file s' = yaml_file s /\ html_rows s' = html_rows s /\
  yaml_dumps s' = yaml_dumps s /\
  (forall path, is_Some (files s !! path) -> is_Some (files s' !! path)) /\
  http_log s' = (reverse (omap html_wanted_url rows) ++ http_log s)%list /\
  Forall (fun u => PyStr.startswith "http" u = true) (omap html_wanted_url rows).
Proof.
  intros Hrows. cbv zeta.
  assert (Hmain : Html.main w s = Html.process_all w 1 rows s).
  { unfold Html.main, mbind, M_bind, get_sys. rewrite Hrows. reflexivity. }
  rewrite Hmain.
  destruct (html_process_all_inv w rows 1 s) as (s' & -> & Hy & Hh & Hd & Hf & Hlog).
  cbn [final_sys].
  split; [exact Hy|]. split; [exact Hh|]. split; [exact Hd|]. split; [exact Hf|].
  split; [exact Hlog | apply html_wanted_starts_http].
Qed.

Lemma html_main_frame_witness :
  http_log (final_sys (Html.main world_flaky
              (mkSys None (Some (Parsed [row_with_img; mkRow None ["/papers/x.pdf"] None])) ∅ [] 0)))
  = ["https://xiaocw11.github.io/papers/x.pdf"; "https://arxiv.org/pdf/2401.00001.pdf"].
Proof.
  destruct (html_main_frame world_flaky
              (mkSys None (Some (Parsed [row_with_img; mkRow None ["/papers/x.pdf"] None])) ∅ [] 0)
              [row_with_img; mkRow None ["/papers/x.pdf"] None] eq_refl)
    as (_ & _ & _ & _ & Hlog & _).
  exact Hlog.
Defined.

(** ** Where the HTML batch saves an image *)

Lemma string_app_cons (c : ascii) (a b : string) :
  String c a +:+ b = String c (a +:+ b).
Proof. reflexivity. Qed.

Lemma string_length_app (a b : string) :
  String.length (a +:+ b) = String.length a + String.length b.
Proof.
  induction a as [|c a IH]; [reflexivity|].
  rewrite string_app_cons. cbn [String.length Nat.add]. f_equal. exact IH.
Qed.

Lemma substring_app_l (a b : string) : String.substring 0 (String.length a) (a +:+ b) = a.
Proof.
  induction a as [|c a IH]; [destruct b; reflexivity|].
  rewrite string_app_cons. cbn [String.length String.substring]. f_equal. exact IH.
Qed.

Lemma substring_app_r (a b : string) :
  String.substring (String.length a) (String.length b) (a +:+ b) = b.
Proof.
  induction a as [|c a IH]; [apply substring_all|].
  rewrite string_app_cons. cbn [String.length String.substring]. exact IH.
Qed.

Lemma string_app_nil_r (a : string) : a +:+ "" = a.
Proof.
  induction a as [|c a IH]; [reflexivity|]. rewrite string_app_cons. f_equal. exact IH.
Qed.

Lemma rfind_dot_no_dot (s : string) (i : nat) :
  no_dot s = true -> PyPath.rfind_dot s i = None.
Proof.
  unfold no_dot. revert i. induction s as [|c s IH]; intros i Hall; [reflexivity|].
  cbn [all_chars] in Hall. apply andb_true_iff in Hall as [Hc Hs].
  cbn [PyPath.rfind_dot]. rewrite (IH _ Hs). apply negb_true_iff in Hc. rewrite Hc.
  reflexivity.
Qed.

Lemma rfind_dot_last (stem old : string) (i : nat) :
  no_dot old = true ->
  PyPath.rfind_dot (stem +:+ "." +:+ old) i = Some (i + String.length stem).
Proof.
  intros Hold. revert i. induction stem as [|c stem IH]; intros i.
  - change ("" +:+ "." +:+ old) with (String "." old).
    cbn [PyPath.rfind_dot String.length].
    rewrite (rfind_dot_no_dot old _ Hold). cbn. f_equal. lia.
  - rewrite string_app_cons. cbn [PyPath.rfind_dot String.length]. rewrite IH. f_equal. lia.
Qed.

Lemma suffix_stem_ext (stem old : string) :
  stem <> "" -> old <> "" -> no_dot old = true ->
  PyPath.suffix (stem +:+ "." +:+ old) = "." +:+ old.
Proof.
  intros Hstem Hne Hold. unfold PyPath.suffix.
  rewrite (rfind_dot_last stem old 0 Hold). cbn [Nat.add].
  rewrite string_length_app. change (String.length ("." +:+ old)) with (S (String.length old)).
  assert (Hs : 0 < String.length stem) by (destruct stem; [contradiction | cbn; lia]).
  assert (Ho : 0 < String.length old) by (destruct old; [contradiction | cbn; lia]).
  replace ((0 <? String.length stem)%nat
           && (String.length stem <? String.length stem + S (String.length old) - 1)%nat)
    with true.
  2:{ symmetry. apply andb_true_iff. split; apply Nat.ltb_lt; lia. }
  replace (String.length stem + S (String.length old) - String.length stem)
    with (String.length ("." +:+ old))
    by (change (String.length ("." +:+ old)) with (S (String.length old)); lia).
  apply (substring_app_r stem ("." +:+ old)).
Qed.

Lemma suffix_no_dot (stem : string) : no_dot stem = true -> PyPath.suffix stem = "".
Proof. intros H. unfold PyPath.suffix. rewrite (rfind_dot_no_dot stem 0 H). reflexivity. Qed.

Lemma with_suffix_strip (parent : list string) (stem old : string) :
  stem <> "" -> old <> "" -> no_dot old = true ->
  PyPath.with_suffix (mkPath parent (stem +:+ "." +:+ old)) "" = mkPath parent stem.
Proof.
  intros Hstem Hne Hold. unfold PyPath.with_suffix. cbn [path_name path_parent].
  rewrite (suffix_stem_ext stem old Hstem Hne Hold), string_length_app.
  replace (String.length stem + String.length ("." +:+ old) - String.length ("." +:+ old))
    with (String.length stem) by lia.
  rewrite substring_app_l, string_app_nil_r. reflexivity.
Qed.

Lemma with_suffix_add (parent : list string) (stem suf : string) :
  no_dot stem = true ->
  PyPath.with_suffix (mkPath parent stem) suf = mkPath parent (stem +:+ suf).
Proof.
  intros Hs. unfold PyPath.with_suffix. cbn [path_name path_parent].
  rewrite (suffix_no_dot stem Hs). cbn [String.length].
  rewrite Nat.sub_0_r, substring_all. reflexivity.
Qed.

(** Taking the suffix off [stem.old] and putting on the suffix of the
    image gives [stem.ext], in the same directory. *)
Lemma html_out_path (parent : list string) (stem old ext : string) :
  stem <> "" -> old <> "" -> no_dot stem = true -> no_dot old = true ->
  PyPath.with_suffix (PyPath.with_suffix (mkPath parent (stem +:+ "." +:+ old)) "")
                     ("." +:+ ext)
  = mkPath parent (stem +:+ "." +:+ ext).
Proof.
  intros Hstem Hne Hs Hold.
  rewrite (with_suffix_strip parent stem old Hstem Hne Hold).
  apply with_suffix_add, Hs.
Qed.

(** For a row in which a link is found, whose download succeeds and
    opens as a document with an embedded image, the HTML batch writes the
    first embedded image, and nothing else, to the path of the row with
    its suffix replaced by the extension of the image: a path whose name
    is [stem.old], with no other dot, gives the file [stem.ext] in the
    same directory. *)
Theorem html_row_saved_as
    (w : World) (i : nat) (tr : Row) (s : Sys) (href : string) (pdf : list Byte.byte)
    (doc : Doc) (img : ImgDict) (rest : list ImgDict) (stem old : string) :
  Html.find_pdf_link tr = Some href -> href <> "" ->
  http_get w (Html.normalize_pdf_url href) = Some pdf ->
  fitz_open w pdf = Some doc ->
  all_images doc = img :: rest ->
  path_name (html_target w i tr) = stem +:+ "." +:+ old ->
  stem <> "" -> old <> "" -> no_dot stem = true -> no_dot old = true ->
  Html.process_row w i tr s
  = Ret tt (put_file (mkPath (path_parent (html_target w i tr))
                             (stem +:+ "." +:+ get_default (img_ext img) "png"))
                     (ImageBytes (img_image img))
                     (log_request (Html.normalize_pdf_url href) s)).
Proof.
  intros Hlink Hne Hget Hopen Hall Hname Hstem Hold Hs Ho.
  unfold Html.process_row. fold (html_target w i tr).
  rewrite Hlink. cbn [PyStr.truthy get_default].
  apply String.eqb_neq in Hne. rewrite Hne. cbn [negb].
  unfold mbind at 1, M_bind at 1.
  unfold try_except at 1, mbind at 1, M_bind at 1, download_file. rewrite Hget.
  cbn [mret M_ret]. unfold try_except, mbind, M_bind.
  rewrite (html_extract_spec _ _ _ _ _ Hopen), Hall. cbn [head].
  unfold save_image, saved_as.
  destruct (html_target w i tr) as [parent name]. cbn [path_name path_parent] in *.
  subst name. rewrite (html_out_path parent stem old _ Hstem Hold Hs Ho). reflexivity.
Qed.

Lemma html_row_saved_as_witness :
  Html.process_row (world_of_doc [mkPage [img_5k; img_20k]]) 1 row_with_img empty_sys
  = Ret tt (put_file (mkPath ["srv"; "site"; "images"; "publications"] "fig-one.png")
                     (ImageBytes (img_image img_5k))
                     (log_request "https://arxiv.org/pdf/2401.00001.pdf" empty_sys)).
Proof.
  apply (html_row_saved_as (world_of_doc [mkPage [img_5k; img_20k]]) 1 row_with_img empty_sys
           "https://arxiv.org/abs/2401.00001" [Byte.x01] [mkPage [img_5k; img_20k]]
           img_5k [img_20k] "fig-one" "png"); reflexivity || discriminate.
Defined.
